(** * firecracker-containerd: shim runtime core and thin-pool snapshotter

    A shallow embedding of [runtime/service.go] (the task-service shim) and
    of the two revisions of the device-mapper snapshotter
    ([snapshotter/devmapper/devmapper.go] and the later revision that
    introduces [withTransaction] and [closeOnce]).

    Go code that talks to the outside world (the in-guest agent, the
    hypervisor driver, vsock, ioctls, the MetaStore, the thin-pool) is
    embedded in a small state monad over a world that records every
    external call, in order, together with the answer it got.  The answers
    come from an environment of oracles; an oracle sees the calls made so
    far, so the environment may answer the same call differently each
    time.  Theorems quantify over all environments. *)

From Stdlib Require Import ZArith List Lia.
From stdpp Require Import base strings gmap list pretty.

Local Open Scope Z_scope.

(** ** Go error values *)

(** The sentinel errors of containerd's [errdefs] package. *)
Inductive errdef : Type :=
| ErrUnknown
| ErrInvalidArgument
| ErrNotFound
| ErrAlreadyExists
| ErrFailedPrecondition
| ErrUnavailable
| ErrNotImplemented.

(** An [error] value: a fresh error made by [errors.New] / [errors.Errorf],
    an error wrapped with a message by [errors.Wrap], an [errdefs] sentinel,
    a [syscall.Errno], or a [*multierror.Error] holding a list. *)
#[warnings="-register-all"] Inductive error : Type :=
| errors_New (msg : string)
| errors_Wrap (cause : error) (msg : string)
| errdefs (k : errdef)
| Errno (n : Z)
| MultiError (errs : list error).

(** [errors.Cause]: strip the wrappers. *)
Fixpoint Cause (e : error) : error :=
  match e with
  | errors_Wrap c _ => Cause c
  | _ => e
  end.

(** [errdefs.IsInvalidArgument]. *)
Definition IsInvalidArgument (e : error) : bool :=
  match Cause e with
  | errdefs ErrInvalidArgument => true
  | _ => false
  end.

(** [*multierror.Error]: a nil pointer or a struct with its [Errors]. *)
Definition multierror_Error : Type := option (list error).

(** [multierror.Append(result, err)] for a non-nil [err]: a nil [result] is
    allocated, a [*multierror.Error] argument is flattened. *)
Definition multierror_Append (result : multierror_Error) (err : error)
  : multierror_Error :=
  Some (default [] result ++
        match err with
        | MultiError es => es
        | _ => [err]
        end).

(** [ErrorOrNil] of [*multierror.Error]. *)
Definition ErrorOrNil (result : multierror_Error) : option error :=
  match result with
  | None => None
  | Some [] => None
  | Some es => Some (MultiError es)
  end.

(** [Len] of [*multierror.Error]. *)
Definition multierror_Len (result : multierror_Error) : nat :=
  length (default [] result).

(** [x == nil] for a pointer, interface or slice. *)
Definition is_nil {A} (o : option A) : bool :=
  match o with
  | None => true
  | Some _ => false
  end.

(** ** Machine integers *)

Definition uint32 (z : Z) : Z := z mod 2 ^ 32.
Definition int64 (z : Z) : Z := (z + 2 ^ 63) mod 2 ^ 64 - 2 ^ 63.

(** ** Paths: Go's [path/filepath] on Unix *)

(** The elements of a path between separators; [cur] is the element
    being read. *)
Fixpoint path_elements (cur : string) (s : string) : list string :=
  match s with
  | EmptyString => [cur]
  | String c rest =>
      if String.eqb (String c "") "/" then cur :: path_elements "" rest
      else path_elements (cur +:+ String c "") rest
  end.

(** [strings.Join(elem, "/")]. *)
Fixpoint join_elements (elem : list string) : string :=
  match elem with
  | [] => ""
  | [e] => e
  | e :: rest => e +:+ "/" +:+ join_elements rest
  end.

(** One element of [filepath.Clean]; [kept] holds the elements kept so
    far, the last one first.  Empty elements and [.] are dropped; [..]
    removes the element before it, is dropped at the root, and is kept at
    the start of a relative path. *)
Definition clean_step (rooted : bool) (kept : list string) (e : string)
  : list string :=
  if String.eqb e "" || String.eqb e "." then kept
  else if String.eqb e ".." then
    match kept with
    | top :: below => if String.eqb top ".." then e :: kept else below
    | [] => if rooted then [] else [e]
    end
  else e :: kept.

(** [filepath.Clean]. *)
Definition filepath_Clean (path : string) : string :=
  let rooted := match path with
                | String c _ => String.eqb (String c "") "/"
                | EmptyString => false
                end in
  let kept := rev (fold_left (clean_step rooted) (path_elements "" path) []) in
  let body := join_elements kept in
  if rooted then "/" +:+ body
  else if String.eqb body "" then "." else body.

(** [filepath.Join(elem...)]: the elements from the first non-empty one
    on, joined by separators, and the result cleaned. *)
Fixpoint filepath_Join_elems (elem : list string) : string :=
  match elem with
  | [] => ""
  | e :: rest =>
      if String.eqb e "" then filepath_Join_elems rest
      else filepath_Clean (join_elements (e :: rest))
  end.

(** ** The monad of Go function bodies

    A body returns, panics, or ends the process ([os.Exit]). *)

Inductive outcome (A : Type) : Type :=
| Returned (a : A)
| Panicked (msg : string)
| Exited (code : Z).
Arguments Returned {A} a.
Arguments Panicked {A} msg.
Arguments Exited {A} code.

Section GoMonad.
Context {W : Type}.

Definition M (A : Type) : Type := W -> outcome A * W.

Definition ret {A} (a : A) : M A := fun w => (Returned a, w).

Definition bind {A B} (m : M A) (k : A -> M B) : M B :=
  fun w =>
    match m w with
    | (Returned a, w') => k a w'
    | (Panicked s, w') => (Panicked s, w')
    | (Exited c, w') => (Exited c, w')
    end.

Definition panic {A} (msg : string) : M A := fun w => (Panicked msg, w).

(** [defer d; body]: [d] runs when [body] returns and also while it
    panics; it does not run when the process exits inside [body]. *)
Definition defer {A} (d : M unit) (body : M A) : M A :=
  fun w =>
    match body w with
    | (Returned a, w') =>
        match d w' with
        | (Returned _, w'') => (Returned a, w'')
        | (Panicked s, w'') => (Panicked s, w'')
        | (Exited c, w'') => (Exited c, w'')
        end
    | (Panicked s, w') =>
        match d w' with
        | (Returned _, w'') => (Panicked s, w'')
        | (Panicked s', w'') => (Panicked s', w'')
        | (Exited c, w'') => (Exited c, w'')
        end
    | (Exited c, w') => (Exited c, w')
    end.
End GoMonad.
Arguments M W A : clear implicits.

#[global] Instance M_ret W : MRet (M W) := fun A a => ret a.
#[global] Instance M_bind W : MBind (M W) := fun A B k m => bind m k.

Definition nil_deref : string := "invalid memory address or nil pointer dereference".

(** ** Log lines

    A log call is recorded with its level, its message (the format string,
    arguments left out) and the error attached by [WithError]. *)
Inductive level : Type := Debug | Info | Warn | Error.

(** A mount, as in containerd's [mount.Mount] and the task API's
    [types.Mount]. *)
Record Mount : Type := mkMount {
  Source : string;
  Type_ : string;
  Options : list string
}.

(** * The task-service shim ([runtime/service.go]) *)

Module Shim.

Definition defaultVsockPort : Z := 10789.
Definition supportedMountFSType : string := "ext4".

(** [time.Duration] counts nanoseconds in an [int64]. *)
Definition Millisecond : Z := 1000000.
Definition Second : Z := 1000000000.

(** ** Task API messages (the fields the shim reads or writes) *)

Inductive Status : Type :=
| StatusUnknown | StatusCreated | StatusRunning | StatusStopped
| StatusPaused | StatusPausing.

Definition Status_eqb (a b : Status) : bool :=
  match a, b with
  | StatusUnknown, StatusUnknown | StatusCreated, StatusCreated
  | StatusRunning, StatusRunning | StatusStopped, StatusStopped
  | StatusPaused, StatusPaused | StatusPausing, StatusPausing => true
  | _, _ => false
  end.

(** [ptypes.Any]: raw bytes under a type URL, or a marshalled
    [proto.ExtraData] (bundle [config.json] plus the caller's options). *)
#[warnings="-register-all"] Inductive Any : Type :=
| AnyRaw (TypeUrl : string) (Value : string)
| AnyExtraData (JsonSpec : string) (RuncOptions : option Any).

Record CreateTaskRequest : Type := mkCreateTaskRequest {
  create_ID : string;
  create_Bundle : string;
  create_Rootfs : list Mount;
  create_Terminal : bool;
  create_Stdin : string;
  create_Stdout : string;
  create_Stderr : string;
  create_Checkpoint : string;
  create_Options : option Any
}.
Record CreateTaskResponse : Type := mkCreateTaskResponse { create_Pid : Z }.

Record StartRequest : Type := mkStartRequest {
  start_ID : string; start_ExecID : string }.
Record StartResponse : Type := mkStartResponse { start_Pid : Z }.

Record StateRequest : Type := mkStateRequest {
  state_ID : string; state_ExecID : string }.
Record StateResponse : Type := mkStateResponse {
  state_Status : Status; state_Pid : Z; state_ExitStatus : Z }.

Record KillRequest : Type := mkKillRequest {
  kill_ID : string; kill_ExecID : string; kill_Signal : Z; kill_All : bool }.

Record ShutdownRequest : Type := mkShutdownRequest {
  shutdown_ID : string; shutdown_Now : bool }.

(** [ptypes.Empty]. *)
Definition Empty : Type := unit.

(** [eventstypes.TaskExit]. *)
Record TaskExit : Type := mkTaskExit {
  ContainerID : string;
  ID : string;
  Pid : Z;
  ExitStatus : Z;
  ExitedAt : Z
}.

Definition TaskExitEventTopic : string := "/tasks/exit".

(** ** Shim and hypervisor configuration *)

(** The shim's [Config] is declared in the repository's [config.go],
    which is not among the sources; these are the fields [service.go]
    reads. *)
Record Config : Type := mkConfig {
  FirecrackerBinaryPath : string;
  SocketPath : string;
  KernelImagePath : string;
  KernelArgs : string;
  RootDrive : string;
  CPUCount : Z;
  CPUTemplate : string;
  LogFifo : string;
  LogLevel : string;
  MetricsFifo : string;
  cfg_Debug : bool
}.

(** [models.Drive]. *)
Record Drive : Type := mkDrive {
  DriveID : string;
  PathOnHost : string;
  IsRootDevice : bool;
  IsReadOnly : bool
}.

(** [firecracker.Config], with [MachineCfg] and the single
    [VsockDevice] flattened. *)
Record fcConfig : Type := mkFcConfig {
  fc_SocketPath : string;
  fc_VsockPath : string;
  fc_VsockCID : Z;
  fc_KernelImagePath : string;
  fc_KernelArgs : string;
  fc_VcpuCount : Z;
  fc_CPUTemplate : string;
  fc_MemSizeMib : Z;
  fc_LogFifo : string;
  fc_LogLevel : string;
  fc_MetricsFifo : string;
  fc_Debug : bool;
  fc_Drives : list Drive
}.

(** A vsock connection, and the agent client built over one
    ([ttrpc.NewClient(conn)] wrapped by [taskAPI.NewTaskClient]). *)
Definition Conn : Type := Z.
Definition TaskService : Type := option Conn.

(** ** The [service] struct

    [machine] is [Some cfg] once [firecracker.NewMachine] has built a
    machine from [cfg]; [ctx] is [None] until [Create] has called
    [context.WithCancel], then [Some cancelled]. *)
Record service : Type := mkService {
  id : string;
  agentStarted : bool;
  agentClient : option TaskService;
  config : Config;
  machine : option fcConfig;
  machineCID : Z;
  ctx : option bool
}.

Definition set_agent (c : option TaskService) (s : service) : service :=
  mkService (id s) true c (config s) (machine s) (machineCID s) (ctx s).
Definition set_machine (m : option fcConfig) (s : service) : service :=
  mkService (id s) (agentStarted s) (agentClient s) (config s) m
            (machineCID s) (ctx s).
Definition set_machineCID (cid : Z) (s : service) : service :=
  mkService (id s) (agentStarted s) (agentClient s) (config s) (machine s)
            cid (ctx s).
Definition set_ctx (c : option bool) (s : service) : service :=
  mkService (id s) (agentStarted s) (agentClient s) (config s) (machine s)
            (machineCID s) c.

(** ** External calls, with the answers they got *)

Inductive event : Type :=
| EvLog (lvl : level) (msg : string) (err : option error)
| EvAgentCreate (req : CreateTaskRequest)
                (r : option CreateTaskResponse * option error)
| EvAgentStart (req : StartRequest) (r : option StartResponse * option error)
| EvAgentState (req : StateRequest) (r : option StateResponse * option error)
| EvAgentKill (req : KillRequest) (r : option Empty * option error)
| EvAgentShutdown (req : ShutdownRequest) (r : option Empty * option error)
| EvNewMachine (cfg : fcConfig) (err : option error)
| EvMachineStart (err : option error)
| EvStopVMM (err : option error)
| EvVmmCancel
| EvWithCancel
| EvCancel
| EvPublish (topic : string) (ev : TaskExit) (err : option error)
| EvServerClose
| EvExit (code : Z)
| EvNewTicker (d : Z)
| EvTick
| EvCtxDone
| EvDial (cid port : Z) (r : option Conn * option error)
| EvSleep (d : Z)
| EvOpenFile (path : string) (err : option error)
| EvFileClose
| EvIoctl (cid : Z) (errno : Z)
| EvReadFile (path : string) (r : string * option error)
| EvGoProxyStdio (stdin stdout stderr : string) (cid : Z)
| EvGoMonitorState (id execID : string) (pid : Z).

Definition is_log (e : event) : bool :=
  match e with EvLog _ _ _ => true | _ => false end.

(** The external calls of a trace, log lines dropped. *)
Definition calls (tr : list event) : list event :=
  List.filter (fun e => negb (is_log e)) tr.

(** ** The environment *)

Record Env : Type := mkEnv {
  agent_Create : CreateTaskRequest -> list event ->
                 option CreateTaskResponse * option error;
  agent_Start : StartRequest -> list event ->
                option StartResponse * option error;
  agent_State : StateRequest -> list event ->
                option StateResponse * option error;
  agent_Kill : KillRequest -> list event -> option Empty * option error;
  agent_Shutdown : ShutdownRequest -> list event ->
                   option Empty * option error;
  firecracker_NewMachine : fcConfig -> list event -> option error;
  machine_Start : list event -> option error;
  machine_StopVMM : list event -> option error;
  vsock_Dial : Z -> Z -> list event -> option Conn * option error;
  os_OpenFile : string -> list event -> option error;
  sys_ioctl : Z -> list event -> Z;
  ioutil_ReadFile : string -> list event -> string * option error;
  publish_Publish : string -> TaskExit -> list event -> option error;
  time_Now : list event -> Z;
  (** the request context: is [ctx.Done()] ready, and [ctx.Err()] *)
  ctx_Done : list event -> bool;
  ctx_Err : list event -> error;
  (** the monitor's [select]: [true] when [<-ctx.Done()] is taken,
      [false] when the ticker fires *)
  monitor_Done : list event -> bool
}.

Record World : Type := mkWorld { trace : list event; svc : service }.

(** ** Primitive steps *)

Section WithEnv.
Context (env : Env).

(** Record an event. *)
Definition emit (ev : event) : M World unit :=
  fun w => (Returned tt, mkWorld (trace w ++ [ev]) (svc w)).

(** Make an external call: the oracle answers from the calls so far and
    the call is recorded with its answer. *)
Definition ask {A} (oracle : list event -> A) (ev : A -> event) : M World A :=
  fun w => let a := oracle (trace w) in
           (Returned a, mkWorld (trace w ++ [ev a]) (svc w)).

(** Read the environment without recording anything. *)
Definition peek {A} (oracle : list event -> A) : M World A :=
  fun w => (Returned (oracle (trace w)), w).

Definition log (lvl : level) (msg : string) (err : option error)
  : M World unit :=
  emit (EvLog lvl msg err).

Definition get_s : M World service := fun w => (Returned (svc w), w).

Definition modify_s (f : service -> service) : M World unit :=
  fun w => (Returned tt, mkWorld (trace w) (f (svc w))).

(** A method call on [s.agentClient], a nil interface before [startVM]. *)
Definition with_agent {A} (call : M World A) : M World A :=
  s ← get_s;
  match agentClient s with
  | None => panic nil_deref
  | Some _ => call
  end.

(** A method call on [s.machine]. *)
Definition with_machine {A} (call : M World A) : M World A :=
  s ← get_s;
  match machine s with
  | None => panic nil_deref
  | Some _ => call
  end.

(** [s.cancel()]: a nil func before [Create] has set it. *)
Definition s_cancel : M World unit :=
  s ← get_s;
  match ctx s with
  | None => panic nil_deref
  | Some _ => emit EvCancel ;; modify_s (set_ctx (Some true))
  end.

(** [os.Exit(code)]. *)
Definition os_Exit {A} (code : Z) : M World A :=
  fun w => (Exited code, mkWorld (trace w ++ [EvExit code]) (svc w)).

(** ** [stopVM], [Kill], [Shutdown] *)

Definition stopVM : M World (option error) :=
  with_machine (ask (machine_StopVMM env) EvStopVMM).

Definition Kill (req : KillRequest) : M World (option Empty * option error) :=
  log Debug "kill" None ;;
  defer
    (log Debug "Stopping VM during kill" None ;;
     err ← stopVM;
     match err with
     | Some e => log Error "failed to stop VM" (Some e)
     | None => mret tt
     end)
    ('(resp, err) ← with_agent (ask (agent_Kill env req) (EvAgentKill req));
     match err with
     | Some e => mret (None, Some e)
     | None => s_cancel ;; mret (resp, None)
     end).

Definition Shutdown (req : ShutdownRequest)
  : M World (option Empty * option error) :=
  log Debug "shutdown" None ;;
  '(_, err) ← with_agent (ask (agent_Shutdown env req) (EvAgentShutdown req));
  match err with
  | Some e => log Error "failed to shutdown agent" (Some e)
  | None => mret tt
  end ;;
  log Debug "stopping VM" None ;;
  err ← stopVM;
  match err with
  | Some e => log Error "failed to stop VM" (Some e) ;; mret (None, Some e)
  | None =>
      s_cancel ;;
      defer (os_Exit 0)
            (log Debug "stopping runtime" None ;; mret (Some tt, None))
  end.

(** ** [monitorState]

    The loop has no bound; [fuel] counts the iterations of the [for]
    that are run.  The result tells whether the function returned within
    them. *)

Inductive loop_end : Type := LoopReturned | StillLooping.

Fixpoint monitorState_loop (fuel : nat) (id execID : string) (pid : Z)
  : M World loop_end :=
  match fuel with
  | O => mret StillLooping
  | S fuel' =>
      cancelled ← ask (monitor_Done env)
                 (fun b : bool => if b then EvCtxDone else EvTick);
      if (cancelled : bool) then mret LoopReturned
      else
        let req := mkStateRequest id execID in
        '(resp, err) ← with_agent (ask (agent_State env req) (EvAgentState req));
        match err with
        | Some e =>
            log Error "error monitoring state" (Some e) ;;
            monitorState_loop fuel' id execID pid
        | None =>
            match resp with
            | None => panic nil_deref
            | Some resp =>
                if Status_eqb (state_Status resp) StatusStopped then
                  s ← get_s;
                  now ← peek (time_Now env);
                  let ev := mkTaskExit (Shim.id s) (Shim.id s) pid
                                       (state_ExitStatus resp) now in
                  ask (publish_Publish env TaskExitEventTopic ev)
                      (EvPublish TaskExitEventTopic ev) ;;
                  Shutdown (mkShutdownRequest id false) ;;
                  emit EvServerClose ;;
                  mret LoopReturned
                else monitorState_loop fuel' id execID pid
            end
        end
  end.

Definition monitorState (fuel : nat) (id execID : string) (pid : Z)
  : M World loop_end :=
  emit (EvNewTicker Second) ;;
  monitorState_loop fuel id execID pid.

Definition Start (req : StartRequest)
  : M World (option StartResponse * option error) :=
  log Debug "start" None ;;
  '(resp, err) ← with_agent (ask (agent_Start env req) (EvAgentStart req));
  match err with
  | Some e => mret (None, Some e)
  | None =>
      match resp with
      | None => panic nil_deref
      | Some r =>
          emit (EvGoMonitorState (start_ID req) (start_ExecID req) (start_Pid r)) ;;
          mret (resp, None)
      end
  end.

(** ** [dialVsock] *)

Definition retryCount : Z := 5.
Definition initialDelay : Z := 100 * Millisecond.
Definition delayMultiplier : Z := 2.

(** The body of [for i := 1; i <= retryCount; i++], run [n] more times. *)
Fixpoint dialVsock_loop (n : nat) (i : Z) (contextID port : Z)
    (lastErr : option error) (currentDelay : Z)
  : M World (option Conn * option error) :=
  match n with
  | O =>
      log Error "vsock dial failed" lastErr ;;
      mret (None, lastErr)
  | S n' =>
      '(conn, err) ← ask (vsock_Dial env contextID port)
                         (EvDial contextID port);
      match err with
      | None =>
          log Debug "Dial succeeded" None ;;
          mret (conn, None)
      | Some e =>
          log Warn "vsock dial failed (attempt %d of %d), will retry in %s"
              (Some e) ;;
          emit (EvSleep currentDelay) ;;
          dialVsock_loop n' (i + 1) contextID port (Some e)
                         (int64 (currentDelay * delayMultiplier))
      end
  end.

Definition dialVsock (contextID port : Z)
  : M World (option Conn * option error) :=
  dialVsock_loop (Z.to_nat (retryCount + 1 - 1)) 1 contextID port None
                 initialDelay.

(** ** [findNextAvailableVsockCID] *)

Definition startCID : Z := 3.
Definition maxCID : Z := 4294967295.
Definition vsockDevicePath : string := "/dev/vhost-vsock".
Definition EADDRINUSE : Z := 98.

Definition err_no_cid : error :=
  errors_New "couldn't find any available vsock context id".

(** The body of [for contextID := startCID; contextID < maxCID;
    contextID++], run [n] more times.  [contextID] is a Go [int]. *)
Fixpoint scanCIDs (n : nat) (contextID : Z) : M World (Z * option error) :=
  match n with
  | O => mret (0, Some err_no_cid)
  | S n' =>
      cancelled ← peek (ctx_Done env);
      if (cancelled : bool) then
        e ← peek (ctx_Err env);
        mret (0, Some e)
      else
        errno ← ask (sys_ioctl env contextID) (EvIoctl contextID);
        if errno =? 0 then mret (uint32 contextID, None)
        else if errno =? EADDRINUSE then scanCIDs n' (contextID + 1)
        else mret (0, Some (Errno errno))
  end.

Definition findNextAvailableVsockCID : M World (Z * option error) :=
  err ← ask (os_OpenFile env vsockDevicePath) (EvOpenFile vsockDevicePath);
  match err with
  | Some e => mret (0, Some (errors_Wrap e "failed to open vsock device"))
  | None =>
      defer (emit EvFileClose)
            (scanCIDs (Z.to_nat (maxCID - startCID)) startCID)
  end.

(** ** [startVM] *)

Definition err_unsupported_mount (ty : string) : error :=
  errors_New ("unsupported mount type '" +:+ ty +:+ "', expected '"
              +:+ supportedMountFSType +:+ "'").

(** [for i, mnt := range request.Rootfs]: append one drive per mount,
    stop at the first mount that is not ext4. *)
Fixpoint attachDrives (i : Z) (rootfs : list Mount) (drives : list Drive)
  : list Drive * option error :=
  match rootfs with
  | [] => (drives, None)
  | mnt :: rest =>
      if negb (String.eqb (Type_ mnt) supportedMountFSType) then
        (drives, Some (err_unsupported_mount (Type_ mnt)))
      else
        attachDrives (i + 1) rest
          (drives ++ [mkDrive (pretty (i + 2)) (Source mnt) false false])
  end.

Definition startVM (request : CreateTaskRequest)
  : M World (option TaskService * option error) :=
  log Info "starting VM" None ;;
  '(cid, err) ← findNextAvailableVsockCID;
  match err with
  | Some e => mret (None, Some e)
  | None =>
      s ← get_s;
      let c := config s in
      let drives := [mkDrive (pretty 1) (RootDrive c) true false] in
      match attachDrives 0 (create_Rootfs request) drives with
      | (_, Some e) => mret (None, Some e)
      | (drives, None) =>
          let cfg :=
            mkFcConfig (SocketPath c) "root" cid (KernelImagePath c)
                       (KernelArgs c) (CPUCount c) (CPUTemplate c) 256
                       (LogFifo c) (LogLevel c) (MetricsFifo c) (cfg_Debug c)
                       drives in
          defer (emit EvVmmCancel)
            (err ← ask (firecracker_NewMachine env cfg) (EvNewMachine cfg);
             modify_s (set_machine (match err with
                                    | None => Some cfg
                                    | Some _ => None
                                    end)) ;;
             match err with
             | Some e => mret (None, Some e)
             | None =>
                 modify_s (set_machineCID cid) ;;
                 log Info "starting instance" None ;;
                 err ← with_machine (ask (machine_Start env) EvMachineStart);
                 match err with
                 | Some e => mret (None, Some e)
                 | None =>
                     log Info "calling agent" None ;;
                     '(conn, err) ← dialVsock cid defaultVsockPort;
                     match err with
                     | Some e => stopVM ;; mret (None, Some e)
                     | None =>
                         log Info "creating clients" None ;;
                         mret (Some conn, None)
                     end
                 end
             end)
      end
  end.

(** ** [packBundle] and [Create] *)

(** [ptypes.MarshalAny] of the [ExtraData] built here does not fail; the
    options are copied by value. *)
Definition packBundle (path : string) (options : option Any)
  : M World (option Any * option error) :=
  '(jsonBytes, err) ← ask (ioutil_ReadFile env path) (EvReadFile path);
  match err with
  | Some e => mret (None, Some e)
  | None => mret (Some (AnyExtraData jsonBytes options), None)
  end.

(** [filepath.Join(dir, file)]. *)
Definition filepath_Join (dir file : string) : string :=
  filepath_Join_elems [dir; file].

Definition with_Options (o : option Any) (r : CreateTaskRequest)
  : CreateTaskRequest :=
  mkCreateTaskRequest (create_ID r) (create_Bundle r) (create_Rootfs r)
    (create_Terminal r) (create_Stdin r) (create_Stdout r) (create_Stderr r)
    (create_Checkpoint r) o.

Definition Create (request : CreateTaskRequest)
  : M World (option CreateTaskResponse * option error) :=
  log Debug "creating task" None ;;
  s ← get_s;
  failed ← (if agentStarted s then mret None
            else
              '(client, err) ← startVM request;
              match err with
              | Some e =>
                  log Error "failed to start VM" (Some e) ;;
                  mret (Some e)
              | None => modify_s (set_agent client) ;; mret None
              end);
  match failed with
  | Some e => mret (None, Some e)
  | None =>
      log Info "creating task '%s'" None ;;
      '(anyData, err) ← packBundle
                          (filepath_Join (create_Bundle request) "config.json")
                          (create_Options request);
      match err with
      | Some e => mret (None, Some e)
      | None =>
          let request := with_Options anyData request in
          '(resp, err) ← with_agent (ask (agent_Create env request)
                                         (EvAgentCreate request));
          match err with
          | Some e =>
              log Error "create failed" (Some e) ;;
              mret (None, Some e)
          | None =>
              emit EvWithCancel ;;
              modify_s (set_ctx (Some false)) ;;
              s ← get_s;
              emit (EvGoProxyStdio (create_Stdin request)
                      (create_Stdout request) (create_Stderr request)
                      (machineCID s)) ;;
              match resp with
              | None => panic nil_deref
              | Some r =>
                  log Info "successfully created task with pid %d" None ;;
                  mret (resp, None)
              end
          end
      end
  end.

End WithEnv.

End Shim.

(** * The device-mapper snapshotter: data model shared by both revisions *)

Module Snap.

Definition metadataFileName : string := "metadata.db".
Definition fsTypeExt4 : string := "ext4".

(** [snapshots.Kind]; [KindUnknown] is the zero value. *)
Inductive Kind : Type := KindUnknown | KindView | KindActive | KindCommitted.

Definition Kind_eqb (a b : Kind) : bool :=
  match a, b with
  | KindUnknown, KindUnknown | KindView, KindView
  | KindActive, KindActive | KindCommitted, KindCommitted => true
  | _, _ => false
  end.

(** [storage.Snapshot]. *)
Record Snapshot : Type := mkSnapshot {
  snap_Kind : Kind;
  snap_ID : string;
  ParentIDs : list string
}.

(** [storage.Snapshot{}]. *)
Definition zero_Snapshot : Snapshot := mkSnapshot KindUnknown "" [].

(** [snapshots.Info] (name, parent and kind). *)
Record snapshots_Info : Type := mkInfo {
  info_Kind : Kind;
  info_Name : string;
  info_Parent : string
}.

Definition zero_Info : snapshots_Info := mkInfo KindUnknown "" "".

(** The snapshotter's [Config] is declared in the repository's
    [config.go], which is not among the sources; these are the fields
    the snapshotter reads. *)
Record Config : Type := mkConfig {
  RootPath : string;
  PoolName : string;
  BaseImageSizeBytes : Z
}.

(** ** The MetaStore

    The store is containerd's [snapshots/storage] package over a bolt
    database: one record per key, ids drawn from a sequence.  A
    transaction works on a copy of the database; only a successful
    [Commit] installs the copy, [Rollback] discards it. *)

Record SnapRec : Type := mkSnapRec {
  rec_id : Z;
  rec_kind : Kind;
  rec_parent : string;
  rec_parentIDs : list string
}.

Record DB : Type := mkDB {
  records : gmap string SnapRec;
  sequence : Z
}.

(** ** External calls and store operations, with their results *)

Inductive event : Type :=
| EvLog (lvl : level) (msg : string) (err : option error)
| EvBegin (writable : bool) (err : option error)
| EvRollback (err : option error)
| EvCommit (err : option error)
| EvGetSnapshot (key : string) (r : Snapshot * option error)
| EvCreateSnapshot (kind : Kind) (key parent : string)
                   (r : Snapshot * option error)
| EvStorageRemove (key : string) (r : string * snapshots_Info * option error)
| EvCreateThinDevice (name : string) (size : Z) (err : option error)
| EvCreateSnapshotDevice (parent name : string) (size : Z)
                         (err : option error)
| EvRemoveDevice (name : string) (deferred : option bool)
                 (err : option error)
| EvMkfs (args : list string) (r : string * option error)
| EvTempMount (mounts : list Mount) (err : option error)
| EvLoadConfig (path : string) (r : option Config * option error)
| EvMkdirAll (path : string) (err : option error)
| EvNewMetaStore (path : string) (err : option error)
| EvNewPoolDevice (err : option error)
| EvStoreClose (err : option error)
| EvPoolClose (err : option error).

Definition is_log (e : event) : bool :=
  match e with EvLog _ _ _ => true | _ => false end.

Definition calls (tr : list event) : list event :=
  List.filter (fun e => negb (is_log e)) tr.

(** The thin-pool, the host and the failures of the bolt database are
    oracles.  [pool_RemoveDevice name deferred]: [deferred] is [None]
    for the older [RemoveDevice(name)], which takes no flag. *)
Record Env : Type := mkEnv {
  store_Begin : bool -> list event -> option error;
  tx_Rollback : list event -> option error;
  tx_Commit : list event -> option error;
  pool_CreateThinDevice : string -> Z -> list event -> Z * option error;
  pool_CreateSnapshotDevice : string -> string -> Z -> list event ->
                              Z * option error;
  pool_RemoveDevice : string -> option bool -> list event -> option error;
  exec_mkfs : list string -> list event -> string * option error;
  mount_WithTempMount : list Mount -> list event -> option error;
  LoadConfig : string -> list event -> option Config * option error;
  os_MkdirAll : string -> list event -> option error;
  storage_NewMetaStore : string -> list event -> option error;
  NewPoolDevice : Config -> list event -> option error;
  store_Close : list event -> option error;
  pool_Close : list event -> option error;
  (** [dmsetup.GetFullDevicePath] (the older [PoolDevice.GetDevicePath]):
      the path of a device, a pure function of its name; not among the
      sources *)
  GetFullDevicePath : string -> string
}.

(** [db] is the committed database, [tx] the open transaction (writable
    flag and working copy), [closeOnce] the [done] flag of the
    snapshotter's [sync.Once]. *)
Record World : Type := mkWorld {
  trace : list event;
  db : DB;
  tx : option (bool * DB);
  closeOnce : bool
}.

Section WithEnv.
Context (env : Env).

Definition emit (ev : event) : M World unit :=
  fun w => (Returned tt,
            mkWorld (trace w ++ [ev]) (db w) (tx w) (closeOnce w)).

Definition ask {A} (oracle : list event -> A) (ev : A -> event) : M World A :=
  fun w => let a := oracle (trace w) in
           (Returned a,
            mkWorld (trace w ++ [ev a]) (db w) (tx w) (closeOnce w)).

Definition log (lvl : level) (msg : string) (err : option error)
  : M World unit :=
  emit (EvLog lvl msg err).

Definition get_tx : M World (option (bool * DB)) :=
  fun w => (Returned (tx w), w).

Definition set_tx (t : option (bool * DB)) : M World unit :=
  fun w => (Returned tt, mkWorld (trace w) (db w) t (closeOnce w)).

Definition set_db (d : DB) : M World unit :=
  fun w => (Returned tt, mkWorld (trace w) d (tx w) (closeOnce w)).

Definition get_db : M World DB := fun w => (Returned (db w), w).

(** ** Transactions *)

(** [store.TransactionContext(ctx, writable)]. *)
Definition TransactionContext (writable : bool) : M World (option error) :=
  err ← ask (store_Begin env writable) (EvBegin writable);
  match err with
  | Some e => mret (Some e)
  | None => d ← get_db; set_tx (Some (writable, d)) ;; mret None
  end.

(** [trans.Rollback()]: the working copy is dropped. *)
Definition Rollback : M World (option error) :=
  err ← ask (tx_Rollback env) EvRollback;
  set_tx None ;;
  mret err.

(** [trans.Commit()]: the working copy of a writable transaction
    replaces the database, unless the commit fails. *)
Definition Commit : M World (option error) :=
  err ← ask (tx_Commit env) EvCommit;
  t ← get_tx;
  match err, t with
  | None, Some (true, d) => set_db d
  | _, _ => mret tt
  end ;;
  set_tx None ;;
  mret err.

(** ** Store operations, on the open transaction *)

Definition err_no_tx : error := errors_New "no transaction in context".
Definition err_tx_not_writable : error := errors_New "tx not writable".

Definition snapshot_of (r : SnapRec) : Snapshot :=
  mkSnapshot (rec_kind r) (pretty (rec_id r)) (rec_parentIDs r).

Definition storage_GetSnapshot_pure (d : DB) (key : string)
  : Snapshot * option error :=
  match records d !! key with
  | None =>
      (zero_Snapshot,
       Some (errors_Wrap (errdefs ErrNotFound) "snapshot does not exist"))
  | Some r =>
      match rec_kind r with
      | KindActive | KindView => (snapshot_of r, None)
      | _ =>
          (zero_Snapshot,
           Some (errors_Wrap (errdefs ErrFailedPrecondition)
                             "requested snapshot not active or view"))
      end
  end.

Definition storage_GetSnapshot (key : string)
  : M World (Snapshot * option error) :=
  t ← get_tx;
  let r := match t with
           | None => (zero_Snapshot, Some err_no_tx)
           | Some (_, d) => storage_GetSnapshot_pure d key
           end in
  emit (EvGetSnapshot key r) ;;
  mret r.

Definition storage_CreateSnapshot_pure (d : DB) (kind : Kind)
    (key parent : string) : DB * (Snapshot * option error) :=
  match kind with
  | KindActive | KindView =>
      let parent_check :=
        if String.eqb parent "" then inr []
        else match records d !! parent with
             | None =>
                 inl (errors_Wrap (errdefs ErrNotFound) "missing parent bucket")
             | Some p =>
                 if Kind_eqb (rec_kind p) KindCommitted
                 then inr (pretty (rec_id p) :: rec_parentIDs p)
                 else inl (errors_Wrap (errdefs ErrInvalidArgument)
                                       "parent is not committed snapshot")
             end in
      match parent_check with
      | inl e => (d, (zero_Snapshot, Some e))
      | inr pids =>
          match records d !! key with
          | Some _ =>
              (d, (zero_Snapshot,
                   Some (errors_Wrap (errdefs ErrAlreadyExists) "snapshot")))
          | None =>
              let id := sequence d + 1 in
              let r := mkSnapRec id kind parent pids in
              (mkDB (<[key := r]> (records d)) id, (snapshot_of r, None))
          end
      end
  | _ =>
      (d, (zero_Snapshot,
           Some (errors_Wrap (errdefs ErrInvalidArgument)
                             "snapshot type invalid")))
  end.

Definition storage_CreateSnapshot (kind : Kind) (key parent : string)
  : M World (Snapshot * option error) :=
  t ← get_tx;
  match t with
  | None =>
      let r := (zero_Snapshot, Some err_no_tx) in
      emit (EvCreateSnapshot kind key parent r) ;; mret r
  | Some (false, _) =>
      let r := (zero_Snapshot, Some err_tx_not_writable) in
      emit (EvCreateSnapshot kind key parent r) ;; mret r
  | Some (true, d) =>
      let '(d', r) := storage_CreateSnapshot_pure d kind key parent in
      set_tx (Some (true, d')) ;;
      emit (EvCreateSnapshot kind key parent r) ;;
      mret r
  end.

Definition has_child (d : DB) (key : string) : bool :=
  existsb (fun kr => String.eqb (rec_parent (snd kr)) key)
          (map_to_list (records d)).

Definition storage_Remove_pure (d : DB) (key : string)
  : DB * (string * snapshots_Info * option error) :=
  match records d !! key with
  | None =>
      (d, ("", zero_Info, Some (errors_Wrap (errdefs ErrNotFound) "snapshot")))
  | Some r =>
      if has_child d key then
        (d, ("", zero_Info,
             Some (errors_Wrap (errdefs ErrFailedPrecondition)
                               "cannot remove snapshot with child")))
      else
        (mkDB (delete key (records d)) (sequence d),
         (pretty (rec_id r), mkInfo (rec_kind r) key (rec_parent r), None))
  end.

Definition storage_Remove (key : string)
  : M World (string * snapshots_Info * option error) :=
  t ← get_tx;
  match t with
  | None =>
      let r := ("", zero_Info, Some err_no_tx) in
      emit (EvStorageRemove key r) ;; mret r
  | Some (false, _) =>
      let r := ("", zero_Info, Some err_tx_not_writable) in
      emit (EvStorageRemove key r) ;; mret r
  | Some (true, d) =>
      let '(d', r) := storage_Remove_pure d key in
      set_tx (Some (true, d')) ;;
      emit (EvStorageRemove key r) ;;
      mret r
  end.

(** ** Device names and mounts (the same in both revisions) *)

Definition getDeviceName (config : Config) (snapID : string) : string :=
  PoolName config +:+ "-snap-" +:+ snapID.

Definition getDevicePath (config : Config) (snap : Snapshot) : string :=
  let name := getDeviceName config (snap_ID snap) in
  GetFullDevicePath env name.

Definition buildMounts (config : Config) (snap : Snapshot) : list Mount :=
  let options :=
    if negb (Kind_eqb (snap_Kind snap) KindActive) then [] ++ ["ro"]
    else [] in
  [ mkMount (getDevicePath config snap) fsTypeExt4 options ].

(** [mkfs]: run [mkfs.ext4 -E ... <device path>] (the older revision adds
    the kernel log to the line it logs on failure). *)
Definition mkfs (deviceName : string) : M World (option error) :=
  let args := [ "-E"; "nodiscard,lazy_itable_init=0,lazy_journal_init=0";
                GetFullDevicePath env deviceName ] in
  log Debug "mkfs.ext4 %s" None ;;
  '(output, err) ← ask (exec_mkfs env args) (EvMkfs args);
  match err with
  | Some e => log Error "failed to write fs" (Some e) ;; mret (Some e)
  | None => log Debug "mkfs" None ;; mret None
  end.

End WithEnv.

End Snap.

(** * The snapshotter, later revision ([withTransaction], [closeOnce]) *)

Module Snapshotter.
Import Snap.

(** [closeFunc]: the two functions [NewSnapshotter] registers. *)
Inductive closeFunc : Type := store_Close_fn | poolDevice_Close_fn.

(** The [Snapshotter] struct.  The store and the pool live in the world,
    and so does [closeOnce]. *)
Record Snapshotter : Type := mkSnapshotter {
  config : Config;
  cleanupFn : list closeFunc
}.

Section WithEnv.
Context (env : Env).

Definition call_closeFunc (fn : closeFunc) : M World (option error) :=
  match fn with
  | store_Close_fn => ask (store_Close env) EvStoreClose
  | poolDevice_Close_fn => ask (pool_Close env) EvPoolClose
  end.

(** [os.IsExist]: the error is [EEXIST]. *)
Definition os_IsExist (e : error) : bool :=
  match e with Errno 17 => true | _ => false end.

(** [filepath.Join(dir, file)]. *)
Definition filepath_Join (dir file : string) : string :=
  filepath_Join_elems [dir; file].

Definition NewSnapshotter (configPath : string)
  : M World (option Snapshotter * option error) :=
  log Info "creating devmapper snapshotter" None ;;
  let cleanupFn := [] in
  '(config, err) ← ask (LoadConfig env configPath) (EvLoadConfig configPath);
  match err, config with
  | Some e, _ => mret (None, Some e)
  | None, None => panic nil_deref
  | None, Some config =>
      err ← ask (os_MkdirAll env (RootPath config))
                (EvMkdirAll (RootPath config));
      match (match err with
             | Some e => if negb (os_IsExist e) then Some e else None
             | None => None
             end) with
      | Some e =>
          mret (None,
                Some (errors_Wrap e "failed to create root directory: %s"))
      | None =>
        let path := filepath_Join (RootPath config) metadataFileName in
        err ← ask (storage_NewMetaStore env path) (EvNewMetaStore path);
        match err with
        | Some e => mret (None, Some (errors_Wrap e "failed to create metastore"))
        | None =>
            let cleanupFn := cleanupFn ++ [store_Close_fn] in
            err ← ask (NewPoolDevice env config) EvNewPoolDevice;
            match err with
            | Some e => mret (None, Some e)
            | None =>
                let cleanupFn := cleanupFn ++ [poolDevice_Close_fn] in
                mret (Some (mkSnapshotter config cleanupFn), None)
            end
        end
      end
  end.

(** [withTransaction].  The callback is a closure that assigns variables
    of its caller; their value ([captured] before the call) is threaded
    through and returned with the error. *)
Definition withTransaction {A} (writable : bool) (captured : A)
    (fn : M World (A * option error)) : M World (A * option error) :=
  err ← TransactionContext env writable;
  match err with
  | Some e => mret (captured, Some e)
  | None =>
      let result : multierror_Error := None in
      '(captured, err) ← fn;
      let result := match err with
                    | Some e => multierror_Append result e
                    | None => result
                    end in
      result ← (if negb (is_nil err) || negb writable then
                  terr ← Rollback env;
                  match terr with
                  | Some te =>
                      log Error "failed to rollback transaction" (Some te) ;;
                      mret (multierror_Append result
                              (errors_Wrap te "rollback failed"))
                  | None => mret result
                  end
                else
                  terr ← Commit env;
                  match terr with
                  | Some te =>
                      log Error "failed to commit transaction" (Some te) ;;
                      mret (multierror_Append result
                              (errors_Wrap te "commit failed"))
                  | None => mret result
                  end);
      match ErrorOrNil result with
      | Some e =>
          log Debug "snapshotter error" (Some e) ;;
          if Nat.eqb (multierror_Len result) 1
          then mret (captured, head (default [] result))
          else mret (captured, Some e)
      | None => mret (captured, None)
      end
  end.

Definition Mounts (dm : Snapshotter) (key : string)
  : M World (option (list Mount) * option error) :=
  log Debug "mounts" None ;;
  '(snap, err) ← withTransaction false zero_Snapshot (storage_GetSnapshot key);
  mret (Some (buildMounts env (config dm) snap), None).

Definition createSnapshot (dm : Snapshotter) (kind : Kind)
    (key parent : string) : M World (option (list Mount) * option error) :=
  '(snap, err) ← storage_CreateSnapshot kind key parent;
  match err with
  | Some e => mret (None, Some e)
  | None =>
      failed ←
        match ParentIDs snap with
        | [] =>
            let deviceName := getDeviceName (config dm) (snap_ID snap) in
            log Debug "creating new thin device '%s'" None ;;
            let size := BaseImageSizeBytes (config dm) in
            '(_, err) ← ask (pool_CreateThinDevice env deviceName size)
                            (fun r => EvCreateThinDevice deviceName size
                                                         (snd r));
            match err with
            | Some e =>
                log Error "failed to create thin device for snapshot %s"
                    (Some e) ;;
                mret (Some e)
            | None => mkfs env deviceName
            end
        | parentID :: _ =>
            let parentDeviceName := getDeviceName (config dm) parentID in
            let snapDeviceName := getDeviceName (config dm) (snap_ID snap) in
            log Debug "creating snapshot device '%s' from '%s'" None ;;
            let size := BaseImageSizeBytes (config dm) in
            '(_, err) ← ask (pool_CreateSnapshotDevice env parentDeviceName
                                                        snapDeviceName size)
                            (fun r => EvCreateSnapshotDevice parentDeviceName
                                        snapDeviceName size (snd r));
            match err with
            | Some e =>
                log Error "failed to create snapshot device from parent %s"
                    (Some e) ;;
                mret (Some e)
            | None => mret None
            end
        end;
      match failed with
      | Some e => mret (None, Some e)
      | None =>
          let mounts := buildMounts env (config dm) snap in
          ask (mount_WithTempMount env mounts) (EvTempMount mounts) ;;
          mret (Some mounts, None)
      end
  end.

Definition Prepare (dm : Snapshotter) (key parent : string)
  : M World (option (list Mount) * option error) :=
  log Debug "prepare" None ;;
  withTransaction true None (createSnapshot dm KindActive key parent).

Definition View (dm : Snapshotter) (key parent : string)
  : M World (option (list Mount) * option error) :=
  log Debug "prepare" None ;;
  withTransaction true None (createSnapshot dm KindView key parent).

Definition removeDevice (dm : Snapshotter) (key : string)
  : M World (option error) :=
  '(snapID, _, err) ← storage_Remove key;
  match err with
  | Some e => mret (Some e)
  | None =>
      let deviceName := getDeviceName (config dm) snapID in
      err ← ask (pool_RemoveDevice env deviceName (Some true))
                (EvRemoveDevice deviceName (Some true));
      match err with
      | Some e =>
          log Error "failed to remove device" (Some e) ;;
          mret (Some e)
      | None => mret None
      end
  end.

Definition Remove (dm : Snapshotter) (key : string) : M World (option error) :=
  log Debug "remove" None ;;
  '(_, err) ← withTransaction true tt
                (err ← removeDevice dm key; mret (tt, err));
  mret err.

(** The function passed to [closeOnce.Do]: it appends to the caller's
    [result]. *)
Fixpoint run_cleanup (fns : list closeFunc) (result : multierror_Error)
  : M World multierror_Error :=
  match fns with
  | [] => mret result
  | fn :: rest =>
      err ← call_closeFunc fn;
      run_cleanup rest (match err with
                        | Some e => multierror_Append result e
                        | None => result
                        end)
  end.

(** [dm.closeOnce.Do(f)]. *)
Definition closeOnce_Do (f : M World multierror_Error)
    (result : multierror_Error) : M World multierror_Error :=
  fun w =>
    if closeOnce w then (Returned result, w)
    else
      match f w with
      | (r, w') => (r, mkWorld (trace w') (db w') (tx w') true)
      end.

Definition Close (dm : Snapshotter) : M World (option error) :=
  log Debug "close" None ;;
  let result : multierror_Error := None in
  result ← closeOnce_Do (run_cleanup (cleanupFn dm) result) result;
  mret (ErrorOrNil result).

End WithEnv.

End Snapshotter.

(** * The snapshotter, older revision ([snapshotter/devmapper/devmapper.go]) *)

Module Devmapper.
Import Snap.

(** The [devmapper] struct; the store and the pool live in the world. *)
Record devmapper : Type := mkDevmapper { config : Config }.

Section WithEnv.
Context (env : Env).

Definition complete (err : option error) : M World (option error) :=
  match err with
  | Some _ =>
      terr ← Rollback env;
      match terr with
      | Some te => log Error "failed to rollback transaction" (Some te)
      | None => mret tt
      end
  | None =>
      terr ← Commit env;
      match terr with
      | Some te => log Error "failed to commit transaction" (Some te)
      | None => mret tt
      end
  end ;;
  mret err.

Definition Mounts (dm : devmapper) (key : string)
  : M World (option (list Mount) * option error) :=
  log Debug "mounts" None ;;
  err ← TransactionContext env false;
  match err with
  | Some e => mret (None, Some e)
  | None =>
      defer (Rollback env ;; mret tt)
        ('(snap, err) ← storage_GetSnapshot key;
         match err with
         | Some e => mret (None, Some e)
         | None => mret (Some (buildMounts env (config dm) snap), None)
         end)
  end.

Definition createSnapshot (dm : devmapper) (kind : Kind)
    (key parent : string) : M World (option (list Mount) * option error) :=
  err ← TransactionContext env true;
  match err with
  | Some e => mret (None, Some e)
  | None =>
      '(snap, err) ← storage_CreateSnapshot kind key parent;
      match err with
      | Some e => err ← complete (Some e); mret (None, err)
      | None =>
          failed ←
            match ParentIDs snap with
            | [] =>
                let deviceName := getDeviceName (config dm) (snap_ID snap) in
                log Debug "creating new thin device '%s'" None ;;
                let size := BaseImageSizeBytes (config dm) in
                '(deviceID, err) ←
                  ask (pool_CreateThinDevice env deviceName size)
                      (fun r => EvCreateThinDevice deviceName size (snd r));
                match err with
                | Some e =>
                    log Error "failed to create thin device for snapshot %s"
                        (Some e) ;;
                    mret (Some e)
                | None =>
                    log Debug "created thin device with id %d" None ;;
                    mkfs env deviceName
                end
            | parentID :: _ =>
                let parentDeviceName := getDeviceName (config dm) parentID in
                let snapDeviceName :=
                  getDeviceName (config dm) (snap_ID snap) in
                log Debug "creating snapshot device '%s' from '%s'" None ;;
                let size := BaseImageSizeBytes (config dm) in
                '(snapDeviceID, err) ←
                  ask (pool_CreateSnapshotDevice env parentDeviceName
                                                 snapDeviceName size)
                      (fun r => EvCreateSnapshotDevice parentDeviceName
                                  snapDeviceName size (snd r));
                match err with
                | Some e =>
                    log Error
                        "failed to create snapshot device from parent %s"
                        (Some e) ;;
                    mret (Some e)
                | None =>
                    log Debug "created snapshot device with id %d" None ;;
                    mret None
                end
            end;
          match failed with
          | Some e => err ← complete (Some e); mret (None, err)
          | None =>
              let mounts := buildMounts env (config dm) snap in
              ask (mount_WithTempMount env mounts) (EvTempMount mounts) ;;
              err ← complete None;
              mret (Some mounts, err)
          end
      end
  end.

Definition Prepare (dm : devmapper) (key parent : string)
  : M World (option (list Mount) * option error) :=
  log Debug "prepare" None ;;
  createSnapshot dm KindActive key parent.

Definition View (dm : devmapper) (key parent : string)
  : M World (option (list Mount) * option error) :=
  log Debug "prepare" None ;;
  createSnapshot dm KindView key parent.

Definition Remove (dm : devmapper) (key : string) : M World (option error) :=
  log Debug "remove" None ;;
  err ← TransactionContext env true;
  match err with
  | Some e => mret (Some e)
  | None =>
      '(snapID, _, err) ← storage_Remove key;
      match err with
      | Some e => complete (Some e)
      | None =>
          let deviceName := getDeviceName (config dm) snapID in
          err ← ask (pool_RemoveDevice env deviceName None)
                    (EvRemoveDevice deviceName None);
          match err with
          | Some e =>
              log Error "failed to remove device" (Some e) ;;
              complete (Some e)
          | None => complete None
          end
      end
  end.

Definition Close (dm : devmapper) : M World (option error) :=
  log Debug "close" None ;;
  let result : multierror_Error := None in
  err ← ask (store_Close env) EvStoreClose;
  let result := match err with
                | Some e => multierror_Append result e
                | None => result
                end in
  err ← ask (pool_Close env) EvPoolClose;
  let result := match err with
                | Some e => multierror_Append result e
                | None => result
                end in
  mret (ErrorOrNil result).

End WithEnv.

End Devmapper.

(** * The snapshotter, later revision: [Commit] *)

Module SnapshotterCommit.
Import Snap.

(** [storage.CommitActive] of containerd's [snapshots/storage]: the
    bucket of [name] is created first (it must not exist), then the
    record of [key] is read, which must be Active; the record moves to
    [name] as Committed and keeps its id and its parent. *)
Definition storage_CommitActive_pure (d : DB) (key name : string)
  : DB * (string * option error) :=
  match records d !! name with
  | Some _ =>
      (d, ("", Some (errors_Wrap (errdefs ErrAlreadyExists)
                                 "committed snapshot")))
  | None =>
      match records d !! key with
      | None =>
          (d, ("", Some (errors_Wrap (errdefs ErrNotFound)
                                     "failed to get active snapshot")))
      | Some r =>
          if negb (Kind_eqb (rec_kind r) KindActive) then
            (d, ("", Some (errors_Wrap (errdefs ErrFailedPrecondition)
                                       "snapshot is not active")))
          else
            let r' := mkSnapRec (rec_id r) KindCommitted (rec_parent r)
                                (rec_parentIDs r) in
            (mkDB (<[name := r']> (delete key (records d))) (sequence d),
             (pretty (rec_id r), None))
      end
  end.

(** The operation on the open transaction.  The trace has no entry for
    it: it calls neither the pool nor the host. *)
Definition storage_CommitActive (key name : string)
  : M World (string * option error) :=
  t ← get_tx;
  match t with
  | None => mret ("", Some err_no_tx)
  | Some (false, _) => mret ("", Some err_tx_not_writable)
  | Some (true, d) =>
      let '(d', r) := storage_CommitActive_pure d key name in
      set_tx (Some (true, d')) ;;
      mret r
  end.

Section WithEnv.
Context (env : Env).

Definition Commit (dm : Snapshotter.Snapshotter) (name key : string)
  : M World (option error) :=
  log Debug "commit" None ;;
  '(_, err) ← Snapshotter.withTransaction env true tt
                ('(_, err) ← storage_CommitActive key name;
                 mret (tt, err));
  mret err.

End WithEnv.

End SnapshotterCommit.

(** * Launching the shim ([StartShim], [newCommand]) *)

Module ShimStart.

(** An open file, by its descriptor. *)
Definition File : Type := Z.

(** [exec.Cmd]: the fields the shim sets.  [Process] is the started
    child, nil until [Start] has succeeded. *)
Record Cmd : Type := mkCmd {
  cmd_Path : string;
  cmd_Args : list string;
  cmd_Dir : string;
  cmd_Env : list string;
  cmd_Setpgid : bool;
  cmd_ExtraFiles : list File
}.

Definition with_ExtraFiles (fs : list File) (c : Cmd) : Cmd :=
  mkCmd (cmd_Path c) (cmd_Args c) (cmd_Dir c) (cmd_Env c) (cmd_Setpgid c) fs.

(** [exec.Command(name, arg...)]: the arguments start with the name. *)
Definition exec_Command (name : string) (arg : list string) : Cmd :=
  mkCmd name (name :: arg) "" [] false [].

Inductive event : Type :=
| EvNamespaceRequired (r : string * option error)
| EvExecutable (r : string * option error)
| EvGetwd (r : string * option error)
| EvSocketAddress (id : string) (r : string * option error)
| EvNewSocket (address : string) (err : option error)
| EvSocketFile (r : File * option error)
| EvSocketClose
| EvFileClose (f : File)
| EvCmdStart (cmd : Cmd) (r : Z * option error)
| EvGoWait
| EvWritePidFile (path : string) (pid : Z) (err : option error)
| EvWriteAddress (path : string) (address : string) (err : option error)
| EvSetScore (pid : Z) (err : option error)
| EvProcessKill (pid : Z).

(** The host and containerd's [shim] package.  [cmd_Start] answers with
    the pid of the child and the error of [cmd.Start()]. *)
Record Env : Type := mkEnv {
  namespaces_NamespaceRequired : list event -> string * option error;
  os_Executable : list event -> string * option error;
  os_Getwd : list event -> string * option error;
  os_Environ : list event -> list string;
  shim_SocketAddress : string -> list event -> string * option error;
  shim_NewSocket : string -> list event -> option error;
  socket_File : list event -> File * option error;
  cmd_Start : Cmd -> list event -> Z * option error;
  shim_WritePidFile : string -> Z -> list event -> option error;
  shim_WriteAddress : string -> string -> list event -> option error;
  shim_SetScore : Z -> list event -> option error
}.

(** The world is the trace of the calls made. *)
Definition World : Type := list event.

Section WithEnv.
Context (env : Env).

Definition emit (ev : event) : M World unit :=
  fun w => (Returned tt, w ++ [ev]).

Definition ask {A} (oracle : list event -> A) (ev : A -> event) : M World A :=
  fun w => let a := oracle w in (Returned a, w ++ [ev a]).

Definition peek {A} (oracle : list event -> A) : M World A :=
  fun w => (Returned (oracle w), w).

Definition newCommand (s : Shim.service)
    (containerdBinary containerdAddress : string)
  : M World (option Cmd * option error) :=
  '(ns, err) ← ask (namespaces_NamespaceRequired env) EvNamespaceRequired;
  match err with
  | Some e => mret (None, Some e)
  | None =>
      '(self, err) ← ask (os_Executable env) EvExecutable;
      match err with
      | Some e => mret (None, Some e)
      | None =>
          '(cwd, err) ← ask (os_Getwd env) EvGetwd;
          match err with
          | Some e => mret (None, Some e)
          | None =>
              let args := [ "-namespace"; ns;
                            "-address"; containerdAddress;
                            "-publish-binary"; containerdBinary ] in
              let args := if Shim.cfg_Debug (Shim.config s)
                          then args ++ ["-debug"] else args in
              let cmd := exec_Command self args in
              environ ← peek (os_Environ env);
              let cmd := mkCmd (cmd_Path cmd) (cmd_Args cmd) cwd
                               (environ ++ ["GOMAXPROCS=2"]) true
                               (cmd_ExtraFiles cmd) in
              mret (Some cmd, None)
          end
      end
  end.

(** [StartShim].  The results are unnamed, and every step after
    [socket.File()] declares an [err] of its own inside its [if]; the
    deferred function that kills the child reads the [err] of the
    function body, last assigned by [socket.File()]. *)
Definition StartShim (s : Shim.service)
    (id containerdBinary containerdAddress : string)
  : M World (string * option error) :=
  '(cmd, err) ← newCommand s containerdBinary containerdAddress;
  match err, cmd with
  | Some e, _ => mret ("", Some e)
  | None, None => panic nil_deref
  | None, Some cmd =>
      '(address, err) ← ask (shim_SocketAddress env id) (EvSocketAddress id);
      match err with
      | Some e => mret ("", Some e)
      | None =>
          err ← ask (shim_NewSocket env address) (EvNewSocket address);
          match err with
          | Some e => mret ("", Some e)
          | None =>
              defer (emit EvSocketClose)
                ('(f, err) ← ask (socket_File env) EvSocketFile;
                 match err with
                 | Some e => mret ("", Some e)
                 | None =>
                     defer (emit (EvFileClose f))
                       (let cmd :=
                          with_ExtraFiles (cmd_ExtraFiles cmd ++ [f]) cmd in
                        '(pid, start_err) ← ask (cmd_Start env cmd)
                                                (EvCmdStart cmd);
                        match start_err with
                        | Some e => mret ("", Some e)
                        | None =>
                            defer (match err with
                                   | Some _ => emit (EvProcessKill pid)
                                   | None => mret tt
                                   end)
                              (emit EvGoWait ;;
                               pid_err ← ask (shim_WritePidFile env "shim.pid"
                                                                pid)
                                             (EvWritePidFile "shim.pid" pid);
                               match pid_err with
                               | Some e => mret ("", Some e)
                               | None =>
                                   addr_err ←
                                     ask (shim_WriteAddress env "address"
                                                            address)
                                         (EvWriteAddress "address" address);
                                   match addr_err with
                                   | Some e => mret ("", Some e)
                                   | None =>
                                       score_err ←
                                         ask (shim_SetScore env pid)
                                             (EvSetScore pid);
                                       match score_err with
                                       | Some e =>
                                           mret ("",
                                                 Some (errors_Wrap e
                                                   "failed to set OOM Score on shim"))
                                       | None => mret (address, None)
                                       end
                                   end
                               end)
                        end)
                 end)
          end
      end
  end.

End WithEnv.

End ShimStart.

(** * Concrete environments and inputs *)

Module ShimEx.
Import Shim.

Definition boom : error := errors_New "boom".

(** An environment in which every call succeeds: CID 3 is free, the first
    dial connects, and the task is reported stopped with exit status 42. *)
Definition env_ok : Env :=
  mkEnv (fun _ _ => (Some (mkCreateTaskResponse 100), None))
        (fun _ _ => (Some (mkStartResponse 100), None))
        (fun _ _ => (Some (mkStateResponse StatusStopped 100 42), None))
        (fun _ _ => (Some tt, None))
        (fun _ _ => (Some tt, None))
        (fun _ _ => None)
        (fun _ => None)
        (fun _ => None)
        (fun _ _ _ => (Some 7, None))
        (fun _ _ => None)
        (fun _ _ => 0)
        (fun _ _ => ("{}", None))
        (fun _ _ _ => None)
        (fun _ => 1234)
        (fun _ => false)
        (fun _ => errors_New "context canceled")
        (fun _ => false).

Definition with_agent_Kill
    (f : KillRequest -> list event -> option Empty * option error) (e : Env)
  : Env :=
  mkEnv (agent_Create e) (agent_Start e) (agent_State e) f (agent_Shutdown e)
        (firecracker_NewMachine e) (machine_Start e) (machine_StopVMM e)
        (vsock_Dial e) (os_OpenFile e) (sys_ioctl e) (ioutil_ReadFile e)
        (publish_Publish e) (time_Now e) (ctx_Done e) (ctx_Err e)
        (monitor_Done e).

Definition with_machine_Start (f : list event -> option error) (e : Env)
  : Env :=
  mkEnv (agent_Create e) (agent_Start e) (agent_State e) (agent_Kill e)
        (agent_Shutdown e) (firecracker_NewMachine e) f (machine_StopVMM e)
        (vsock_Dial e) (os_OpenFile e) (sys_ioctl e) (ioutil_ReadFile e)
        (publish_Publish e) (time_Now e) (ctx_Done e) (ctx_Err e)
        (monitor_Done e).

Definition with_machine_StopVMM (f : list event -> option error) (e : Env)
  : Env :=
  mkEnv (agent_Create e) (agent_Start e) (agent_State e) (agent_Kill e)
        (agent_Shutdown e) (firecracker_NewMachine e) (machine_Start e) f
        (vsock_Dial e) (os_OpenFile e) (sys_ioctl e) (ioutil_ReadFile e)
        (publish_Publish e) (time_Now e) (ctx_Done e) (ctx_Err e)
        (monitor_Done e).

Definition with_vsock_Dial
    (f : Z -> Z -> list event -> option Conn * option error) (e : Env) : Env :=
  mkEnv (agent_Create e) (agent_Start e) (agent_State e) (agent_Kill e)
        (agent_Shutdown e) (firecracker_NewMachine e) (machine_Start e)
        (machine_StopVMM e) f (os_OpenFile e) (sys_ioctl e)
        (ioutil_ReadFile e) (publish_Publish e) (time_Now e) (ctx_Done e)
        (ctx_Err e) (monitor_Done e).

Definition with_sys_ioctl (f : Z -> list event -> Z) (e : Env) : Env :=
  mkEnv (agent_Create e) (agent_Start e) (agent_State e) (agent_Kill e)
        (agent_Shutdown e) (firecracker_NewMachine e) (machine_Start e)
        (machine_StopVMM e) (vsock_Dial e) (os_OpenFile e) f
        (ioutil_ReadFile e) (publish_Publish e) (time_Now e) (ctx_Done e)
        (ctx_Err e) (monitor_Done e).

(** The agent refuses [Kill]. *)
Definition env_kill_fails : Env :=
  with_agent_Kill (fun _ _ => (None, Some boom)) env_ok.

(** The hypervisor's [Start] fails. *)
Definition env_start_fails : Env :=
  with_machine_Start (fun _ => Some boom) env_ok.

(** Every dial is refused. *)
Definition env_dial_fails : Env :=
  with_vsock_Dial (fun _ _ _ => (None, Some boom)) env_ok.

(** The number of dials made so far. *)
Definition dials_so_far (tr : list event) : nat :=
  length (List.filter (fun e => match e with
                                | EvDial _ _ _ => true
                                | _ => false
                                end) tr).

(** The first two dials are refused, the third connects. *)
Definition env_dial_third : Env :=
  with_vsock_Dial (fun _ _ tr => if (dials_so_far tr <? 2)%nat
                                 then (None, Some boom)
                                 else (Some 7, None))
                  env_ok.

(** The hypervisor refuses to stop. *)
Definition env_stop_fails : Env :=
  with_machine_StopVMM (fun _ => Some boom) env_ok.

(** Every CID is taken except the last 32-bit one. *)
Definition env_only_max_free : Env :=
  with_sys_ioctl (fun cid _ => if cid =? 4294967295 then 0 else EADDRINUSE)
                 env_ok.

(** CIDs 3 and 4 are taken, 5 is free. *)
Definition env_cid5 : Env :=
  with_sys_ioctl (fun cid _ => if cid <? 5 then EADDRINUSE else 0) env_ok.

Definition cfg0 : Config :=
  mkConfig "/usr/bin/firecracker" "/tmp/fc.sock" "/vmlinux" "console=ttyS0"
           "/root.img" 1 "T2" "" "" "" false.

(** A shim that has served no request yet. *)
Definition s_fresh : service := mkService "c1" false None cfg0 None 0 None.

Definition fc0 : fcConfig :=
  mkFcConfig "/tmp/fc.sock" "root" 3 "/vmlinux" "console=ttyS0" 1 "T2" 256
             "" "" "" false [mkDrive "1" "/root.img" true false].

(** The shim after a successful [Create]. *)
Definition s_created : service :=
  mkService "c1" true (Some (Some 7)) cfg0 (Some fc0) 3 (Some false).

Definition w_fresh : World := mkWorld [] s_fresh.
Definition w_created : World := mkWorld [] s_created.

Definition kill_req : KillRequest := mkKillRequest "c1" "" 15 false.

Definition req_ext4 : CreateTaskRequest :=
  mkCreateTaskRequest "c1" "/bundle" [mkMount "/dev/mapper/p0-snap-1" "ext4" []]
                      false "" "" "" "" None.

Definition req_xfs : CreateTaskRequest :=
  mkCreateTaskRequest "c1" "/bundle" [mkMount "/foo" "xfs" []]
                      false "" "" "" "" None.

End ShimEx.

Module SnapEx.
Import Snap.

Definition boom : error := errors_New "boom".

(** Modelled from the spec: [dmsetup.GetFullDevicePath] and
    [PoolDevice.GetDevicePath] are not among the sources; section 4.1
    gives [GetDevicePath(name)] as [/dev/mapper/<name>]. *)
Definition dev_mapper_path (name : string) : string :=
  "/dev/mapper/" +:+ name.

(** The pool, the host and the database never fail. *)
Definition env_ok : Env :=
  mkEnv (fun _ _ => None) (fun _ => None) (fun _ => None)
        (fun _ _ _ => (1, None)) (fun _ _ _ _ => (2, None))
        (fun _ _ _ => None) (fun _ _ => ("", None)) (fun _ _ => None)
        (fun _ _ => (Some (mkConfig "/var/lib/dm" "p0" 1073741824), None))
        (fun _ _ => None) (fun _ _ => None) (fun _ _ => None)
        (fun _ => None) (fun _ => None) dev_mapper_path.

(** The pool refuses to remove devices. *)
Definition env_remove_fails : Env :=
  mkEnv (fun _ _ => None) (fun _ => None) (fun _ => None)
        (fun _ _ _ => (1, None)) (fun _ _ _ _ => (2, None))
        (fun _ _ _ => Some boom) (fun _ _ => ("", None)) (fun _ _ => None)
        (fun _ _ => (Some (mkConfig "/var/lib/dm" "p0" 1073741824), None))
        (fun _ _ => None) (fun _ _ => None) (fun _ _ => None)
        (fun _ => None) (fun _ => None) dev_mapper_path.


(** Closing the MetaStore fails. *)
Definition env_store_close_fails : Env :=
  mkEnv (fun _ _ => None) (fun _ => None) (fun _ => None)
        (fun _ _ _ => (1, None)) (fun _ _ _ _ => (2, None))
        (fun _ _ _ => None) (fun _ _ => ("", None)) (fun _ _ => None)
        (fun _ _ => (Some (mkConfig "/var/lib/dm" "p0" 1073741824), None))
        (fun _ _ => None) (fun _ _ => None) (fun _ _ => None)
        (fun _ => Some boom) (fun _ => None) dev_mapper_path.

(** The database cannot open a transaction. *)
Definition env_begin_fails : Env :=
  mkEnv (fun _ _ => Some boom) (fun _ => None) (fun _ => None)
        (fun _ _ _ => (1, None)) (fun _ _ _ _ => (2, None))
        (fun _ _ _ => None) (fun _ _ => ("", None)) (fun _ _ => None)
        (fun _ _ => (Some (mkConfig "/var/lib/dm" "p0" 1073741824), None))
        (fun _ _ => None) (fun _ _ => None) (fun _ _ => None)
        (fun _ => None) (fun _ => None) dev_mapper_path.

Definition config0 : Config := mkConfig "/var/lib/dm" "p0" 1073741824.

Definition db_empty : DB := mkDB ∅ 0.

(** One active snapshot ["a"] with id 1. *)
Definition db_a : DB :=
  mkDB {[ "a" := mkSnapRec 1 KindActive "" [] ]} 1.

Definition w_empty : World := mkWorld [] db_empty None false.
Definition w_a : World := mkWorld [] db_a None false.

Definition dm0 : Snapshotter.Snapshotter :=
  Snapshotter.mkSnapshotter config0
    [Snapshotter.store_Close_fn; Snapshotter.poolDevice_Close_fn].

Definition old_dm0 : Devmapper.devmapper := Devmapper.mkDevmapper config0.

End SnapEx.

Module ShimMoreEx.
Import Shim ShimEx.

Definition with_ioutil_ReadFile
    (f : string -> list event -> string * option error) (e : Env) : Env :=
  mkEnv (agent_Create e) (agent_Start e) (agent_State e) (agent_Kill e)
        (agent_Shutdown e) (firecracker_NewMachine e) (machine_Start e)
        (machine_StopVMM e) (vsock_Dial e) (os_OpenFile e) (sys_ioctl e) f
        (publish_Publish e) (time_Now e) (ctx_Done e) (ctx_Err e)
        (monitor_Done e).

(** The bundle's [config.json] cannot be read. *)
Definition env_read_fails : Env :=
  with_ioutil_ReadFile (fun _ _ => ("", Some boom)) env_ok.

(** The machine configuration built for [req_ext4] on [cfg0] with CID 3. *)
Definition fc_ext4 : fcConfig :=
  mkFcConfig "/tmp/fc.sock" "root" 3 "/vmlinux" "console=ttyS0" 1 "T2" 256
             "" "" "" false
             [mkDrive "1" "/root.img" true false;
              mkDrive "2" "/dev/mapper/p0-snap-1" false false].

(** [s_fresh] once [startVM] has built and started the machine. *)
Definition s_started : service :=
  mkService "c1" false None cfg0 (Some fc_ext4) 3 None.

Definition shutdown_req : ShutdownRequest := mkShutdownRequest "c1" false.

(** The request context is already cancelled. *)
Definition env_cancelled : Env :=
  mkEnv (agent_Create env_ok) (agent_Start env_ok) (agent_State env_ok)
        (agent_Kill env_ok) (agent_Shutdown env_ok)
        (firecracker_NewMachine env_ok) (machine_Start env_ok)
        (machine_StopVMM env_ok) (vsock_Dial env_ok) (os_OpenFile env_ok)
        (sys_ioctl env_ok) (ioutil_ReadFile env_ok) (publish_Publish env_ok)
        (time_Now env_ok) (fun _ => true) (ctx_Err env_ok)
        (monitor_Done env_ok).

End ShimMoreEx.

Module ShimStartEx.
Import ShimStart.

(** Every call succeeds; the child gets pid 4242 and the socket file
    descriptor 5. *)
Definition env_ok : Env :=
  mkEnv (fun _ => ("default", None))
        (fun _ => ("/usr/bin/containerd-shim-aws-firecracker", None))
        (fun _ => ("/run/bundle", None))
        (fun _ => ["PATH=/usr/bin"])
        (fun id _ => ("/run/containerd/s/" +:+ id, None))
        (fun _ _ => None)
        (fun _ => (5, None))
        (fun _ _ => (4242, None))
        (fun _ _ _ => None)
        (fun _ _ _ => None)
        (fun _ _ => None).

(** The pid file cannot be written. *)
Definition env_pidfile_fails : Env :=
  mkEnv (namespaces_NamespaceRequired env_ok) (os_Executable env_ok)
        (os_Getwd env_ok) (os_Environ env_ok) (shim_SocketAddress env_ok)
        (shim_NewSocket env_ok) (socket_File env_ok) (cmd_Start env_ok)
        (fun _ _ _ => Some (errors_New "boom"))
        (shim_WriteAddress env_ok) (shim_SetScore env_ok).

(** The command started in these environments, [config.Debug] unset. *)
Definition cmd0 : Cmd :=
  mkCmd "/usr/bin/containerd-shim-aws-firecracker"
        ["/usr/bin/containerd-shim-aws-firecracker";
         "-namespace"; "default";
         "-address"; "/run/containerd/containerd.sock";
         "-publish-binary"; "/usr/bin/containerd"]
        "/run/bundle" ["PATH=/usr/bin"; "GOMAXPROCS=2"] true [5].

End ShimStartEx.

Module SnapMoreEx.
Import Snap SnapEx.

(** The database refuses every commit. *)
Definition env_commit_fails : Env :=
  mkEnv (fun _ _ => None) (fun _ => None) (fun _ => Some boom)
        (fun _ _ _ => (1, None)) (fun _ _ _ _ => (2, None))
        (fun _ _ _ => None) (fun _ _ => ("", None)) (fun _ _ => None)
        (fun _ _ => (Some (mkConfig "/var/lib/dm" "p0" 1073741824), None))
        (fun _ _ => None) (fun _ _ => None) (fun _ _ => None)
        (fun _ => None) (fun _ => None) dev_mapper_path.

(** [mkfs.ext4] fails. *)
Definition env_mkfs_fails : Env :=
  mkEnv (fun _ _ => None) (fun _ => None) (fun _ => None)
        (fun _ _ _ => (1, None)) (fun _ _ _ _ => (2, None))
        (fun _ _ _ => None) (fun _ _ => ("mke2fs: no", Some boom))
        (fun _ _ => None)
        (fun _ _ => (Some (mkConfig "/var/lib/dm" "p0" 1073741824), None))
        (fun _ _ => None) (fun _ _ => None) (fun _ _ => None)
        (fun _ => None) (fun _ => None) dev_mapper_path.

(** The thin-pool cannot be opened. *)
Definition env_pool_fails : Env :=
  mkEnv (fun _ _ => None) (fun _ => None) (fun _ => None)
        (fun _ _ _ => (1, None)) (fun _ _ _ _ => (2, None))
        (fun _ _ _ => None) (fun _ _ => ("", None)) (fun _ _ => None)
        (fun _ _ => (Some (mkConfig "/var/lib/dm" "p0" 1073741824), None))
        (fun _ _ => None) (fun _ _ => None) (fun _ _ => Some boom)
        (fun _ => None) (fun _ => None) dev_mapper_path.

(** The committed image ["img"] with id 1, nothing else. *)
Definition db_img : DB :=
  mkDB {[ "img" := mkSnapRec 1 KindCommitted "" [] ]} 1.

Definition w_img : World := mkWorld [] db_img None false.

End SnapMoreEx.

(** * Vocabulary of the statements *)

Module ShimSpec.
Import Shim.

(** The shim has served a successful [Create]: the agent client, the
    machine and the per-task context are set. *)
Definition created (s : service) : Prop :=
  is_Some (agentClient s) /\ is_Some (machine s) /\ is_Some (ctx s).

(** What [Kill] returns when the agent answered [r]. *)
Definition Kill_result (r : option Empty * option error)
  : option Empty * option error :=
  match snd r with
  | Some e => (None, Some e)
  | None => (fst r, None)
  end.

(** [k] ioctls in a row, on [c], [c+1], ..., each answered [EADDRINUSE]. *)
Definition in_use_run (c : Z) (k : nat) : list event :=
  map (fun i => EvIoctl (c + Z.of_nat i) EADDRINUSE) (seq 0 k).

(** The delays slept by [n] failed attempts in a row, the first being [d]. *)
Fixpoint delays_from (d : Z) (n : nat) : list Z :=
  match n with
  | O => []
  | S n' => d :: delays_from (int64 (d * delayMultiplier)) n'
  end.

(** The calls of a run of failed attempts: each dial, then its sleep. *)
Fixpoint failed_attempts (cid port : Z) (fails : list (option Conn * error))
    (delays : list Z) : list event :=
  match fails, delays with
  | (c, e) :: fs, d :: ds =>
      EvDial cid port (c, Some e) :: EvSleep d :: failed_attempts cid port fs ds
  | _, _ => []
  end.

(** The trace of a run of failed attempts: each dial with its answer, the
    warning logged for it and the sleep that follows. *)
Fixpoint failed_trace (cid port : Z) (fails : list (option Conn * error))
    (delays : list Z) : list event :=
  match fails, delays with
  | (c, e) :: fs, d :: ds =>
      EvDial cid port (c, Some e)
      :: EvLog Warn "vsock dial failed (attempt %d of %d), will retry in %s"
               (Some e)
      :: EvSleep d :: failed_trace cid port fs ds
  | _, _ => []
  end.

Definition is_dial (e : event) : bool :=
  match e with EvDial _ _ _ => true | _ => false end.

(** The error of the last failed attempt, [lastErr] when there is none. *)
Definition last_error (lastErr : option error)
    (fails : list (option Conn * error)) : option error :=
  match last fails with
  | Some (_, e) => Some e
  | None => lastErr
  end.

Definition is_cid_call (e : event) : bool :=
  match e with
  | EvOpenFile _ _ | EvIoctl _ _ | EvFileClose => true
  | _ => false
  end.

(** A line of the log or a call of the CID allocator: anything but a call
    to the hypervisor driver, to vsock or to the agent. *)
Definition before_spawn (e : event) : Prop :=
  is_log e = true \/ is_cid_call e = true.

Definition is_publish (e : event) : bool :=
  match e with EvPublish _ _ _ => true | _ => false end.

(** A [State] poll that succeeded and reported [StatusStopped]. *)
Definition stopped_poll (e : event) : bool :=
  match e with
  | EvAgentState _ (Some resp, None) =>
      Status_eqb (state_Status resp) StatusStopped
  | _ => false
  end.

End ShimSpec.

Module SnapSpec.
Import Snap.

(** The errors [multierror.Append] adds for [e]: none for an empty
    [*multierror.Error]. *)
Definition flatten (e : error) : list error :=
  match e with
  | MultiError es => es
  | _ => [e]
  end.

(** What [withTransaction] returns when its callback returned [err] and
    closing the transaction returned [terr] (wrapped with [msg]). *)
Definition tx_error (err terr : option error) (msg : string) : option error :=
  let result : multierror_Error := None in
  let result := match err with
                | Some e => multierror_Append result e
                | None => result
                end in
  let result := match terr with
                | Some te => multierror_Append result (errors_Wrap te msg)
                | None => result
                end in
  match ErrorOrNil result with
  | Some e =>
      if Nat.eqb (multierror_Len result) 1 then head (default [] result)
      else Some e
  | None => None
  end.

(** The world in which the callback of a transaction starts. *)
Definition tx_opened (writable : bool) (w : World) : World :=
  mkWorld (trace w ++ [EvBegin writable None]) (db w)
          (Some (writable, db w)) (closeOnce w).

(** [l] is the mount list of the record that [storage.CreateSnapshot]
    makes for [key] in the database [d]: the record is stored under [key]
    with the next id of the sequence, and [l] is the single ext4 mount on
    the device named after that id, read-only unless the kind is Active. *)
Definition mounts_of_created (env : Env) (config : Config) (d : DB)
    (kind : Kind) (key parent : string) (l : list Mount) : Prop :=
  let created := storage_CreateSnapshot_pure d kind key parent in
  exists r : SnapRec,
    records (fst created) !! key = Some r
    /\ snd created = (snapshot_of r, None)
    /\ rec_kind r = kind
    /\ rec_id r = sequence d + 1
    /\ l = buildMounts env config (snapshot_of r)
    /\ l = [mkMount (GetFullDevicePath env
                       (getDeviceName config (pretty (rec_id r))))
                    "ext4"
                    (match kind with KindActive => [] | _ => ["ro"] end)].

(** What [storage.GetSnapshot] answers for a record: the snapshot of an
    Active or View record, an error and the zero value for any other. *)
Definition fetched_of (r : SnapRec) : Snapshot * option error :=
  match rec_kind r with
  | KindActive | KindView => (snapshot_of r, None)
  | _ => (zero_Snapshot,
          Some (errors_Wrap (errdefs ErrFailedPrecondition)
                            "requested snapshot not active or view"))
  end.

(** [result] after a cleanup function returned [e]. *)
Definition append_if (result : multierror_Error) (e : option error)
  : multierror_Error :=
  match e with
  | Some x => multierror_Append result x
  | None => result
  end.

End SnapSpec.

Module ShimMoreSpec.
Import Shim.

(** The drives [startVM] appends for the mounts [rootfs], the first of
    which has index [i] in [request.Rootfs]. *)
Fixpoint rootfs_drives (i : Z) (rootfs : list Mount) : list Drive :=
  match rootfs with
  | [] => []
  | mnt :: rest =>
      mkDrive (pretty (i + 2)) (Source mnt) false false
      :: rootfs_drives (i + 1) rest
  end.

(** The machine configuration [startVM] builds from the shim's
    configuration, the allocated CID and the mounts of the request. *)
Definition machine_config (c : Config) (cid : Z) (rootfs : list Mount)
  : fcConfig :=
  mkFcConfig (SocketPath c) "root" cid (KernelImagePath c) (KernelArgs c)
             (CPUCount c) (CPUTemplate c) 256 (LogFifo c) (LogLevel c)
             (MetricsFifo c) (cfg_Debug c)
             (mkDrive "1" (RootDrive c) true false :: rootfs_drives 0 rootfs).

Definition all_ext4 (rootfs : list Mount) : Prop :=
  Forall (fun m => Type_ m = supportedMountFSType) rootfs.

(** The five delays of [dialVsock]. *)
Definition dial_delays : list Z :=
  [100 * Millisecond; 200 * Millisecond; 400 * Millisecond;
   800 * Millisecond; 1600 * Millisecond].

Definition is_StopVMM (e : event) : bool :=
  match e with EvStopVMM _ => true | _ => false end.

Definition is_ServerClose (e : event) : bool :=
  match e with EvServerClose => true | _ => false end.

(** The steps by which the monitor winds the task down. *)
Definition is_teardown (e : event) : bool :=
  match e with
  | EvPublish _ _ _ | EvAgentShutdown _ _ | EvStopVMM _ | EvCancel
  | EvExit _ | EvServerClose => true
  | _ => false
  end.

End ShimMoreSpec.

Module ShimStartSpec.
Import ShimStart.

Definition is_ProcessKill (e : event) : bool :=
  match e with EvProcessKill _ => true | _ => false end.

(** The arguments the shim passes to its child, after the program name. *)
Definition shim_args (ns address binary : string) (debug : bool)
  : list string :=
  let args :=
    ["-namespace"; ns; "-address"; address; "-publish-binary"; binary] in
  if debug then args ++ ["-debug"] else args.

(** The command [StartShim] starts. *)
Definition shim_cmd (self cwd ns address binary : string) (debug : bool)
    (environ : list string) (f : File) : Cmd :=
  mkCmd self (self :: shim_args ns address binary debug) cwd
        (environ ++ ["GOMAXPROCS=2"]) true [f].

(** The calls of a run up to the successful [shim.NewSocket]. *)
Definition socket_prefix (id : string) (ns self cwd address : string)
  : list event :=
  [EvNamespaceRequired (ns, None); EvExecutable (self, None);
   EvGetwd (cwd, None); EvSocketAddress id (address, None);
   EvNewSocket address None].

(** The calls of a run up to and including a successful [cmd.Start()]. *)
Definition started_prefix (id : string) (ns self cwd address : string)
    (f : File) (cmd : Cmd) (pid : Z) : list event :=
  socket_prefix id ns self cwd address
  ++ [EvSocketFile (f, None); EvCmdStart cmd (pid, None); EvGoWait].

Definition is_close (e : event) : bool :=
  match e with EvSocketClose | EvFileClose _ => true | _ => false end.

End ShimStartSpec.

Module SnapMoreSpec.
Import Snap.

Definition is_RemoveDevice (e : event) : bool :=
  match e with EvRemoveDevice _ _ _ => true | _ => false end.

(** The calls [createSnapshot] makes to the pool and to the host. *)
Definition is_device_step (e : event) : bool :=
  match e with
  | EvCreateThinDevice _ _ _ | EvCreateSnapshotDevice _ _ _ _
  | EvMkfs _ _ | EvTempMount _ _ => true
  | _ => false
  end.

Definition is_close (e : event) : bool :=
  match e with EvStoreClose _ | EvPoolClose _ => true | _ => false end.

(** The arguments of [mkfs.ext4] for a device path. *)
Definition mkfs_args (path : string) : list string :=
  ["-E"; "nodiscard,lazy_itable_init=0,lazy_journal_init=0"; path].

(** The calls [createSnapshot] makes once the record of [snap] is
    created, with the mounts and the error it then returns: a snapshot
    without parent gets a new thin device, which is formatted; a snapshot
    with parents gets a thin snapshot of the device of its first parent,
    which is not formatted.  The result of the temporary mount is
    ignored. *)
Definition device_steps (env : Env) (config : Config) (snap : Snapshot)
    (body : list event) (ms : option (list Mount)) (err : option error)
  : Prop :=
  let name := getDeviceName config (snap_ID snap) in
  let size := BaseImageSizeBytes config in
  let mounts := buildMounts env config snap in
  match ParentIDs snap with
  | [] =>
      (exists e,
         body = [EvCreateThinDevice name size (Some e)]
         /\ ms = None /\ err = Some e)
      \/ (exists out e,
            body = [EvCreateThinDevice name size None;
                    EvMkfs (mkfs_args (GetFullDevicePath env name))
                           (out, Some e)]
            /\ ms = None /\ err = Some e)
      \/ (exists out merr,
            body = [EvCreateThinDevice name size None;
                    EvMkfs (mkfs_args (GetFullDevicePath env name))
                           (out, None);
                    EvTempMount mounts merr]
            /\ ms = Some mounts /\ err = None)
  | parentID :: _ =>
      let parentName := getDeviceName config parentID in
      (exists e,
         body = [EvCreateSnapshotDevice parentName name size (Some e)]
         /\ ms = None /\ err = Some e)
      \/ (exists merr,
            body = [EvCreateSnapshotDevice parentName name size None;
                    EvTempMount mounts merr]
            /\ ms = Some mounts /\ err = None)
  end.

(** What [withTransaction] reports when its callback returned [err], an
    error that is not itself a [*multierror.Error], and closing the
    transaction returned [terr]. *)
Definition reported (err terr : option error) (msg : string) : option error :=
  match err, terr with
  | None, None => None
  | Some e, None => Some e
  | None, Some te => Some (errors_Wrap te msg)
  | Some e, Some te => Some (MultiError [e; errors_Wrap te msg])
  end.

End SnapMoreSpec.

(** * Theorems *)

Ltac go_unfold :=
  unfold mbind, mret, M_bind, M_ret, bind, ret, defer, panic in *.

(** * Paths *)

(** [filepath.Join] drops empty elements and cleans the result: doubled and
    trailing separators, [.] and [..] go. *)
Lemma filepath_Join_cleans_example :
  Shim.filepath_Join "/bundle" "config.json" = "/bundle/config.json"
  /\ Shim.filepath_Join "/bundle/" "config.json" = "/bundle/config.json"
  /\ Shim.filepath_Join "" "config.json" = "config.json"
  /\ Shim.filepath_Join "/run//c1/./x/.." "config.json"
     = "/run/c1/config.json"
  /\ Snapshotter.filepath_Join "/var/lib/dm/" "metadata.db"
     = "/var/lib/dm/metadata.db"
  /\ Snapshotter.filepath_Join "../dm" "metadata.db" = "../dm/metadata.db"
  /\ filepath_Join_elems [""; ""] = ""
  /\ filepath_Clean "" = "." /\ filepath_Clean "/.." = "/".
Proof. vm_compute. repeat split; reflexivity. Qed.

Module ShimFacts.
Import Shim ShimEx ShimSpec.

Section WithEnv.
Context (env : Env).

(** ** [Kill] *)

(** C1 (as amended).  On a created shim, [Kill] first calls the agent and,
    whatever the agent answered, stops the VM as its last call.  When the
    agent call succeeded the per-task context is cancelled in between, so
    the order is agent [Kill], context cancel, VM stop; when it failed, the
    VM stop follows the agent call directly.  A VM-stop error is logged and
    the result is the agent's: its error alone, or its response. *)
Theorem Kill_stops_VM_last (req : KillRequest) (w : World) :
  created (svc w) ->
  let r := agent_Kill env req (trace w ++ [EvLog Debug "kill" None]) in
  exists (new : list event) (s' : service) (stop_err : option error),
    Kill env req w = (Returned (Kill_result r), mkWorld (trace w ++ new) s')
    /\ calls new =
         [EvAgentKill req r]
         ++ (if is_nil (snd r) then [EvCancel] else [])
         ++ [EvStopVMM stop_err]
    /\ (forall e, stop_err = Some e ->
                  In (EvLog Error "failed to stop VM" (Some e)) new).
Proof.
  destruct w as [tr s]. intros (Ha & Hm & Hc) r. simpl in *.
  destruct Ha as [a Ha], Hm as [m Hm], Hc as [c Hc].
  unfold Kill, Kill_result, stopVM, with_agent, with_machine, s_cancel, log,
    emit, ask, get_s, modify_s.
  go_unfold. simpl. rewrite Ha. simpl. fold r.
  destruct r as [resp [e|]]; simpl; rewrite ?Hm, ?Hc; simpl; rewrite ?Hm; simpl.
  - match goal with |- context [machine_StopVMM env ?t] =>
      destruct (machine_StopVMM env t) as [se|] eqn:Hs end; simpl;
    eexists _, _, _; (split; [rewrite <- ?app_assoc; reflexivity|]);
    simpl; (split; [reflexivity|]); intros e' He'; inversion He'; subst;
    simpl; tauto.
  - match goal with |- context [machine_StopVMM env ?t] =>
      destruct (machine_StopVMM env t) as [se|] eqn:Hs end; simpl;
    eexists _, _, _; (split; [rewrite <- ?app_assoc; reflexivity|]);
    simpl; (split; [reflexivity|]); intros e' He'; inversion He'; subst;
    simpl; tauto.
Qed.

(** ** [findNextAvailableVsockCID] *)

Lemma in_use_run_S c k :
  in_use_run c (S k) = EvIoctl c EADDRINUSE :: in_use_run (c + 1) k.
Proof.
  unfold in_use_run. simpl. rewrite Z.add_0_r. f_equal.
  rewrite <- seq_shift, map_map. apply map_ext. intros i. f_equal. lia.
Qed.

Lemma scanCIDs_spec (Hctx : forall tr, ctx_Done env tr = false) (n : nat) :
  forall (c : Z) (w : World),
  exists k : nat,
    (k <= n)%nat
    /\ (forall j : nat, (j < k)%nat ->
          sys_ioctl env (c + Z.of_nat j) (trace w ++ in_use_run c j)
          = EADDRINUSE)
    /\ let cid := c + Z.of_nat k in
       let tr_k := trace w ++ in_use_run c k in
       let errno := sys_ioctl env cid tr_k in
       ((k < n)%nat /\ errno = 0
        /\ scanCIDs env n c w
           = (Returned (uint32 cid, None),
              mkWorld (tr_k ++ [EvIoctl cid 0]) (svc w)))
       \/ ((k < n)%nat /\ errno <> 0 /\ errno <> EADDRINUSE
           /\ scanCIDs env n c w
              = (Returned (0, Some (Errno errno)),
                 mkWorld (tr_k ++ [EvIoctl cid errno]) (svc w)))
       \/ (k = n
           /\ scanCIDs env n c w
              = (Returned (0, Some err_no_cid), mkWorld tr_k (svc w))).
Proof.
  induction n as [|n IH]; intros c w.
  - exists 0%nat. split; [lia|]. split; [intros j Hj; lia|].
    right; right. split; [reflexivity|]. destruct w; simpl.
    unfold in_use_run; simpl. rewrite app_nil_r. reflexivity.
  - simpl scanCIDs. unfold peek, ask. go_unfold. rewrite Hctx.
    destruct (sys_ioctl env c (trace w) =? 0) eqn:E0.
    + apply Z.eqb_eq in E0. exists 0%nat. split; [lia|].
      split; [intros j Hj; lia|]. left.
      unfold in_use_run; simpl. rewrite Z.add_0_r, app_nil_r.
      split; [lia|]. split; [exact E0|]. rewrite E0. reflexivity.
    + apply Z.eqb_neq in E0.
      destruct (sys_ioctl env c (trace w) =? EADDRINUSE) eqn:E1.
      * apply Z.eqb_eq in E1.
        destruct (IH (c + 1)
                    (mkWorld (trace w ++ [EvIoctl c (sys_ioctl env c (trace w))])
                             (svc w)))
          as (k & Hk & Hbefore & Hcases).
        simpl in Hbefore, Hcases. rewrite E1 in Hbefore, Hcases.
        assert (Htr : forall j,
                   (trace w ++ [EvIoctl c EADDRINUSE]) ++ in_use_run (c + 1) j
                   = trace w ++ in_use_run c (S j)).
        { intros j. rewrite in_use_run_S, <- app_assoc. reflexivity. }
        assert (Hc : forall j, c + 1 + Z.of_nat j = c + Z.of_nat (S j))
          by (intros; lia).
        exists (S k). split; [lia|]. split.
        { intros [|j] Hj.
          - unfold in_use_run; simpl. rewrite Z.add_0_r, app_nil_r. exact E1.
          - rewrite <- Hc, <- Htr. apply Hbefore. lia. }
        rewrite E1. rewrite Htr, Hc in Hcases.
        destruct Hcases as [(H1 & H2 & H3) | [(H1 & H2 & H3 & H4) | (H1 & H2)]].
        -- left. split; [lia|]. split; [exact H2|exact H3].
        -- right; left. split; [lia|]. split; [exact H2|]. split; [exact H3|exact H4].
        -- right; right. split; [lia|exact H2].
      * apply Z.eqb_neq in E1. exists 0%nat. split; [lia|].
        split; [intros j Hj; lia|]. right; left.
        unfold in_use_run; simpl. rewrite Z.add_0_r, app_nil_r.
        split; [lia|]. split; [exact E0|]. split; [exact E1|]. reflexivity.
Qed.


Lemma findNextAvailableVsockCID_spec (w : World) :
  (forall tr, ctx_Done env tr = false) ->
  let opened := os_OpenFile env vsockDevicePath (trace w) in
  let tr0 := trace w ++ [EvOpenFile vsockDevicePath opened] in
  match opened with
  | Some e =>
      findNextAvailableVsockCID env w
      = (Returned (0, Some (errors_Wrap e "failed to open vsock device")),
         mkWorld tr0 (svc w))
  | None =>
      exists k : nat,
        let cid := 3 + Z.of_nat k in
        let tr_k := tr0 ++ in_use_run 3 k in
        let errno := sys_ioctl env cid tr_k in
        (forall j : nat, (j < k)%nat ->
           sys_ioctl env (3 + Z.of_nat j) (tr0 ++ in_use_run 3 j) = EADDRINUSE)
        /\ ((errno = 0 /\ 3 <= cid <= 2 ^ 32 - 2
             /\ findNextAvailableVsockCID env w
                = (Returned (cid, None),
                   mkWorld (tr_k ++ [EvIoctl cid 0; EvFileClose]) (svc w)))
            \/ (errno <> 0 /\ errno <> EADDRINUSE /\ 3 <= cid <= 2 ^ 32 - 2
                /\ findNextAvailableVsockCID env w
                   = (Returned (0, Some (Errno errno)),
                      mkWorld (tr_k ++ [EvIoctl cid errno; EvFileClose])
                              (svc w)))
            \/ (cid - 1 = 2 ^ 32 - 2
                /\ findNextAvailableVsockCID env w
                   = (Returned (0, Some err_no_cid),
                      mkWorld (tr_k ++ [EvFileClose]) (svc w))))
  end.
Proof.
  intros Hctx opened tr0.
  unfold findNextAvailableVsockCID, ask, emit. go_unfold. fold opened.
  destruct opened as [e|] eqn:Hopen; [reflexivity|].
  destruct (scanCIDs_spec Hctx (Z.to_nat (maxCID - startCID)) startCID
              (mkWorld tr0 (svc w)))
    as (k & Hk & Hbefore & Hcases).
  assert (Hn : Z.of_nat (Z.to_nat (maxCID - startCID)) = 2 ^ 32 - 4)
    by (unfold maxCID, startCID; rewrite Z2Nat.id; lia).
  unfold startCID in *. fold tr0. simpl trace in *. simpl svc in *.
  exists k. split; [exact Hbefore|].
  destruct Hcases as [(H1 & H2 & H3) | [(H1 & H2 & H3 & H4) | (H1 & H2)]].
  - left. split; [exact H2|]. split; [lia|]. rewrite H3. simpl.
    rewrite <- !app_assoc. simpl. f_equal. f_equal.
    unfold uint32. rewrite Z.mod_small; [reflexivity | lia].
  - right; left. split; [exact H2|]. split; [exact H3|]. split; [lia|].
    rewrite H4. simpl. rewrite <- !app_assoc. reflexivity.
  - right; right. split; [lia|]. rewrite H2. reflexivity.
Qed.

(** C3 (as amended).  With a context that is never cancelled, the
    allocator opens the vsock device and tries CID 3, 4, ... in turn.  It
    moves on to the next integer exactly when the ioctl answers
    [EADDRINUSE].  It returns the first CID whose ioctl answers 0, which
    lies between 3 and 2^32 - 2; it returns any other errno as its error;
    and it gives up once every CID from 3 to 2^32 - 2 was in use:
    2^32 - 1 is never tried. *)
Theorem findNextAvailableVsockCID_first_free (w : World) :
  (forall tr, ctx_Done env tr = false) ->
  let opened := os_OpenFile env vsockDevicePath (trace w) in
  let tr0 := trace w ++ [EvOpenFile vsockDevicePath opened] in
  match opened with
  | Some e =>
      findNextAvailableVsockCID env w
      = (Returned (0, Some (errors_Wrap e "failed to open vsock device")),
         mkWorld tr0 (svc w))
  | None =>
      exists k : nat,
        let cid := 3 + Z.of_nat k in
        let tr_k := tr0 ++ in_use_run 3 k in
        let errno := sys_ioctl env cid tr_k in
        (forall j : nat, (j < k)%nat ->
           sys_ioctl env (3 + Z.of_nat j) (tr0 ++ in_use_run 3 j) = EADDRINUSE)
        /\ ((errno = 0 /\ 3 <= cid <= 2 ^ 32 - 2
             /\ findNextAvailableVsockCID env w
                = (Returned (cid, None),
                   mkWorld (tr_k ++ [EvIoctl cid 0; EvFileClose]) (svc w)))
            \/ (errno <> 0 /\ errno <> EADDRINUSE /\ 3 <= cid <= 2 ^ 32 - 2
                /\ findNextAvailableVsockCID env w
                   = (Returned (0, Some (Errno errno)),
                      mkWorld (tr_k ++ [EvIoctl cid errno; EvFileClose])
                              (svc w)))
            \/ (cid - 1 = 2 ^ 32 - 2
                /\ findNextAvailableVsockCID env w
                   = (Returned (0, Some err_no_cid),
                      mkWorld (tr_k ++ [EvFileClose]) (svc w))))
  end.
Proof. exact (findNextAvailableVsockCID_spec w). Qed.


(** ** [dialVsock] *)

Lemma last_error_cons lastErr c e fails :
  last_error lastErr ((c, e) :: fails) = last_error (Some e) fails.
Proof.
  unfold last_error. destruct fails as [|[c' e'] fails]; [reflexivity|].
  rewrite last_cons_cons. destruct (last ((c', e') :: fails)) as [[? ?]|] eqn:E.
  - reflexivity.
  - apply last_None in E. discriminate.
Qed.

Lemma dialVsock_loop_spec (n : nat) :
  forall (i cid port : Z) (lastErr : option error) (d : Z) (w : World),
  exists (fails : list (option Conn * error)) (final new : list event),
    (length fails <= n)%nat
    /\ calls new = failed_attempts cid port fails (delays_from d n) ++ final
    /\ (length (List.filter is_dial new) <= n)%nat
    /\ ((exists conn,
           (length fails < n)%nat
           /\ final = [EvDial cid port (conn, None)]
           /\ dialVsock_loop env n i cid port lastErr d w
              = (Returned (conn, None), mkWorld (trace w ++ new) (svc w)))
        \/ (length fails = n /\ final = []
            /\ dialVsock_loop env n i cid port lastErr d w
               = (Returned (None, last_error lastErr fails),
                  mkWorld (trace w ++ new) (svc w)))).
Proof.
  induction n as [|n IH]; intros i cid port lastErr d w.
  - exists [], [], [EvLog Error "vsock dial failed" lastErr].
    split; [simpl; lia|]. split; [reflexivity|]. split; [simpl; lia|].
    right. split; [reflexivity|]. split; [reflexivity|]. reflexivity.
  - simpl dialVsock_loop. unfold ask, log, emit. go_unfold. simpl.
    destruct (vsock_Dial env cid port (trace w)) as [conn [e|]] eqn:Hd.
    + match goal with |- context [dialVsock_loop env n ?i' cid port ?l ?d' ?w'] =>
        destruct (IH i' cid port l d' w')
          as (fails & final & new & Hlen & Hcalls & Hcount & Hcases) end.
      simpl in Hcases.
      exists ((conn, e) :: fails), final,
        ([EvDial cid port (conn, Some e);
          EvLog Warn "vsock dial failed (attempt %d of %d), will retry in %s"
                (Some e);
          EvSleep d] ++ new).
      split; [simpl; lia|]. split; [simpl; f_equal; f_equal; exact Hcalls|].
      split; [simpl; lia|].
      destruct Hcases as [(c' & H1 & H2 & H3) | (H1 & H2 & H3)].
      * left. exists c'. split; [simpl; lia|]. split; [exact H2|].
        simpl. rewrite H3. simpl. rewrite <- !app_assoc. reflexivity.
      * right. split; [simpl; lia|]. split; [exact H2|].
        simpl. rewrite H3, last_error_cons. simpl. rewrite <- !app_assoc.
        reflexivity.
    + exists [], [EvDial cid port (conn, None)],
        [EvDial cid port (conn, None); EvLog Debug "Dial succeeded" None].
      split; [simpl; lia|]. split; [reflexivity|]. split; [simpl; lia|].
      left. exists conn. split; [simpl; lia|]. split; [reflexivity|].
      simpl. rewrite <- ?app_assoc. reflexivity.
Qed.


Lemma failed_trace_dials cid port fails :
  forall ds,
    (length (List.filter is_dial (failed_trace cid port fails ds))
     <= length fails)%nat.
Proof.
  induction fails as [|[c e] fails IH]; intros ds; [simpl; lia|].
  destruct ds as [|d ds]; [simpl; lia|].
  simpl. specialize (IH ds). lia.
Qed.

Lemma dialVsock_loop_run (n : nat) :
  forall (i cid port : Z) (lastErr : option error) (d : Z) (w : World),
  exists fails : list (option Conn * error),
    let failed := failed_trace cid port fails (delays_from d n) in
    (length fails <= n)%nat
    /\ (forall (j : nat) c e,
          fails !! j = Some (c, e) ->
          vsock_Dial env cid port
            (trace w ++ failed_trace cid port (take j fails) (delays_from d n))
          = (c, Some e))
    /\ ((exists conn,
           (length fails < n)%nat
           /\ vsock_Dial env cid port (trace w ++ failed) = (conn, None)
           /\ dialVsock_loop env n i cid port lastErr d w
              = (Returned (conn, None),
                 mkWorld (trace w ++ failed
                            ++ [EvDial cid port (conn, None);
                                EvLog Debug "Dial succeeded" None])
                         (svc w)))
        \/ (length fails = n
            /\ dialVsock_loop env n i cid port lastErr d w
               = (Returned (None, last_error lastErr fails),
                  mkWorld (trace w ++ failed
                             ++ [EvLog Error "vsock dial failed"
                                       (last_error lastErr fails)])
                          (svc w)))).
Proof.
  induction n as [|n IH]; intros i cid port lastErr d w.
  - exists []. cbv zeta. split; [simpl; lia|].
    split; [intros j c e Hj; rewrite lookup_nil in Hj; discriminate|].
    right. split; [reflexivity|]. reflexivity.
  - simpl dialVsock_loop. unfold ask, log, emit. go_unfold. simpl.
    destruct (vsock_Dial env cid port (trace w)) as [conn [e|]] eqn:Hd.
    + cbn [trace svc]. rewrite <- !(app_assoc (trace w)). cbn [app].
      match goal with
      | |- context [dialVsock_loop env n ?i' cid port ?l ?d' ?w'] =>
          destruct (IH i' cid port l d' w')
            as (fails & Hlen & Hties & Hcases)
      end.
      cbn [trace svc] in Hties, Hcases.
      exists ((conn, e) :: fails).
      split; [simpl; lia|].
      split.
      { intros [|j] c' e' Hj.
        - simpl in Hj. inversion Hj; subst. simpl. rewrite app_nil_r. exact Hd.
        - simpl in Hj. specialize (Hties j c' e' Hj).
          rewrite <- !(app_assoc (trace w)) in Hties. cbn [app] in Hties.
          exact Hties. }
      destruct Hcases as [(c' & H1 & H2 & H3) | (H1 & H3)];
        rewrite <- !(app_assoc (trace w)) in H3; cbn [app] in H3.
      * rewrite <- !(app_assoc (trace w)) in H2. cbn [app] in H2.
        left. exists c'. split; [simpl; lia|]. split; [exact H2|].
        rewrite H3. reflexivity.
      * right. split; [simpl; lia|].
        rewrite H3, last_error_cons. reflexivity.
    + exists []. cbv zeta. split; [simpl; lia|].
      split; [intros j c e Hj; rewrite lookup_nil in Hj; discriminate|].
      left. exists conn. split; [simpl; lia|].
      cbn [failed_trace]. rewrite app_nil_r. split; [exact Hd|].
      cbn [trace svc]. rewrite <- ?(app_assoc (trace w)). reflexivity.
Qed.

(** C4.  [dialVsock] asks [vsock.Dial] at most 5 times.  The attempts that
    failed are [fails], in order, each with the answer [vsock.Dial] gave
    at that point; after the failed attempt number 1, 2, 3, 4, 5 it logs
    a warning and sleeps 100, 200, 400, 800, 1600 ms.  The first dial
    that succeeds ends the loop and its connection is returned, with no
    sleep after it; after 5 failed dials the error of the fifth is
    returned. *)
Theorem dialVsock_backoff (contextID port : Z) (w : World) :
  let delays := [100 * Millisecond; 200 * Millisecond; 400 * Millisecond;
                 800 * Millisecond; 1600 * Millisecond] in
  exists (fails : list (option Conn * error)) (final : list event),
    let failed := failed_trace contextID port fails delays in
    (length fails <= 5)%nat
    /\ (length (List.filter is_dial (failed ++ final)) <= 5)%nat
    /\ (forall (j : nat) c e,
          fails !! j = Some (c, e) ->
          vsock_Dial env contextID port
            (trace w ++ failed_trace contextID port (take j fails) delays)
          = (c, Some e))
    /\ ((exists conn,
           (length fails < 5)%nat
           /\ vsock_Dial env contextID port (trace w ++ failed) = (conn, None)
           /\ final = [EvDial contextID port (conn, None);
                       EvLog Debug "Dial succeeded" None]
           /\ dialVsock env contextID port w
              = (Returned (conn, None),
                 mkWorld (trace w ++ failed ++ final) (svc w)))
        \/ (exists c e,
              length fails = 5%nat
              /\ last fails = Some (c, e)
              /\ final = [EvLog Error "vsock dial failed" (Some e)]
              /\ dialVsock env contextID port w
                 = (Returned (None, Some e),
                    mkWorld (trace w ++ failed ++ final) (svc w)))).
Proof.
  intros delays.
  destruct (dialVsock_loop_run 5 1 contextID port None initialDelay w)
    as (fails & Hlen & Hties & Hcases).
  change (delays_from initialDelay 5) with delays in Hties, Hcases.
  cbv zeta in Hcases.
  pose proof (failed_trace_dials contextID port fails delays) as Hdials.
  destruct Hcases as [(conn & H1 & H2 & H3) | (H1 & H3)].
  - exists fails, [EvDial contextID port (conn, None);
                   EvLog Debug "Dial succeeded" None].
    cbv zeta. split; [exact Hlen|].
    split; [rewrite List.filter_app, length_app; simpl; lia|].
    split; [exact Hties|].
    left. exists conn. split; [exact H1|]. split; [exact H2|].
    split; [reflexivity|exact H3].
  - unfold last_error in H3.
    destruct (last fails) as [[c e]|] eqn:El.
    + exists fails, [EvLog Error "vsock dial failed" (Some e)].
      cbv zeta. split; [exact Hlen|].
      split; [rewrite List.filter_app, length_app; simpl; lia|].
      split; [exact Hties|].
      right. exists c, e. split; [exact H1|]. split; [exact El|].
      split; [reflexivity|exact H3].
    + apply last_None in El. subst fails. discriminate.
Qed.


(** ** [startVM] and [Create] *)

Lemma scanCIDs_returns (n : nat) :
  forall (c : Z) (w : World),
  exists r new,
    scanCIDs env n c w = (Returned r, mkWorld (trace w ++ new) (svc w))
    /\ Forall before_spawn new.
Proof.
  induction n as [|n IH]; intros c w.
  - exists (0, Some err_no_cid), []. destruct w; simpl.
    rewrite app_nil_r. split; [reflexivity|constructor].
  - simpl scanCIDs. unfold peek, ask. go_unfold.
    destruct (ctx_Done env (trace w)).
    { exists (0, Some (ctx_Err env (trace w))), []. rewrite app_nil_r.
      destruct w; simpl. split; [reflexivity|constructor]. }
    destruct (sys_ioctl env c (trace w) =? 0).
    { eexists _, [_]. split; [reflexivity|].
      constructor; [right; reflexivity|constructor]. }
    destruct (sys_ioctl env c (trace w) =? EADDRINUSE).
    + match goal with |- context [scanCIDs env n ?c' ?w'] =>
        destruct (IH c' w') as (r & new & Hrun & Hnew) end.
      exists r, (EvIoctl c (sys_ioctl env c (trace w)) :: new).
      rewrite Hrun. simpl. rewrite <- app_assoc.
      split; [reflexivity|]. constructor; [right; reflexivity|exact Hnew].
    + eexists _, [_]. split; [reflexivity|].
      constructor; [right; reflexivity|constructor].
Qed.

Lemma findNextAvailableVsockCID_returns (w : World) :
  exists r new,
    findNextAvailableVsockCID env w
    = (Returned r, mkWorld (trace w ++ new) (svc w))
    /\ Forall before_spawn new.
Proof.
  unfold findNextAvailableVsockCID, ask, emit. go_unfold.
  destruct (os_OpenFile env vsockDevicePath (trace w)) as [e|].
  - eexists _, [_]. split; [reflexivity|].
    constructor; [right; reflexivity|constructor].
  - match goal with |- context [scanCIDs env ?n ?c ?w'] =>
      destruct (scanCIDs_returns n c w') as (r & new & Hrun & Hnew) end.
    rewrite Hrun. simpl.
    exists r, (EvOpenFile vsockDevicePath None :: new ++ [EvFileClose]).
    rewrite <- !app_assoc. simpl. split; [reflexivity|].
    constructor; [right; reflexivity|].
    apply Forall_app. split; [exact Hnew|].
    constructor; [right; reflexivity|constructor].
Qed.

Lemma attachDrives_rejects (pre : list Mount) :
  forall (i : Z) (m : Mount) (post : list Mount) (drives : list Drive),
    Forall (fun x => Type_ x = supportedMountFSType) pre ->
    Type_ m <> supportedMountFSType ->
    exists ds,
      attachDrives i (pre ++ m :: post) drives
      = (ds, Some (err_unsupported_mount (Type_ m))).
Proof.
  induction pre as [|x pre IH]; intros i m post drives Hpre Hm; simpl.
  - apply String.eqb_neq in Hm. rewrite Hm. simpl. eauto.
  - inversion Hpre as [|? ? Hx Hpre']; subst.
    rewrite Hx, String.eqb_refl. simpl. apply IH; assumption.
Qed.


(** C6 (as amended).  On a shim whose VM is not started, a [Create] whose
    [Rootfs] has a mount that is not ext4 fails, and all it did before is
    log and run the CID allocator: the hypervisor was neither built nor
    started, vsock was not dialled and the agent was not called.  The
    error is the allocator's when CID allocation failed, and otherwise
    the plain error "unsupported mount type ..." for the first such
    mount. *)
Theorem Create_rejects_non_ext4 (request : CreateTaskRequest) (w : World)
    (pre : list Mount) (m : Mount) (post : list Mount) :
  agentStarted (svc w) = false ->
  create_Rootfs request = pre ++ m :: post ->
  Forall (fun x => Type_ x = supportedMountFSType) pre ->
  Type_ m <> supportedMountFSType ->
  exists (e : error) (new : list event) (cid : Z * option error),
    Create env request w
    = (Returned (None, Some e), mkWorld (trace w ++ new) (svc w))
    /\ Forall before_spawn new
    /\ fst (findNextAvailableVsockCID env
              (mkWorld (trace w ++ [EvLog Debug "creating task" None;
                                    EvLog Info "starting VM" None])
                       (svc w)))
       = Returned cid
    /\ e = match snd cid with
           | Some cid_err => cid_err
           | None => err_unsupported_mount (Type_ m)
           end.
Proof.
  intros Hfresh Hroot Hpre Hm.
  unfold Create, startVM, log, emit, get_s. go_unfold. simpl.
  rewrite Hfresh. cbn [trace svc]. rewrite <- app_assoc. cbn [app].
  match goal with |- context [findNextAvailableVsockCID env ?w'] =>
    destruct (findNextAvailableVsockCID_returns w')
      as ([cid cerr] & new & Hrun & Hnew) end.
  rewrite Hrun. cbn [trace svc].
  destruct cerr as [ce|].
  - cbn [trace svc]. rewrite <- !app_assoc. cbn [app].
    eexists ce, _, (cid, Some ce).
    split; [reflexivity|]. split; [|split; reflexivity].
    constructor; [left; reflexivity|]. constructor; [left; reflexivity|].
    apply Forall_app. split; [exact Hnew|].
    constructor; [left; reflexivity|constructor].
  - rewrite Hroot.
    match goal with |- context [attachDrives ?i _ ?ds] =>
      destruct (attachDrives_rejects pre i m post ds Hpre Hm) as (ds' & Hatt)
    end.
    rewrite Hatt. cbn [trace svc]. rewrite <- !app_assoc. cbn [app].
    eexists _, _, (cid, None).
    split; [reflexivity|]. split; [|split; reflexivity].
    constructor; [left; reflexivity|]. constructor; [left; reflexivity|].
    apply Forall_app. split; [exact Hnew|].
    constructor; [left; reflexivity|constructor].
Qed.


(** ** [monitorState] *)

Lemma Status_eqb_eq a b : Status_eqb a b = true <-> a = b.
Proof. destruct a, b; simpl; split; intros H; congruence. Qed.

Lemma Shutdown_spec (req : ShutdownRequest) (w : World) :
  created (svc w) ->
  exists out new s' r rest,
    Shutdown env req w = (out, mkWorld (trace w ++ new) s')
    /\ calls new = EvAgentShutdown req r :: rest
    /\ List.filter is_publish new = []
    /\ (out = Exited 0 \/ exists e, out = Returned (None, Some e)).
Proof.
  destruct w as [tr s]. intros (Ha & Hm & Hc). simpl in *.
  destruct Ha as [a Ha], Hm as [m Hm], Hc as [c Hc].
  unfold Shutdown, stopVM, with_agent, with_machine, s_cancel, os_Exit, log,
    emit, ask, get_s, modify_s.
  go_unfold. simpl. rewrite Ha. simpl.
  match goal with |- context [agent_Shutdown env req ?t] =>
    destruct (agent_Shutdown env req t) as [resp [e|]] end; simpl;
  rewrite Hm; simpl;
  match goal with |- context [machine_StopVMM env ?t] =>
    destruct (machine_StopVMM env t) as [se|] end; simpl;
  rewrite ?Hc; simpl; rewrite <- ?app_assoc; simpl;
  eexists _, _, _, _, _;
  (split; [reflexivity|]); simpl;
  (split; [reflexivity|]); (split; [reflexivity|]); eauto.
Qed.

Lemma monitorState_loop_spec (id execID : string) (pid : Z) (fuel : nat) :
  forall w : World,
  created (svc w) ->
  exists out new s',
    monitorState_loop env fuel id execID pid w
    = (out, mkWorld (trace w ++ new) s')
    /\ (length (List.filter is_publish new) <= 1)%nat
    /\ (existsb stopped_poll new = true ->
        exists pre resp now perr post r rest,
          new = pre
                ++ [EvAgentState (mkStateRequest id execID) (Some resp, None);
                    EvPublish TaskExitEventTopic
                      (mkTaskExit (Shim.id (svc w)) (Shim.id (svc w)) pid
                                  (state_ExitStatus resp) now)
                      perr]
                ++ post
          /\ state_Status resp = StatusStopped
          /\ existsb stopped_poll pre = false
          /\ List.filter is_publish pre = []
          /\ List.filter is_publish post = []
          /\ calls post = EvAgentShutdown (mkShutdownRequest id false) r :: rest
          /\ (out = Exited 0 \/ out = Returned LoopReturned)).
Proof.
  induction fuel as [|fuel IH]; intros w Hcr.
  - exists (Returned StillLooping), [], (svc w). destruct w; simpl.
    rewrite app_nil_r. split; [reflexivity|]. split; [lia|]. discriminate.
  - destruct Hcr as (Ha & Hm & Hc). destruct Ha as [a Ha].
    simpl monitorState_loop. unfold with_agent, ask, get_s, log, emit, peek.
    go_unfold. cbn [trace svc].
    destruct (monitor_Done env (trace w)) eqn:Hdone.
    { exists (Returned LoopReturned), [EvCtxDone], (svc w).
      split; [reflexivity|]. split; [simpl; lia|]. discriminate. }
    cbn [trace svc]. rewrite Ha. cbn [trace svc].
    match goal with |- context [agent_State env ?q ?t] =>
      destruct (agent_State env q t) as [resp [e|]] eqn:Hst end.
    + (* the poll failed: log and poll again *)
      cbn [trace svc].
      match goal with |- context [monitorState_loop env fuel id execID pid ?w'] =>
        destruct (IH w') as (out & new & s' & Hrun & Hcount & Hstop) end.
      { split; [cbn [svc]; rewrite Ha; eauto | split; assumption]. }
      rewrite Hrun. cbn [trace svc] in *. rewrite <- !app_assoc. cbn [app].
      eexists out, _, s'. split; [reflexivity|].
      split; [simpl; exact Hcount|].
      intros Hex. simpl in Hex. destruct resp; simpl in Hex.
      all: destruct (Hstop Hex)
        as (pre & r0 & now & perr & post & r & rest & Hnew & Hs & Hpre & Hpp
            & Hpost & Hcalls & Hout).
      all: eexists (EvTick :: EvAgentState (mkStateRequest id execID) (_, Some e)
                      :: EvLog Error "error monitoring state" (Some e) :: pre),
             r0, now, perr, post, r, rest.
      all: rewrite Hnew; split; [reflexivity|]; split; [exact Hs|].
      all: split; [simpl; exact Hpre|].
      all: split; [simpl; exact Hpp|]; split; [exact Hpost|].
      all: split; [exact Hcalls|exact Hout].
    + destruct resp as [resp|].
      2:{ (* a nil response without an error *)
        eexists _, [_; _], (svc w). rewrite <- !app_assoc. cbn [app].
        split; [reflexivity|]. split; [simpl; lia|]. discriminate. }
      destruct (Status_eqb (state_Status resp) StatusStopped) eqn:Hstatus.
      * (* stopped: publish, shut down, leave *)
        cbn [trace svc].
        match goal with |- context [Shutdown env ?q ?w'] =>
          destruct (Shutdown_spec q w')
            as (sout & snew & s' & r & rest & Hrun & Hcalls & Hpub & Hout) end.
        { split; [cbn [svc]; rewrite Ha; eauto | split; assumption]. }
        rewrite Hrun. cbn [trace svc] in *.
        destruct Hout as [Hout | (e & Hout)]; subst sout.
        -- rewrite <- !app_assoc. cbn [app].
           eexists (Exited 0), _, s'. split; [reflexivity|].
           split; [simpl; rewrite Hpub; simpl; lia|].
           intros _.
           eexists [EvTick], resp, _, _, snew, r, rest.
           split; [reflexivity|].
           split; [apply Status_eqb_eq; exact Hstatus|].
           split; [reflexivity|]. split; [reflexivity|].
           split; [exact Hpub|]. split; [exact Hcalls|]. left; reflexivity.
        -- rewrite <- !app_assoc. cbn [app].
           eexists (Returned LoopReturned), _, s'. split; [reflexivity|].
           split.
           { simpl. rewrite List.filter_app, Hpub. simpl. lia. }
           intros _.
           eexists [EvTick], resp, _, _, (snew ++ [EvServerClose]), r,
             (rest ++ [EvServerClose]).
           split; [reflexivity|].
           split; [apply Status_eqb_eq; exact Hstatus|].
           split; [reflexivity|]. split; [reflexivity|].
           split; [rewrite List.filter_app, Hpub; reflexivity|].
           split; [|right; reflexivity].
           unfold calls in *. rewrite List.filter_app, Hcalls. reflexivity.
      * (* still running: poll again *)
        cbn [trace svc].
        match goal with |- context [monitorState_loop env fuel id execID pid ?w'] =>
          destruct (IH w') as (out & new & s' & Hrun & Hcount & Hstop) end.
        { split; [cbn [svc]; rewrite Ha; eauto | split; assumption]. }
        rewrite Hrun. cbn [trace svc] in *. rewrite <- !app_assoc. cbn [app].
        eexists out, _, s'. split; [reflexivity|].
        split; [simpl; exact Hcount|].
        intros Hex. simpl in Hex. rewrite Hstatus in Hex. simpl in Hex.
        destruct (Hstop Hex)
          as (pre & r0 & now & perr & post & r & rest & Hnew & Hs & Hpre & Hpp
              & Hpost & Hcalls & Hout).
        exists (EvTick
                :: EvAgentState (mkStateRequest id execID) (Some resp, None)
                :: pre),
          r0, now, perr, post, r, rest.
        rewrite Hnew. split; [reflexivity|]. split; [exact Hs|].
        split; [simpl; rewrite Hstatus; exact Hpre|].
        split; [simpl; exact Hpp|]. split; [exact Hpost|].
        split; [exact Hcalls|exact Hout].
Qed.

Lemma monitorState_loop_more_fuel (id execID : string) (pid : Z)
    (fuel : nat) :
  forall (w : World) out w',
    monitorState_loop env fuel id execID pid w = (out, w') ->
    out <> Returned StillLooping ->
    forall fuel' : nat, (fuel <= fuel')%nat ->
      monitorState_loop env fuel' id execID pid w = (out, w').
Proof.
  induction fuel as [|fuel IH]; intros w out w' Hrun Hout fuel' Hle.
  - simpl in Hrun. go_unfold. inversion Hrun; subst. congruence.
  - destruct fuel' as [|fuel']; [lia|].
    simpl monitorState_loop in *.
    unfold with_agent, ask, get_s, log, emit, peek in *. go_unfold.
    cbn [trace svc] in *.
    destruct (monitor_Done env (trace w)); [exact Hrun|].
    cbn [trace svc] in *.
    destruct (agentClient (svc w)); [|exact Hrun].
    cbn [trace svc] in *.
    match goal with |- context [agent_State env ?q ?t] =>
      destruct (agent_State env q t) as [resp [e|]] end.
    + cbn [trace svc] in *. apply (IH _ _ _ Hrun Hout). lia.
    + destruct resp as [resp|]; [|exact Hrun].
      destruct (Status_eqb (state_Status resp) StatusStopped);
        [exact Hrun|].
      cbn [trace svc] in *. apply (IH _ _ _ Hrun Hout). lia.
Qed.


(** C9.  In every run of the state monitor on a created shim at most one
    [TaskExit] is published.  When a [State] poll of the run reports
    [StatusStopped], the first such poll is followed at once by the one
    [TaskExit], which carries the shim's container id, the pid, the exit
    status of the poll and the current time; then [Shutdown] is called
    (its first call is the agent's [Shutdown]) and publishes nothing, and
    the monitor has left its loop: it returned or the process exited.
    A run that has left the loop is the same with any larger fuel. *)
Theorem monitorState_publishes_once (fuel : nat) (id execID : string)
    (pid : Z) (w : World) :
  created (svc w) ->
  exists out new s',
    monitorState env fuel id execID pid w
    = (out, mkWorld (trace w ++ new) s')
    /\ (length (List.filter is_publish new) <= 1)%nat
    /\ (existsb stopped_poll new = true ->
        exists pre resp now perr post r rest,
          new = pre
                ++ [EvAgentState (mkStateRequest id execID) (Some resp, None);
                    EvPublish TaskExitEventTopic
                      (mkTaskExit (Shim.id (svc w)) (Shim.id (svc w)) pid
                                  (state_ExitStatus resp) now)
                      perr]
                ++ post
          /\ state_Status resp = StatusStopped
          /\ existsb stopped_poll pre = false
          /\ List.filter is_publish pre = []
          /\ List.filter is_publish post = []
          /\ calls post = EvAgentShutdown (mkShutdownRequest id false) r :: rest
          /\ (out = Exited 0 \/ out = Returned LoopReturned))
    /\ (out <> Returned StillLooping ->
        forall fuel' : nat, (fuel <= fuel')%nat ->
          monitorState env fuel' id execID pid w
          = (out, mkWorld (trace w ++ new) s')).
Proof.
  intros Hcr.
  destruct (monitorState_loop_spec id execID pid fuel
              (mkWorld (trace w ++ [EvNewTicker Second]) (svc w)) Hcr)
    as (out & new & s' & Hrun & Hcount & Hstop).
  cbn [trace svc] in *. rewrite <- app_assoc in Hrun. cbn [app] in Hrun.
  exists out, (EvNewTicker Second :: new), s'.
  unfold monitorState, emit. go_unfold.
  split; [exact Hrun|]. split; [exact Hcount|]. split.
  - intros Hex. simpl in Hex.
    destruct (Hstop Hex)
      as (pre & r0 & now & perr & post & r & rest & Hnew & Hs & Hpre & Hpp
          & Hpost & Hcalls & Hout).
    exists (EvNewTicker Second :: pre), r0, now, perr, post, r, rest.
    rewrite Hnew. split; [reflexivity|]. split; [exact Hs|].
    split; [exact Hpre|]. split; [exact Hpp|]. split; [exact Hpost|].
    split; [exact Hcalls|exact Hout].
  - intros Hout fuel' Hle.
    apply (monitorState_loop_more_fuel id execID pid fuel _ _ _ Hrun Hout).
    exact Hle.
Qed.


End WithEnv.

(** ** Runs on concrete environments *)

(** Witness of C1: a created shim, the agent answering [Kill]. *)
Lemma Kill_stops_VM_last_witness :
  created (svc w_created)
  /\ exists (new : list event) (s' : service) (stop_err : option error),
       Kill env_ok kill_req w_created
       = (Returned (Some tt, None), mkWorld (trace w_created ++ new) s')
       /\ calls new = [EvAgentKill kill_req (Some tt, None); EvCancel;
                       EvStopVMM stop_err].
Proof.
  assert (Hc : created (svc w_created))
    by (repeat split; eexists; reflexivity).
  split; [exact Hc|].
  destruct (Kill_stops_VM_last env_ok kill_req w_created Hc)
    as (new & s' & stop_err & Hrun & Hcalls & _).
  exists new, s', stop_err. split; [exact Hrun|exact Hcalls].
Defined.

(** Counterexample to C1 as stated.  When the agent call succeeds the
    context is cancelled before the VM is stopped, not after; and when the
    agent call fails the context is not cancelled at all. *)
Lemma Kill_cancels_before_VM_stop :
  calls (trace (snd (Kill env_ok kill_req w_created)))
  = [EvAgentKill kill_req (Some tt, None); EvCancel; EvStopVMM None]
  /\ calls (trace (snd (Kill env_ok kill_req w_created)))
     <> [EvAgentKill kill_req (Some tt, None); EvStopVMM None; EvCancel]
  /\ calls (trace (snd (Kill env_kill_fails kill_req w_created)))
     = [EvAgentKill kill_req (None, Some boom); EvStopVMM None].
Proof. vm_compute. repeat split; congruence. Qed.

(** A VM-stop error is logged and the agent's answer is returned. *)
Lemma Kill_logs_VM_stop_error_example :
  Kill env_stop_fails kill_req w_created
  = (Returned (Some tt, None),
     mkWorld [EvLog Debug "kill" None;
              EvAgentKill kill_req (Some tt, None);
              EvCancel;
              EvLog Debug "Stopping VM during kill" None;
              EvStopVMM (Some boom);
              EvLog Error "failed to stop VM" (Some boom)]
             (set_ctx (Some true) s_created)).
Proof. vm_compute. reflexivity. Qed.

(** Witness of C4: every dial is refused.  By the theorem the run is five
    dials, each followed by its warning and its sleep, and the error of
    the fifth is returned. *)
Lemma dialVsock_backoff_witness :
  dialVsock env_dial_fails 3 defaultVsockPort w_created
  = (Returned (None, Some boom),
     mkWorld
       [EvDial 3 10789 (None, Some boom);
        EvLog Warn "vsock dial failed (attempt %d of %d), will retry in %s"
              (Some boom);
        EvSleep 100000000;
        EvDial 3 10789 (None, Some boom);
        EvLog Warn "vsock dial failed (attempt %d of %d), will retry in %s"
              (Some boom);
        EvSleep 200000000;
        EvDial 3 10789 (None, Some boom);
        EvLog Warn "vsock dial failed (attempt %d of %d), will retry in %s"
              (Some boom);
        EvSleep 400000000;
        EvDial 3 10789 (None, Some boom);
        EvLog Warn "vsock dial failed (attempt %d of %d), will retry in %s"
              (Some boom);
        EvSleep 800000000;
        EvDial 3 10789 (None, Some boom);
        EvLog Warn "vsock dial failed (attempt %d of %d), will retry in %s"
              (Some boom);
        EvSleep 1600000000;
        EvLog Error "vsock dial failed" (Some boom)]
       s_created).
Proof.
  destruct (dialVsock_backoff env_dial_fails 3 defaultVsockPort w_created)
    as (fails & final & _ & _ & Hties & Hcases).
  destruct Hcases as [(conn & _ & Hd & _)
                     | (c & e & Hk & Hlast & Hfinal & Hrun)].
  - simpl in Hd. discriminate.
  - destruct fails
      as [|[c1 e1] [|[c2 e2] [|[c3 e3] [|[c4 e4] [|[c5 e5] [|x fails]]]]]];
      try discriminate.
    pose proof (Hties 0%nat c1 e1 eq_refl) as T1.
    pose proof (Hties 1%nat c2 e2 eq_refl) as T2.
    pose proof (Hties 2%nat c3 e3 eq_refl) as T3.
    pose proof (Hties 3%nat c4 e4 eq_refl) as T4.
    pose proof (Hties 4%nat c5 e5 eq_refl) as T5.
    simpl in T1, T2, T3, T4, T5, Hlast.
    inversion T1; inversion T2; inversion T3; inversion T4; inversion T5;
      inversion Hlast; subst.
    rewrite Hrun. reflexivity.
Defined.

(** Five refused dials: five sleeps, doubling from 100 ms, and the last
    error. *)
Lemma dialVsock_all_refused_example :
  fst (dialVsock env_dial_fails 3 defaultVsockPort w_created)
  = Returned (None, Some boom)
  /\ calls (trace (snd (dialVsock env_dial_fails 3 defaultVsockPort
                          w_created)))
     = [EvDial 3 10789 (None, Some boom); EvSleep 100000000;
        EvDial 3 10789 (None, Some boom); EvSleep 200000000;
        EvDial 3 10789 (None, Some boom); EvSleep 400000000;
        EvDial 3 10789 (None, Some boom); EvSleep 800000000;
        EvDial 3 10789 (None, Some boom); EvSleep 1600000000].
Proof. vm_compute. split; reflexivity. Qed.

(** The third dial connects: two sleeps, then the connection. *)
Lemma dialVsock_third_dial_example :
  fst (dialVsock env_dial_third 3 defaultVsockPort w_created)
  = Returned (Some 7, None)
  /\ calls (trace (snd (dialVsock env_dial_third 3 defaultVsockPort
                          w_created)))
     = [EvDial 3 10789 (None, Some boom); EvSleep 100000000;
        EvDial 3 10789 (None, Some boom); EvSleep 200000000;
        EvDial 3 10789 (Some 7, None)].
Proof. vm_compute. split; reflexivity. Qed.

(** Counterexample to C3 as stated.  When every CID but 2^32 - 1 is taken
    the allocator gives up without trying 2^32 - 1. *)
Lemma last_32bit_CID_is_never_tried :
  fst (findNextAvailableVsockCID env_only_max_free w_fresh)
  = Returned (0, Some err_no_cid)
  /\ ~ In (EvIoctl 4294967295 0)
          (trace (snd (findNextAvailableVsockCID env_only_max_free w_fresh))).
Proof.
  assert (Hctx : forall tr, ctx_Done env_only_max_free tr = false)
    by reflexivity.
  pose proof (findNextAvailableVsockCID_spec env_only_max_free w_fresh Hctx)
    as H.
  cbv zeta in H. change (os_OpenFile env_only_max_free vsockDevicePath
                           (trace w_fresh)) with (@None error) in H.
  cbv iota in H. destruct H as (k & _ & Hcases).
  change (sys_ioctl env_only_max_free) with
    (fun (cid : Z) (_ : list event) =>
       if cid =? 4294967295 then 0 else EADDRINUSE) in Hcases.
  cbv beta in Hcases.
  destruct Hcases as [(H1 & H2 & H3) | [(H1 & H2 & H3 & H4) | (H1 & H2)]].
  - exfalso. destruct (Z.eqb_spec (3 + Z.of_nat k) 4294967295); [lia|].
    unfold EADDRINUSE in H1. lia.
  - exfalso. destruct (Z.eqb_spec (3 + Z.of_nat k) 4294967295); congruence.
  - rewrite H2. split; [reflexivity|]. simpl. intros Hin.
    destruct Hin as [Hin|Hin]; [discriminate|].
    apply in_app_or in Hin. destruct Hin as [Hin|Hin].
    + unfold in_use_run in Hin. apply in_map_iff in Hin.
      destruct Hin as (i & Hi & _). unfold EADDRINUSE in Hi. congruence.
    + destruct Hin as [Hin|[]]. discriminate.
Qed.


(** Witness of C3: CIDs 3 and 4 are taken, 5 is returned. *)
Lemma findNextAvailableVsockCID_first_free_witness :
  (forall tr, ctx_Done env_cid5 tr = false)
  /\ findNextAvailableVsockCID env_cid5 w_fresh
     = (Returned (5, None),
        mkWorld [EvOpenFile vsockDevicePath None; EvIoctl 3 EADDRINUSE;
                 EvIoctl 4 EADDRINUSE; EvIoctl 5 0; EvFileClose] s_fresh).
Proof.
  split; [reflexivity|].
  pose proof (findNextAvailableVsockCID_first_free env_cid5 w_fresh
                (fun tr => eq_refl)) as H.
  cbv zeta in H. change (os_OpenFile env_cid5 vsockDevicePath
                           (trace w_fresh)) with (@None error) in H.
  cbv iota in H. destruct H as (k & Hbefore & Hcases).
  change (sys_ioctl env_cid5) with
    (fun (cid : Z) (_ : list event) => if cid <? 5 then EADDRINUSE else 0)
    in Hbefore, Hcases.
  cbv beta in Hbefore, Hcases.
  assert (Hk : k = 2%nat).
  { destruct (Nat.lt_trichotomy k 2) as [Hlt|[Heq|Hgt]]; [|exact Heq|].
    - exfalso.
      destruct Hcases as [(H1 & _) | [(H1 & H2 & _) | (H1 & _)]].
      + destruct (Z.ltb_spec (3 + Z.of_nat k) 5); [discriminate | lia].
      + destruct (Z.ltb_spec (3 + Z.of_nat k) 5); [congruence | lia].
      + lia.
    - exfalso. specialize (Hbefore 2%nat Hgt). simpl in Hbefore.
      discriminate. }
  subst k.
  destruct Hcases as [(H1 & H2 & H3) | [(H1 & H2 & _) | (H1 & _)]].
  - exact H3.
  - exfalso. simpl in H1. congruence.
  - exfalso. simpl in H1. lia.
Defined.

(** Counterexample to C6 as stated.  The error returned for an xfs mount is
    a plain [errors.Errorf] value: it is not an InvalidArgument error. *)
Lemma unsupported_mount_error_has_no_kind :
  fst (Create env_ok req_xfs w_fresh)
  = Returned (None,
              Some (errors_New "unsupported mount type 'xfs', expected 'ext4'"))
  /\ IsInvalidArgument
       (errors_New "unsupported mount type 'xfs', expected 'ext4'") = false.
Proof. split; lazy; reflexivity. Qed.


(** Witness of C6: a fresh shim, one xfs mount. *)
Lemma Create_rejects_non_ext4_witness :
  exists (e : error) (new : list event) (cid : Z * option error),
    Create env_ok req_xfs w_fresh
    = (Returned (None, Some e), mkWorld (trace w_fresh ++ new) (svc w_fresh))
    /\ Forall before_spawn new
    /\ fst (findNextAvailableVsockCID env_ok
              (mkWorld (trace w_fresh ++ [EvLog Debug "creating task" None;
                                          EvLog Info "starting VM" None])
                       (svc w_fresh)))
       = Returned cid
    /\ e = match snd cid with
           | Some cid_err => cid_err
           | None => err_unsupported_mount (Type_ (mkMount "/foo" "xfs" []))
           end.
Proof.
  apply (Create_rejects_non_ext4 env_ok req_xfs w_fresh []
           (mkMount "/foo" "xfs" []) []).
  - reflexivity.
  - reflexivity.
  - constructor.
  - discriminate.
Defined.


(** C7, at the failing input.  The hypervisor's [Start] fails after
    [NewMachine] succeeded: [startVM] returns the error having called
    nothing but the deferred [vmmCancel]; [StopVMM] is not called. *)
Lemma startVM_Start_failure_leaves_child :
  fst (startVM env_start_fails req_ext4 w_fresh) = Returned (None, Some boom)
  /\ calls (trace (snd (startVM env_start_fails req_ext4 w_fresh)))
     = [EvOpenFile vsockDevicePath None; EvIoctl 3 0; EvFileClose;
        EvNewMachine
          (mkFcConfig "/tmp/fc.sock" "root" 3 "/vmlinux" "console=ttyS0" 1
             "T2" 256 "" "" "" false
             [mkDrive "1" "/root.img" true false;
              mkDrive "2" "/dev/mapper/p0-snap-1" false false])
          None;
        EvMachineStart (Some boom); EvVmmCancel].
Proof. split; lazy; reflexivity. Qed.

(** The sibling path: when the dial fails after [Start] succeeded,
    [startVM] does stop the VM before it returns. *)
Lemma startVM_dial_failure_stops_VM :
  fst (startVM env_dial_fails req_ext4 w_fresh) = Returned (None, Some boom)
  /\ List.filter (fun e => match e with
                           | EvMachineStart _ | EvStopVMM _ | EvVmmCancel => true
                           | _ => false
                           end)
       (trace (snd (startVM env_dial_fails req_ext4 w_fresh)))
     = [EvMachineStart None; EvStopVMM None; EvVmmCancel].
Proof. split; lazy; reflexivity. Qed.

Lemma created_s_created : created s_created.
Proof. repeat split; eexists; reflexivity. Defined.

(** Witness of C9: the first poll reports the task stopped. *)
Lemma monitorState_publishes_once_witness :
  created (svc w_created)
  /\ exists out new s',
       monitorState env_ok 1 "c1" "" 100 w_created
       = (out, mkWorld (trace w_created ++ new) s')
       /\ existsb stopped_poll new = true
       /\ List.filter is_publish new
          = [EvPublish TaskExitEventTopic (mkTaskExit "c1" "c1" 100 42 1234)
                       None]
       /\ out = Exited 0.
Proof.
  split; [exact created_s_created|].
  destruct (monitorState_publishes_once env_ok 1 "c1" "" 100 w_created
              created_s_created)
    as (out & new & s' & Hrun & _).
  exists out, new, s'. split; [exact Hrun|].
  vm_compute in Hrun. inversion Hrun; subst.
  repeat split; reflexivity.
Defined.

End ShimFacts.

Module SnapFacts.
Import Snap SnapEx SnapSpec.

Section WithEnv.
Context (env : Env).

(** ** [withTransaction] *)

Lemma tx_error_nil msg : tx_error None None msg = None.
Proof. reflexivity. Qed.


Lemma withTransaction_spec {A} (writable : bool) (captured : A)
    (fn : M World (A * option error)) (w : World) :
  match store_Begin env writable (trace w) with
  | Some e =>
      Snapshotter.withTransaction env writable captured fn w
      = (Returned (captured, Some e),
         mkWorld (trace w ++ [EvBegin writable (Some e)]) (db w) (tx w)
                 (closeOnce w))
  | None =>
      match fn (tx_opened writable w) with
      | (Returned (x, err), w2) =>
          let rolled_back := negb (is_nil err) || negb writable in
          exists (terr : option error) (new : list event) (w3 : World),
            Snapshotter.withTransaction env writable captured fn w
            = (Returned (x, tx_error err terr
                              (if rolled_back then "rollback failed"
                               else "commit failed")),
               w3)
            /\ trace w3 = trace w2 ++ new
            /\ closeOnce w3 = closeOnce w2
            /\ tx w3 = None
            /\ calls new = [if rolled_back then EvRollback terr
                            else EvCommit terr]
            /\ db w3 = (if rolled_back then db w2
                        else match terr, tx w2 with
                             | None, Some (true, d) => d
                             | _, _ => db w2
                             end)
      | (Panicked s, w2) =>
          Snapshotter.withTransaction env writable captured fn w
          = (Panicked s, w2)
      | (Exited c, w2) =>
          Snapshotter.withTransaction env writable captured fn w
          = (Exited c, w2)
      end
  end.
Proof.
  unfold Snapshotter.withTransaction, TransactionContext, tx_opened, ask,
    get_db, set_tx.
  go_unfold. cbn [trace db tx closeOnce].
  destruct (store_Begin env writable (trace w)) as [be|]; [reflexivity|].
  destruct (fn _) as [[[x err]|s|c] w2]; [|reflexivity|reflexivity].
  cbv zeta.
  destruct (negb (is_nil err) || negb writable) eqn:Hroll.
  - unfold Rollback, ask, set_tx, log, emit. go_unfold.
    cbn [trace db tx closeOnce].
    exists (tx_Rollback env (trace w2)).
    unfold tx_error.
    destruct (tx_Rollback env (trace w2)) as [te|];
      cbn [trace db tx closeOnce];
      match goal with |- context [ErrorOrNil ?r] =>
        destruct (ErrorOrNil r) as [me|] end;
      cbn [trace db tx closeOnce];
      try match goal with |- context [Nat.eqb ?a ?b] =>
        destruct (Nat.eqb a b) end;
      eexists _, _; (split; [reflexivity|]);
      cbn [trace db tx closeOnce]; rewrite <- ?app_assoc;
      (split; [reflexivity|]); (split; [reflexivity|]);
      (split; [reflexivity|]); (split; reflexivity).
  - apply orb_false_iff in Hroll. destruct Hroll as [Herr Hwr].
    destruct err as [e|]; [discriminate|].
    destruct writable; [|discriminate].
    unfold Commit, ask, set_tx, set_db, get_tx, log, emit. go_unfold.
    cbn [trace db tx closeOnce].
    exists (tx_Commit env (trace w2)).
    unfold tx_error.
    destruct (tx_Commit env (trace w2)) as [te|];
      [|destruct (tx w2) as [[[|] d]|]];
      cbn [trace db tx closeOnce];
      match goal with |- context [ErrorOrNil ?r] =>
        destruct (ErrorOrNil r) as [me|] end;
      cbn [trace db tx closeOnce];
      try match goal with |- context [Nat.eqb ?a ?b] =>
        destruct (Nat.eqb a b) end;
      eexists _, _; (split; [reflexivity|]);
      cbn [trace db tx closeOnce]; rewrite <- ?app_assoc;
      (split; [reflexivity|]); (split; [reflexivity|]);
      (split; [reflexivity|]); (split; reflexivity).
Qed.

(** ** [Remove] *)



Lemma removeDevice_spec (dm : Snapshotter.Snapshotter) (key : string)
    (w1 : World) (d : DB) :
  tx w1 = Some (true, d) ->
  exists (err : option error) (new : list event),
    Snapshotter.removeDevice env dm key w1
    = (Returned err,
       mkWorld (trace w1 ++ new) (db w1)
               (Some (true, fst (storage_Remove_pure d key))) (closeOnce w1))
    /\ match snd (storage_Remove_pure d key) with
       | (id, info, Some e) =>
           err = Some e /\ calls new = [EvStorageRemove key (id, info, Some e)]
       | (id, info, None) =>
           calls new
           = [EvStorageRemove key (id, info, None);
              EvRemoveDevice (getDeviceName (Snapshotter.config dm) id)
                             (Some true) err]
       end.
Proof.
  intros Htx.
  unfold Snapshotter.removeDevice, storage_Remove, get_tx, set_tx, log, emit,
    ask.
  go_unfold. rewrite Htx.
  destruct (storage_Remove_pure d key) as [d' [[id info] [e|]]].
  - cbn [trace db tx closeOnce fst snd].
    eexists _, _. split; [reflexivity|]. split; reflexivity.
  - cbn [trace db tx closeOnce fst snd].
    match goal with |- context [pool_RemoveDevice env ?n ?f ?t] =>
      destruct (pool_RemoveDevice env n f t) as [de|] end;
    cbn [trace db tx closeOnce fst snd]; rewrite <- ?app_assoc;
    eexists _, _; (split; [reflexivity|]); reflexivity.
Qed.









(** ** [Mounts], [Prepare], [View] *)

Lemma storage_GetSnapshot_pure_error d key snap e :
  storage_GetSnapshot_pure d key = (snap, Some e) -> snap = zero_Snapshot.
Proof.
  unfold storage_GetSnapshot_pure. destruct (records d !! key) as [r|].
  - destruct (rec_kind r); intros H; inversion H; reflexivity.
  - intros H; inversion H; reflexivity.
Qed.

Lemma Mounts_spec (dm : Snapshotter.Snapshotter) (key : string)
    (w : World) :
  let began := store_Begin env false (trace w ++ [EvLog Debug "mounts" None]) in
  let fetched := storage_GetSnapshot_pure (db w) key in
  let snap := match began with
              | Some _ => zero_Snapshot
              | None => fst fetched
              end in
  exists w' : World,
    Snapshotter.Mounts env dm key w
    = (Returned (Some (buildMounts env (Snapshotter.config dm) snap), None), w')
    /\ db w' = db w
    /\ (is_Some began \/ is_Some (snd fetched) ->
        buildMounts env (Snapshotter.config dm) snap
        = [mkMount (GetFullDevicePath env
                      (getDeviceName (Snapshotter.config dm) ""))
                   "ext4" ["ro"]]).
Proof.
  intros began fetched snap.
  unfold Snapshotter.Mounts, log, emit.
  set (w0 := mkWorld (trace w ++ [EvLog Debug "mounts" None]) (db w) (tx w)
                     (closeOnce w)).
  pose proof (withTransaction_spec false zero_Snapshot
                (storage_GetSnapshot key) w0) as Hwt.
  go_unfold. fold w0. change (trace w0) with (trace w ++ [EvLog Debug "mounts" None]) in Hwt.
  fold began in Hwt. subst snap.
  destruct began as [be|] eqn:Hb.
  - rewrite Hwt. eexists. split; [reflexivity|]. split; [reflexivity|].
    intros _. reflexivity.
  - assert (Hfn : storage_GetSnapshot key (tx_opened false w0)
                  = (Returned fetched,
                     mkWorld (trace (tx_opened false w0)
                              ++ [EvGetSnapshot key fetched])
                             (db w) (Some (false, db w)) (closeOnce w)))
      by reflexivity.
    rewrite Hfn in Hwt.
    destruct fetched as [s ferr] eqn:Hf. cbv zeta in Hwt.
    destruct Hwt as (terr & new & w3 & Hrun & _ & _ & _ & _ & Hdb).
    rewrite Hrun. cbn [fst snd]. eexists. split; [reflexivity|].
    cbn [trace db tx closeOnce].
    split.
    { rewrite Hdb. rewrite orb_true_r. reflexivity. }
    intros [[x Hx]|[x Hx]]; [discriminate|]. subst ferr.
    rewrite (storage_GetSnapshot_pure_error _ _ _ _ Hf). reflexivity.
Qed.

(** C10.  [Mounts] of the later revision always returns a nil error and
    one mount.  The mount is built from the fetched snapshot, and from the
    zero-value snapshot when the read transaction could not be opened or
    the fetch failed: its source is then the path of [<pool>-snap-] and
    its options are [ro]. *)
Theorem Mounts_ignores_errors (dm : Snapshotter.Snapshotter) (key : string)
    (w : World) :
  let began := store_Begin env false (trace w ++ [EvLog Debug "mounts" None]) in
  let fetched := storage_GetSnapshot_pure (db w) key in
  let snap := match began with
              | Some _ => zero_Snapshot
              | None => fst fetched
              end in
  exists w' : World,
    Snapshotter.Mounts env dm key w
    = (Returned (Some (buildMounts env (Snapshotter.config dm) snap), None), w')
    /\ db w' = db w
    /\ (is_Some began \/ is_Some (snd fetched) ->
        buildMounts env (Snapshotter.config dm) snap
        = [mkMount (GetFullDevicePath env
                      (getDeviceName (Snapshotter.config dm) ""))
                   "ext4" ["ro"]]).
Proof. exact (Mounts_spec dm key w). Qed.

Lemma storage_CreateSnapshot_pure_created config d kind key parent d' snap :
  storage_CreateSnapshot_pure d kind key parent = (d', (snap, None)) ->
  mounts_of_created env config d kind key parent
    (buildMounts env config snap).
Proof.
  unfold mounts_of_created. intros H. rewrite H. cbn [fst snd].
  revert H. unfold storage_CreateSnapshot_pure.
  destruct kind; try (intros H; inversion H; fail);
    (destruct (String.eqb parent "");
     [|destruct (records d !! parent) as [p|];
       [destruct (Kind_eqb (rec_kind p) KindCommitted)|]];
     try (intros H; inversion H; fail);
     destruct (records d !! key) eqn:Hk;
     intros H; inversion H; subst; clear H;
     eexists; cbn [records];
     (split; [apply lookup_insert_eq|]); (split; [reflexivity|]);
     (split; [reflexivity|]); (split; [reflexivity|]);
     split; reflexivity).
Qed.

Lemma createSnapshot_mounts (dm : Snapshotter.Snapshotter) (kind : Kind)
    (key parent : string) (w1 : World) (d : DB) :
  tx w1 = Some (true, d) ->
  exists ms err w2,
    Snapshotter.createSnapshot env dm kind key parent w1
    = (Returned (ms, err), w2)
    /\ forall l, ms = Some l ->
         mounts_of_created env (Snapshotter.config dm) d kind key parent l.
Proof.
  intros Htx.
  unfold Snapshotter.createSnapshot, storage_CreateSnapshot, mkfs, get_tx,
    set_tx, log, emit, ask.
  go_unfold. rewrite Htx.
  destruct (storage_CreateSnapshot_pure d kind key parent)
    as [d' [snap [se|]]] eqn:Hpure; cbn [trace db tx closeOnce].
  { eexists _, _, _; split; [reflexivity|]; intros l Hl; discriminate. }
  apply (storage_CreateSnapshot_pure_created (Snapshotter.config dm)) in Hpure.
  destruct (ParentIDs snap) as [|pid pids]; cbn [trace db tx closeOnce].
  - match goal with |- context [pool_CreateThinDevice env ?n ?z ?t] =>
      destruct (pool_CreateThinDevice env n z t) as [did [ce|]] end;
      cbn [trace db tx closeOnce fst snd].
    { eexists _, _, _; split; [reflexivity|]; intros l Hl; discriminate. }
    match goal with |- context [exec_mkfs env ?a ?t] =>
      destruct (exec_mkfs env a t) as [output [me|]] end;
      cbn [trace db tx closeOnce fst snd].
    { eexists _, _, _; split; [reflexivity|]; intros l Hl; discriminate. }
    eexists _, _, _; split; [reflexivity|]. intros l Hl.
    inversion Hl; subst. exact Hpure.
  - match goal with |- context [pool_CreateSnapshotDevice env ?p ?n ?z ?t] =>
      destruct (pool_CreateSnapshotDevice env p n z t) as [did [ce|]] end;
      cbn [trace db tx closeOnce fst snd].
    { eexists _, _, _; split; [reflexivity|]; intros l Hl; discriminate. }
    eexists _, _, _; split; [reflexivity|]. intros l Hl.
    inversion Hl; subst. exact Hpure.
Qed.

Lemma create_in_transaction_mounts (dm : Snapshotter.Snapshotter)
    (kind : Kind) (key parent : string) (w0 : World) :
  exists ms err w',
    Snapshotter.withTransaction env true None
      (Snapshotter.createSnapshot env dm kind key parent) w0
    = (Returned (ms, err), w')
    /\ forall l, ms = Some l ->
         mounts_of_created env (Snapshotter.config dm) (db w0) kind key
                           parent l.
Proof.
  pose proof (withTransaction_spec true None
                (Snapshotter.createSnapshot env dm kind key parent) w0) as Hwt.
  destruct (store_Begin env true (trace w0)) as [be|].
  { rewrite Hwt. eexists _, _, _. split; [reflexivity|].
    intros l Hl; discriminate. }
  destruct (createSnapshot_mounts dm kind key parent (tx_opened true w0)
              (db w0) eq_refl)
    as (ms & err & w2 & Hrun & Hms).
  rewrite Hrun in Hwt. cbv zeta in Hwt.
  destruct Hwt as (terr & new & w3 & Hrun' & _).
  rewrite Hrun'. eexists _, _, _. split; [reflexivity|exact Hms].
Qed.

Lemma old_createSnapshot_mounts (dm : Devmapper.devmapper) (kind : Kind)
    (key parent : string) (w0 : World) :
  exists ms err w',
    Devmapper.createSnapshot env dm kind key parent w0
    = (Returned (ms, err), w')
    /\ forall l, ms = Some l ->
         mounts_of_created env (Devmapper.config dm) (db w0) kind key
                           parent l.
Proof.
  unfold Devmapper.createSnapshot, Devmapper.complete, TransactionContext,
    Rollback, Commit, storage_CreateSnapshot, mkfs, get_tx, set_tx, get_db,
    set_db, log, emit, ask.
  go_unfold. cbn [trace db tx closeOnce].
  destruct (store_Begin env true (trace w0)) as [be|];
    cbn [trace db tx closeOnce].
  { eexists _, _, _; split; [reflexivity|]; intros l Hl; discriminate. }
  destruct (storage_CreateSnapshot_pure (db w0) kind key parent)
    as [d' [snap [se|]]] eqn:Hpure; cbn [trace db tx closeOnce].
  { match goal with |- context [tx_Rollback env ?t] =>
      destruct (tx_Rollback env t) as [te|] end;
      cbn [trace db tx closeOnce];
      eexists _, _, _; (split; [reflexivity|]); intros l Hl; discriminate. }
  apply (storage_CreateSnapshot_pure_created (Devmapper.config dm)) in Hpure.
  destruct (ParentIDs snap) as [|pid pids]; cbn [trace db tx closeOnce].
  - match goal with |- context [pool_CreateThinDevice env ?n ?z ?t] =>
      destruct (pool_CreateThinDevice env n z t) as [did [ce|]] end;
      cbn [trace db tx closeOnce fst snd].
    { match goal with |- context [tx_Rollback env ?t] =>
        destruct (tx_Rollback env t) as [te|] end;
        cbn [trace db tx closeOnce];
        eexists _, _, _; (split; [reflexivity|]); intros l Hl; discriminate. }
    match goal with |- context [exec_mkfs env ?a ?t] =>
      destruct (exec_mkfs env a t) as [output [me|]] end;
      cbn [trace db tx closeOnce fst snd].
    { match goal with |- context [tx_Rollback env ?t] =>
        destruct (tx_Rollback env t) as [te|] end;
        cbn [trace db tx closeOnce];
        eexists _, _, _; (split; [reflexivity|]); intros l Hl; discriminate. }
    match goal with |- context [tx_Commit env ?t] =>
      destruct (tx_Commit env t) as [te|] end;
      cbn [trace db tx closeOnce];
      eexists _, _, _; (split; [reflexivity|]); intros l Hl;
      inversion Hl; subst; exact Hpure.
  - match goal with |- context [pool_CreateSnapshotDevice env ?p ?n ?z ?t] =>
      destruct (pool_CreateSnapshotDevice env p n z t) as [did [ce|]] end;
      cbn [trace db tx closeOnce fst snd].
    { match goal with |- context [tx_Rollback env ?t] =>
        destruct (tx_Rollback env t) as [te|] end;
        cbn [trace db tx closeOnce];
        eexists _, _, _; (split; [reflexivity|]); intros l Hl; discriminate. }
    match goal with |- context [tx_Commit env ?t] =>
      destruct (tx_Commit env t) as [te|] end;
      cbn [trace db tx closeOnce];
      eexists _, _, _; (split; [reflexivity|]); intros l Hl;
      inversion Hl; subst; exact Hpure.
Qed.

Lemma old_Mounts_run (dm : Devmapper.devmapper) (key : string) (w : World) :
  store_Begin env false (trace w ++ [EvLog Debug "mounts" None]) = None ->
  fst (Devmapper.Mounts env dm key w)
  = Returned (match storage_GetSnapshot_pure (db w) key with
              | (_, Some e) => (None, Some e)
              | (snap, None) =>
                  (Some (buildMounts env (Devmapper.config dm) snap), None)
              end).
Proof.
  intros Hb.
  unfold Devmapper.Mounts, TransactionContext, Rollback, storage_GetSnapshot,
    get_tx, set_tx, get_db, log, emit, ask.
  go_unfold. cbn [trace db tx closeOnce]. rewrite Hb.
  cbn [trace db tx closeOnce].
  destruct (storage_GetSnapshot_pure (db w) key) as [snap [fe|]];
    reflexivity.
Qed.

(** C5 (as amended).  [buildMounts], the same in both revisions, makes
    exactly one mount for every snapshot value: its type is ext4, its
    source is the device path of [<pool>-snap-<id>], and its options
    contain [ro] exactly when the kind is not Active.  [Prepare] and
    [View] of both revisions always return, and a mount list they return
    is the one built from the record they created for the key, whose id is
    the next of the sequence: no option for [Prepare], [ro] for [View].
    [Mounts] of a key with a record, once its read transaction is open,
    returns the list built from the record when the record is Active or a
    View.  For any other record, a Committed one, the fetch fails: the
    later revision returns the mount of the zero-value snapshot, whose
    source is the path of [<pool>-snap-] with no id, and the older
    revision returns the error and no mount. *)
Theorem mounts_are_single_ext4 :
  (forall (config : Config) (snap : Snapshot),
     exists m : Mount,
       buildMounts env config snap = [m]
       /\ Type_ m = "ext4"
       /\ Source m
          = GetFullDevicePath env
              (PoolName config +:+ "-snap-" +:+ snap_ID snap)
       /\ (In "ro" (Options m) <-> snap_Kind snap <> KindActive))
  /\ (forall (dm : Snapshotter.Snapshotter) (key parent : string) (w : World),
        exists ms err w',
          Snapshotter.Prepare env dm key parent w = (Returned (ms, err), w')
          /\ forall l, ms = Some l ->
               mounts_of_created env (Snapshotter.config dm) (db w)
                                 KindActive key parent l)
  /\ (forall (dm : Snapshotter.Snapshotter) (key parent : string) (w : World),
        exists ms err w',
          Snapshotter.View env dm key parent w = (Returned (ms, err), w')
          /\ forall l, ms = Some l ->
               mounts_of_created env (Snapshotter.config dm) (db w)
                                 KindView key parent l)
  /\ (forall (dm : Devmapper.devmapper) (key parent : string) (w : World),
        exists ms err w',
          Devmapper.Prepare env dm key parent w = (Returned (ms, err), w')
          /\ forall l, ms = Some l ->
               mounts_of_created env (Devmapper.config dm) (db w)
                                 KindActive key parent l)
  /\ (forall (dm : Devmapper.devmapper) (key parent : string) (w : World),
        exists ms err w',
          Devmapper.View env dm key parent w = (Returned (ms, err), w')
          /\ forall l, ms = Some l ->
               mounts_of_created env (Devmapper.config dm) (db w)
                                 KindView key parent l)
  /\ (forall (key : string) (w : World) (r : SnapRec),
        store_Begin env false (trace w ++ [EvLog Debug "mounts" None]) = None ->
        records (db w) !! key = Some r ->
        storage_GetSnapshot_pure (db w) key = fetched_of r
        /\ (forall dm : Snapshotter.Snapshotter,
              fst (Snapshotter.Mounts env dm key w)
              = Returned (Some (buildMounts env (Snapshotter.config dm)
                                            (fst (fetched_of r))),
                          None))
        /\ (forall dm : Devmapper.devmapper,
              fst (Devmapper.Mounts env dm key w)
              = Returned (match snd (fetched_of r) with
                          | Some e => (None, Some e)
                          | None =>
                              (Some (buildMounts env (Devmapper.config dm)
                                                 (snapshot_of r)),
                               None)
                          end))).
Proof.
  split; [|split; [|split; [|split; [|split]]]].
  - intros config snap. eexists. split; [reflexivity|].
    cbn [Type_ Source Options].
    split; [reflexivity|]. split; [reflexivity|].
    destruct (snap_Kind snap); simpl; split; intros H;
      try congruence; try tauto; auto.
  - intros dm key parent w. unfold Snapshotter.Prepare, log, emit. go_unfold.
    match goal with |- context [Snapshotter.withTransaction env true None ?f ?w0] =>
      destruct (create_in_transaction_mounts dm KindActive key parent w0)
        as (ms & err & w' & Hrun & Hms) end.
    rewrite Hrun. eexists _, _, _. split; [reflexivity|exact Hms].
  - intros dm key parent w. unfold Snapshotter.View, log, emit. go_unfold.
    match goal with |- context [Snapshotter.withTransaction env true None ?f ?w0] =>
      destruct (create_in_transaction_mounts dm KindView key parent w0)
        as (ms & err & w' & Hrun & Hms) end.
    rewrite Hrun. eexists _, _, _. split; [reflexivity|exact Hms].
  - intros dm key parent w. unfold Devmapper.Prepare, log, emit. go_unfold.
    match goal with
    | |- context [Devmapper.createSnapshot env dm ?k key parent ?w0] =>
        destruct (old_createSnapshot_mounts dm k key parent w0)
          as (ms & err & w' & Hrun & Hms)
    end.
    rewrite Hrun. eexists _, _, _. split; [reflexivity|exact Hms].
  - intros dm key parent w. unfold Devmapper.View, log, emit. go_unfold.
    match goal with
    | |- context [Devmapper.createSnapshot env dm ?k key parent ?w0] =>
        destruct (old_createSnapshot_mounts dm k key parent w0)
          as (ms & err & w' & Hrun & Hms)
    end.
    rewrite Hrun. eexists _, _, _. split; [reflexivity|exact Hms].
  - intros key w r Hb Hk.
    assert (Hf : storage_GetSnapshot_pure (db w) key = fetched_of r).
    { unfold storage_GetSnapshot_pure, fetched_of. rewrite Hk. reflexivity. }
    split; [exact Hf|]. split; intros dm.
    + destruct (Mounts_spec dm key w) as (w' & Hrun & _).
      rewrite Hrun, Hb, Hf. reflexivity.
    + rewrite (old_Mounts_run dm key w Hb), Hf.
      unfold fetched_of. destruct (rec_kind r); reflexivity.
Qed.

(** ** [Close] *)

Lemma NewSnapshotter_registers_both (configPath : string) (w0 : World)
    (dm : Snapshotter.Snapshotter) (err : option error) (w : World) :
  Snapshotter.NewSnapshotter env configPath w0 = (Returned (Some dm, err), w) ->
  Snapshotter.cleanupFn dm
  = [Snapshotter.store_Close_fn; Snapshotter.poolDevice_Close_fn]
  /\ closeOnce w = closeOnce w0.
Proof.
  unfold Snapshotter.NewSnapshotter, log, emit, ask. go_unfold.
  cbn [trace db tx closeOnce].
  match goal with |- context [LoadConfig env ?p ?t] =>
    destruct (LoadConfig env p t) as [[c|] [e|]] end;
    cbn [trace db tx closeOnce]; try (intros H; inversion H; fail).
  match goal with |- context [os_MkdirAll env ?p ?t] =>
    destruct (os_MkdirAll env p t) as [e|] end;
    [destruct (negb (Snapshotter.os_IsExist e))|];
    cbn [trace db tx closeOnce]; try (intros H; inversion H; fail).
  all: match goal with |- context [storage_NewMetaStore env ?p ?t] =>
         destruct (storage_NewMetaStore env p t) as [e'|] end;
    cbn [trace db tx closeOnce]; try (intros H; inversion H; fail).
  all: match goal with |- context [NewPoolDevice env ?p ?t] =>
         destruct (NewPoolDevice env p t) as [e''|] end;
    cbn [trace db tx closeOnce]; try (intros H; inversion H; fail).
  all: intros H; inversion H; subst; split; reflexivity.
Qed.

(** C8 (as amended).  On a snapshotter made by [NewSnapshotter], the
    first [Close] closes the MetaStore, then the pool, once each, and
    returns their errors aggregated; a second [Close] calls nothing and
    returns nil. *)
Theorem Close_releases_once (configPath : string) (w0 : World)
    (dm : Snapshotter.Snapshotter) (w : World) :
  Snapshotter.NewSnapshotter env configPath w0 = (Returned (Some dm, None), w) ->
  closeOnce w0 = false ->
  exists (e1 e2 : option error) (new1 new2 : list event) (w1 w2 : World),
    Snapshotter.Close env dm w
    = (Returned (ErrorOrNil (append_if (append_if None e1) e2)), w1)
    /\ trace w1 = trace w ++ new1
    /\ calls new1 = [EvStoreClose e1; EvPoolClose e2]
    /\ Snapshotter.Close env dm w1 = (Returned None, w2)
    /\ trace w2 = trace w1 ++ new2
    /\ calls new2 = [].
Proof.
  intros Hnew Hfresh.
  destruct (NewSnapshotter_registers_both _ _ _ _ _ Hnew) as [Hfns Honce].
  rewrite Hfresh in Honce.
  unfold Snapshotter.Close, Snapshotter.closeOnce_Do, log, emit. go_unfold.
  cbn [trace db tx closeOnce]. rewrite Honce, Hfns.
  cbn [Snapshotter.run_cleanup Snapshotter.call_closeFunc].
  unfold ask. go_unfold. cbn [trace db tx closeOnce].
  exists (store_Close env (trace w ++ [EvLog Debug "close" None])).
  destruct (store_Close env (trace w ++ [EvLog Debug "close" None])) as [x|];
    match goal with |- context [pool_Close env ?t] =>
      exists (pool_Close env t); destruct (pool_Close env t) as [y|] end;
    eexists _, _, _, _; (split; [reflexivity|]); cbn [trace closeOnce];
    rewrite <- ?app_assoc; (split; [reflexivity|]); (split; [reflexivity|]);
    (split; [reflexivity|]); (split; reflexivity).
Qed.

End WithEnv.

(** ** Runs on concrete environments *)

(** The pool refuses to remove the device of snapshot ["a"]: the
    transaction is rolled back and the record is still there. *)
Lemma Remove_rolls_back_example :
  fst (Snapshotter.Remove env_remove_fails dm0 "a" w_a)
  = Returned (Some boom)
  /\ calls (trace (snd (Snapshotter.Remove env_remove_fails dm0 "a" w_a)))
     = [EvBegin true None;
        EvStorageRemove "a" ("1", mkInfo KindActive "a" "", None);
        EvRemoveDevice "p0-snap-1" (Some true) (Some boom);
        EvRollback None]
  /\ db (snd (Snapshotter.Remove env_remove_fails dm0 "a" w_a)) = db_a.
Proof. vm_compute. repeat split; reflexivity. Qed.

(** The removal succeeds: the transaction is committed and the record is
    gone. *)
Lemma Remove_commits_example :
  fst (Snapshotter.Remove env_ok dm0 "a" w_a) = Returned None
  /\ calls (trace (snd (Snapshotter.Remove env_ok dm0 "a" w_a)))
     = [EvBegin true None;
        EvStorageRemove "a" ("1", mkInfo KindActive "a" "", None);
        EvRemoveDevice "p0-snap-1" (Some true) None;
        EvCommit None]
  /\ records (db (snd (Snapshotter.Remove env_ok dm0 "a" w_a))) !! "a" = None.
Proof. vm_compute. repeat split; reflexivity. Qed.

(** The older revision calls [RemoveDevice] without a flag, and rolls back
    in the same way. *)
Lemma old_Remove_rolls_back_example :
  fst (Devmapper.Remove env_remove_fails old_dm0 "a" w_a)
  = Returned (Some boom)
  /\ calls (trace (snd (Devmapper.Remove env_remove_fails old_dm0 "a" w_a)))
     = [EvBegin true None;
        EvStorageRemove "a" ("1", mkInfo KindActive "a" "", None);
        EvRemoveDevice "p0-snap-1" None (Some boom);
        EvRollback None]
  /\ db (snd (Devmapper.Remove env_remove_fails old_dm0 "a" w_a)) = db_a.
Proof. vm_compute. repeat split; reflexivity. Qed.



(** Witness of C5: [Prepare] of ["c"] on the committed image ["img"],
    whose id is 1, returns the mount on the device of the new record,
    id 2; [Mounts] of the active snapshot ["a"] returns the mount on its
    device. *)
Lemma mounts_are_single_ext4_witness :
  (exists l : list Mount,
     fst (Snapshotter.Prepare env_ok dm0 "c" "img" SnapMoreEx.w_img)
     = Returned (Some l, None)
     /\ mounts_of_created env_ok config0 SnapMoreEx.db_img KindActive
                          "c" "img" l
     /\ l = [mkMount "/dev/mapper/p0-snap-2" "ext4" []])
  /\ store_Begin env_ok false (trace w_a ++ [EvLog Debug "mounts" None]) = None
  /\ records (db w_a) !! "a" = Some (mkSnapRec 1 KindActive "" [])
  /\ fst (Snapshotter.Mounts env_ok dm0 "a" w_a)
     = Returned (Some [mkMount "/dev/mapper/p0-snap-1" "ext4" []], None).
Proof.
  destruct (mounts_are_single_ext4 env_ok)
    as (_ & Hprepare & _ & _ & _ & Hmounts).
  split.
  - destruct (Hprepare dm0 "c" "img" SnapMoreEx.w_img)
      as (ms & err & w' & Hrun & Hms).
    pose proof (f_equal fst Hrun) as Hfst. vm_compute in Hfst.
    inversion Hfst; subst ms err; clear Hfst.
    eexists. split; [rewrite Hrun; reflexivity|].
    split; [exact (Hms _ eq_refl)|].
    destruct (Hms _ eq_refl) as (r & _ & _ & _ & Hid & _ & Hl).
    rewrite Hl, Hid. vm_compute. reflexivity.
  - assert (Hb : store_Begin env_ok false
                   (trace w_a ++ [EvLog Debug "mounts" None]) = None)
      by reflexivity.
    assert (Hk : records (db w_a) !! "a" = Some (mkSnapRec 1 KindActive "" []))
      by (vm_compute; reflexivity).
    split; [exact Hb|]. split; [exact Hk|].
    destruct (Hmounts "a" w_a _ Hb Hk) as (_ & Hnew & _).
    rewrite (Hnew dm0). reflexivity.
Defined.

(** Counterexample to C5 as stated.  The record of ["img"] is Committed
    and has id 1.  [Mounts] of the later revision returns a mount whose
    source is the path of [p0-snap-], with no id; the older revision
    returns no mount. *)
Lemma Mounts_of_committed_record_has_no_id :
  records (db SnapMoreEx.w_img) !! "img"
  = Some (mkSnapRec 1 KindCommitted "" [])
  /\ fst (Snapshotter.Mounts env_ok dm0 "img" SnapMoreEx.w_img)
     = Returned (Some [mkMount "/dev/mapper/p0-snap-" "ext4" ["ro"]], None)
  /\ GetFullDevicePath env_ok (getDeviceName config0 "1")
     = "/dev/mapper/p0-snap-1"
  /\ fst (Devmapper.Mounts env_ok old_dm0 "img" SnapMoreEx.w_img)
     = Returned (None,
                 Some (errors_Wrap (errdefs ErrFailedPrecondition)
                                   "requested snapshot not active or view")).
Proof. vm_compute. repeat split; reflexivity. Qed.

(** A missing key, and a database that cannot open a transaction: the
    later revision returns the mount of the zero-value snapshot and no
    error, the older revision returns the error and no mount. *)
Lemma Mounts_of_missing_key_example :
  fst (Snapshotter.Mounts env_ok dm0 "zz" w_a)
  = Returned (Some [mkMount "/dev/mapper/p0-snap-" "ext4" ["ro"]], None)
  /\ fst (Snapshotter.Mounts env_begin_fails dm0 "a" w_a)
     = Returned (Some [mkMount "/dev/mapper/p0-snap-" "ext4" ["ro"]], None)
  /\ fst (Devmapper.Mounts env_ok old_dm0 "zz" w_a)
     = Returned (None,
                 Some (errors_Wrap (errdefs ErrNotFound)
                                   "snapshot does not exist"))
  /\ fst (Devmapper.Mounts env_begin_fails old_dm0 "a" w_a)
     = Returned (None, Some boom).
Proof. vm_compute. repeat split; reflexivity. Qed.

(** Counterexample to C8 as stated.  Closing the MetaStore fails: the
    first [Close] returns the aggregated error, the second returns nil. *)
Lemma second_Close_returns_nil :
  fst (Snapshotter.Close env_store_close_fails dm0 w_empty)
  = Returned (Some (MultiError [boom]))
  /\ fst (Snapshotter.Close env_store_close_fails dm0
            (snd (Snapshotter.Close env_store_close_fails dm0 w_empty)))
     = Returned None
  /\ fst (Snapshotter.Close env_store_close_fails dm0
            (snd (Snapshotter.Close env_store_close_fails dm0 w_empty)))
     <> fst (Snapshotter.Close env_store_close_fails dm0 w_empty).
Proof. vm_compute. repeat split; congruence. Qed.

(** The older revision has no [closeOnce]: a second [Close] closes the
    MetaStore and the pool again. *)
Lemma old_Close_releases_each_time :
  calls (trace (snd (Devmapper.Close env_ok old_dm0
                       (snd (Devmapper.Close env_ok old_dm0 w_empty)))))
  = [EvStoreClose None; EvPoolClose None; EvStoreClose None; EvPoolClose None].
Proof. vm_compute. reflexivity. Qed.

(** Witness of C8: a snapshotter made by [NewSnapshotter]. *)
Lemma Close_releases_once_witness :
  Snapshotter.NewSnapshotter env_ok "/etc/dm.json" w_empty
  = (Returned (Some dm0, None),
     mkWorld [EvLog Info "creating devmapper snapshotter" None;
              EvLoadConfig "/etc/dm.json" (Some config0, None);
              EvMkdirAll "/var/lib/dm" None;
              EvNewMetaStore "/var/lib/dm/metadata.db" None;
              EvNewPoolDevice None] db_empty None false)
  /\ closeOnce w_empty = false
  /\ exists (e1 e2 : option error) (new1 new2 : list event) (w1 w2 : World),
       Snapshotter.Close env_ok dm0 (snd (Snapshotter.NewSnapshotter env_ok "/etc/dm.json" w_empty))
       = (Returned (ErrorOrNil (append_if (append_if None e1) e2)), w1)
       /\ calls new1 = [EvStoreClose e1; EvPoolClose e2]
       /\ Snapshotter.Close env_ok dm0 w1 = (Returned None, w2)
       /\ calls new2 = [].
Proof.
  split; [reflexivity|]. split; [reflexivity|].
  destruct (Close_releases_once env_ok "/etc/dm.json" w_empty dm0
              (snd (Snapshotter.NewSnapshotter env_ok "/etc/dm.json" w_empty))
              eq_refl eq_refl)
    as (e1 & e2 & new1 & new2 & w1 & w2 & H1 & _ & H2 & H3 & _ & H4).
  exists e1, e2, new1, new2, w1, w2. auto.
Defined.

End SnapFacts.

(** * More of the shim: [Shutdown], [Create], [startVM], the CID allocator,
    [monitorState] *)

Module ShimMore.
Import Shim ShimEx ShimSpec ShimMoreSpec ShimMoreEx.

Section WithEnv.
Context (env : Env).

Lemma Shutdown_runs (req : ShutdownRequest) (w : World) :
  created (svc w) ->
  let r := agent_Shutdown env req (trace w ++ [EvLog Debug "shutdown" None]) in
  exists (stop_err : option error) (new : list event) (s' : service),
    Shutdown env req w
    = (match stop_err with
       | None => Exited 0
       | Some e => Returned (None, Some e)
       end,
       mkWorld (trace w ++ new) s')
    /\ calls new
       = [EvAgentShutdown req r; EvStopVMM stop_err]
         ++ (if is_nil stop_err then [EvCancel; EvExit 0] else [])
    /\ (forall e, snd r = Some e ->
          In (EvLog Error "failed to shutdown agent" (Some e)) new)
    /\ s' = (if is_nil stop_err then set_ctx (Some true) (svc w) else svc w).
Proof.
  destruct w as [tr s]. intros (Ha & Hm & Hc) r. simpl in *.
  destruct Ha as [a Ha], Hm as [m Hm], Hc as [c Hc].
  unfold Shutdown, stopVM, with_agent, with_machine, s_cancel, os_Exit, log,
    emit, ask, get_s, modify_s.
  go_unfold. simpl. rewrite Ha. simpl. fold r.
  destruct r as [resp [e|]]; simpl; rewrite Hm; simpl;
    match goal with |- context [machine_StopVMM env ?t] =>
      destruct (machine_StopVMM env t) as [se|] end; simpl;
    rewrite ?Hc; simpl; rewrite <- ?app_assoc; simpl.
  all: first [exists (Some se) | exists None]; eexists _, _;
    (split; [reflexivity|]); simpl;
    (split; [reflexivity|]);
    (split; [intros e' He'; inversion He'; subst; simpl; tauto|]);
    reflexivity.
Qed.

(** X1.  On a created shim, [Shutdown] calls the agent's [Shutdown] and
    then stops the VM, whatever the agent answered: an agent error is only
    logged.  When the VM stop fails its error is returned and nothing else
    happens.  When it succeeds the per-task context is cancelled and the
    process exits with code 0: the deferred [os.Exit(0)] runs before the
    response reaches the caller. *)
Theorem Shutdown_exits_or_fails (req : ShutdownRequest) (w : World) :
  created (svc w) ->
  let r := agent_Shutdown env req (trace w ++ [EvLog Debug "shutdown" None]) in
  exists (stop_err : option error) (new : list event) (s' : service),
    Shutdown env req w
    = (match stop_err with
       | None => Exited 0
       | Some e => Returned (None, Some e)
       end,
       mkWorld (trace w ++ new) s')
    /\ calls new
       = [EvAgentShutdown req r; EvStopVMM stop_err]
         ++ (if is_nil stop_err then [EvCancel; EvExit 0] else [])
    /\ (forall e, snd r = Some e ->
          In (EvLog Error "failed to shutdown agent" (Some e)) new)
    /\ s' = (if is_nil stop_err then set_ctx (Some true) (svc w) else svc w).
Proof. exact (Shutdown_runs req w). Qed.

(** X2.  On a shim whose VM is started, [Create] starts no second VM.
    It reads [<bundle>/config.json], forwards the request to the agent
    with only [Options] replaced, by the file's content packed with the
    caller's options, and on success makes the per-task context and
    launches the stdio proxy with the stored CID.  When the read or the
    agent call fails the error is returned and the shim is unchanged. *)
Theorem Create_reuses_started_VM (request : CreateTaskRequest) (w : World) :
  agentStarted (svc w) = true ->
  is_Some (agentClient (svc w)) ->
  let path := filepath_Join (create_Bundle request) "config.json" in
  exists (json : string) (new : list event) (s' : service)
         (out : outcome (option CreateTaskResponse * option error)),
    let forwarded :=
      with_Options (Some (AnyExtraData json (create_Options request)))
                   request in
    Create env request w = (out, mkWorld (trace w ++ new) s')
    /\ ((exists e,
           calls new = [EvReadFile path (json, Some e)]
           /\ out = Returned (None, Some e) /\ s' = svc w)
        \/ (exists r e,
              calls new = [EvReadFile path (json, None);
                           EvAgentCreate forwarded (r, Some e)]
              /\ out = Returned (None, Some e) /\ s' = svc w)
        \/ (exists r,
              calls new = [EvReadFile path (json, None);
                           EvAgentCreate forwarded (r, None);
                           EvWithCancel;
                           EvGoProxyStdio (create_Stdin request)
                             (create_Stdout request) (create_Stderr request)
                             (machineCID (svc w))]
              /\ s' = set_ctx (Some false) (svc w)
              /\ out = match r with
                       | Some resp => Returned (Some resp, None)
                       | None => Panicked nil_deref
                       end)).
Proof.
  destruct w as [tr s]. intros Hst [a Ha] path. cbn [trace svc] in *.
  unfold Create, packBundle, with_agent, log, emit, ask, get_s, modify_s.
  go_unfold. cbn [trace svc]. rewrite Hst. cbn [trace svc].
  rewrite <- !app_assoc. cbn [app]. fold path.
  match goal with |- context [ioutil_ReadFile env path ?t] =>
    destruct (ioutil_ReadFile env path t) as [json [re|]] end;
    cbn [trace svc].
  { exists json. eexists _, _, _. split; [reflexivity|].
    left. exists re. repeat split. }
  rewrite Ha. cbn [trace svc]. rewrite <- !app_assoc. cbn [app].
  match goal with |- context [agent_Create env ?q ?t] =>
    destruct (agent_Create env q t) as [r [ce|]] end; cbn [trace svc].
  { exists json. eexists _, _, _. rewrite <- !app_assoc. cbn [app].
    split; [reflexivity|]. right; left. exists r, ce. repeat split. }
  exists json.
  destruct r as [resp|]; cbn [trace svc]; rewrite <- ?app_assoc; cbn [app];
    eexists _, _, _; (split; [reflexivity|]); right; right;
    eexists; (split; [reflexivity|]); split; reflexivity.
Qed.

(** ** The CID allocator, for every request context *)

Lemma scanCIDs_shape (n : nat) :
  forall (c : Z) (w : World),
  exists (k : nat) (final : list event) (r : Z * option error),
    let seen := trace w ++ in_use_run c k in
    scanCIDs env n c w = (Returned r, mkWorld (seen ++ final) (svc w))
    /\ ((k < n)%nat /\ ctx_Done env seen = true /\ final = []
         /\ r = (0, Some (ctx_Err env seen))
        \/ (exists errno,
              (k < n)%nat /\ ctx_Done env seen = false
              /\ errno <> EADDRINUSE
              /\ final = [EvIoctl (c + Z.of_nat k) errno]
              /\ r = (if errno =? 0 then (uint32 (c + Z.of_nat k), None)
                      else (0, Some (Errno errno))))
        \/ (k = n /\ final = [] /\ r = (0, Some err_no_cid))).
Proof.
  induction n as [|n IH]; intros c w.
  - exists 0%nat, [], (0, Some err_no_cid). destruct w; simpl.
    rewrite !app_nil_r. split; [reflexivity|]. right; right. auto.
  - simpl scanCIDs. unfold peek, ask. go_unfold.
    destruct (ctx_Done env (trace w)) eqn:Hdone.
    { exists 0%nat, [], (0, Some (ctx_Err env (trace w))).
      unfold in_use_run; simpl. rewrite !app_nil_r. destruct w; simpl in *.
      split; [reflexivity|]. left. split; [lia|]. auto. }
    destruct (sys_ioctl env c (trace w) =? 0) eqn:E0.
    { apply Z.eqb_eq in E0. rewrite E0.
      exists 0%nat, [EvIoctl c 0], (uint32 c, None).
      unfold in_use_run; simpl. rewrite Z.add_0_r, app_nil_r.
      split; [reflexivity|]. right; left. exists 0.
      split; [lia|]. split; [exact Hdone|].
      split; [unfold EADDRINUSE; lia|]. auto. }
    destruct (sys_ioctl env c (trace w) =? EADDRINUSE) eqn:E1.
    + apply Z.eqb_eq in E1. rewrite E1.
      destruct (IH (c + 1) (mkWorld (trace w ++ [EvIoctl c EADDRINUSE]) (svc w)))
        as (k & final & r & Hrun & Hcases).
      cbn [trace svc] in *. cbv zeta in Hrun.
      assert (Htr : (trace w ++ [EvIoctl c EADDRINUSE]) ++ in_use_run (c + 1) k
                    = trace w ++ in_use_run c (S k)).
      { rewrite ShimFacts.in_use_run_S, <- app_assoc. reflexivity. }
      assert (Hc : c + 1 + Z.of_nat k = c + Z.of_nat (S k)) by lia.
      rewrite Htr in Hrun, Hcases. rewrite Hc in Hcases.
      exists (S k), final, r. split; [exact Hrun|].
      destruct Hcases as [(H1 & H2 & H3 & H4)
                         | [(errno & H1 & H2 & H3 & H4 & H5)
                           | (H1 & H2 & H3)]].
      * left. split; [lia|]. auto.
      * right; left. exists errno. split; [lia|]. auto.
      * right; right. split; [lia|]. auto.
    + exists 0%nat, [EvIoctl c (sys_ioctl env c (trace w))],
        (0, Some (Errno (sys_ioctl env c (trace w)))).
      unfold in_use_run; simpl. rewrite Z.add_0_r, app_nil_r.
      split; [reflexivity|]. right; left.
      eexists. split; [lia|]. split; [exact Hdone|].
      split; [apply Z.eqb_neq; exact E1|]. rewrite E0. auto.
Qed.

(** X3.  For every request context, [findNextAvailableVsockCID]
    closes the vsock device, as its last step, on every path on which it
    had opened it.  Before each ioctl it looks at the context: once the
    context is done it returns [0, ctx.Err()] without another ioctl.
    Otherwise it stops at the first ioctl that does not answer
    [EADDRINUSE], returning that CID when the answer is 0 and the errno as
    the error otherwise.  Every error comes with CID 0. *)
Theorem findNextAvailableVsockCID_closes_device (w : World) :
  exists (r : Z * option error) (new : list event),
    findNextAvailableVsockCID env w
    = (Returned r, mkWorld (trace w ++ new) (svc w))
    /\ ((exists e,
           new = [EvOpenFile vsockDevicePath (Some e)]
           /\ r = (0, Some (errors_Wrap e "failed to open vsock device")))
        \/ (exists (k : nat) (final : list event),
              let cid := 3 + Z.of_nat k in
              let seen := trace w ++ [EvOpenFile vsockDevicePath None]
                          ++ in_use_run 3 k in
              new = [EvOpenFile vsockDevicePath None]
                    ++ in_use_run 3 k ++ final ++ [EvFileClose]
              /\ (cid <= 2 ^ 32 - 2 /\ ctx_Done env seen = true
                   /\ final = [] /\ r = (0, Some (ctx_Err env seen))
                  \/ (exists errno,
                        cid <= 2 ^ 32 - 2 /\ ctx_Done env seen = false
                        /\ errno <> EADDRINUSE
                        /\ final = [EvIoctl cid errno]
                        /\ r = (if errno =? 0 then (cid, None)
                                else (0, Some (Errno errno))))
                  \/ (cid = 2 ^ 32 - 1 /\ final = []
                      /\ r = (0, Some err_no_cid))))).
Proof.
  unfold findNextAvailableVsockCID, ask, emit. go_unfold.
  destruct (os_OpenFile env vsockDevicePath (trace w)) as [e|] eqn:Hopen.
  { eexists _, _. split; [reflexivity|]. left. exists e. auto. }
  destruct (scanCIDs_shape (Z.to_nat (maxCID - startCID)) startCID
              (mkWorld (trace w ++ [EvOpenFile vsockDevicePath None]) (svc w)))
    as (k & final & r & Hrun & Hcases).
  assert (Hn : Z.of_nat (Z.to_nat (maxCID - startCID)) = 2 ^ 32 - 4)
    by (unfold maxCID, startCID; rewrite Z2Nat.id; lia).
  unfold startCID in *. cbn [trace svc] in *. cbv zeta in Hrun.
  rewrite <- !app_assoc in Hrun, Hcases.
  exists r, ([EvOpenFile vsockDevicePath None]
             ++ in_use_run 3 k ++ final ++ [EvFileClose]).
  rewrite Hrun. cbn [trace svc].
  split; [rewrite <- !app_assoc; reflexivity|].
  right. exists k, final. split; [reflexivity|].
  destruct Hcases as [(H1 & H2 & H3 & H4)
                     | [(errno & H1 & H2 & H3 & H4 & H5) | (H1 & H2 & H3)]].
  - left. split; [lia|]. auto.
  - right; left. exists errno. split; [lia|].
    split; [exact H2|]. split; [exact H3|]. split; [exact H4|].
    rewrite H5. unfold uint32. rewrite Z.mod_small; [reflexivity|lia].
  - right; right. split; [lia|]. auto.
Qed.

(** ** [startVM] *)

Lemma allocator_returns (w : World) :
  exists (r : Z * option error) (alloc : list event),
    findNextAvailableVsockCID env w
    = (Returned r, mkWorld (trace w ++ alloc) (svc w))
    /\ Forall before_spawn alloc
    /\ (snd r = None ->
        3 <= fst r <= 2 ^ 32 - 2 /\ In (EvIoctl (fst r) 0) alloc).
Proof.
  unfold findNextAvailableVsockCID, ask, emit. go_unfold.
  destruct (os_OpenFile env vsockDevicePath (trace w)) as [e|] eqn:Hopen.
  { eexists _, [_]. split; [reflexivity|]. split.
    - constructor; [right; reflexivity|constructor].
    - discriminate. }
  destruct (scanCIDs_shape (Z.to_nat (maxCID - startCID)) startCID
              (mkWorld (trace w ++ [EvOpenFile vsockDevicePath None]) (svc w)))
    as (k & final & r & Hrun & Hcases).
  assert (Hn : Z.of_nat (Z.to_nat (maxCID - startCID)) = 2 ^ 32 - 4)
    by (unfold maxCID, startCID; rewrite Z2Nat.id; lia).
  unfold startCID in *. cbn [trace svc] in *. cbv zeta in Hrun.
  rewrite <- !app_assoc in Hrun.
  exists r, ([EvOpenFile vsockDevicePath None]
             ++ in_use_run 3 k ++ final ++ [EvFileClose]).
  rewrite Hrun. cbn [trace svc].
  split; [rewrite <- !app_assoc; reflexivity|].
  assert (Hrun_in_use : Forall before_spawn (in_use_run 3 k)).
  { unfold in_use_run. apply List.Forall_forall. intros x Hx.
    apply in_map_iff in Hx. destruct Hx as (j & <- & _). right; reflexivity. }
  assert (Hclose : Forall before_spawn [EvFileClose])
    by (constructor; [right; reflexivity|constructor]).
  destruct Hcases as [(H1 & H2 & H3 & H4)
                     | [(errno & H1 & H2 & H3 & H4 & H5) | (H1 & H2 & H3)]];
    subst final r.
  - split; [|discriminate].
    constructor; [right; reflexivity|]. apply Forall_app; split; assumption.
  - split.
    + constructor; [right; reflexivity|]. apply Forall_app; split; [assumption|].
      constructor; [right; reflexivity|assumption].
    + destruct (errno =? 0) eqn:E0; [|discriminate]. intros _.
      apply Z.eqb_eq in E0. subst errno. cbn [fst].
      unfold uint32. rewrite Z.mod_small by lia. split; [lia|].
      apply in_or_app; right; apply in_or_app; right; simpl; auto.
  - split; [|discriminate].
    constructor; [right; reflexivity|]. apply Forall_app; split; assumption.
Qed.

Lemma attachDrives_cases (rootfs : list Mount) :
  forall (i : Z) (drives : list Drive),
    (all_ext4 rootfs
     /\ attachDrives i rootfs drives = (drives ++ rootfs_drives i rootfs, None))
    \/ (exists pre m post ds,
          rootfs = pre ++ m :: post
          /\ all_ext4 pre
          /\ Type_ m <> supportedMountFSType
          /\ attachDrives i rootfs drives
             = (ds, Some (err_unsupported_mount (Type_ m)))).
Proof.
  induction rootfs as [|x rest IH]; intros i drives; simpl.
  - left. split; [constructor|]. rewrite app_nil_r. reflexivity.
  - destruct (String.eqb (Type_ x) supportedMountFSType) eqn:E; simpl.
    + apply String.eqb_eq in E.
      destruct (IH (i + 1)
                  (drives ++ [mkDrive (pretty (i + 2)) (Source x) false false]))
        as [[Hall Hrun] | (pre & m & post & ds & Hsplit & Hpre & Hm & Hrun)].
      * left. split; [constructor; assumption|].
        rewrite Hrun, <- app_assoc. reflexivity.
      * right. exists (x :: pre), m, post, ds.
        split; [rewrite Hsplit; reflexivity|].
        split; [constructor; assumption|]. split; assumption.
    + apply String.eqb_neq in E. right. exists [], x, rest, drives.
      split; [reflexivity|]. split; [constructor|]. split; [exact E|reflexivity].
Qed.

(** Every way [startVM] can run. *)
Lemma startVM_spec (request : CreateTaskRequest) (w : World) :
  exists (r : Z * option error) (alloc : list event)
         (out : outcome (option TaskService * option error))
         (new : list event) (s' : service),
    let cid := fst r in
    let rootfs := create_Rootfs request in
    let cfg := machine_config (config (svc w)) cid rootfs in
    let started := set_machineCID cid (set_machine (Some cfg) (svc w)) in
    startVM env request w
    = (out, mkWorld (trace w ++ EvLog Info "starting VM" None :: alloc ++ new)
                    s')
    /\ Forall before_spawn alloc
    /\ (snd r = None -> 3 <= cid <= 2 ^ 32 - 2 /\ In (EvIoctl cid 0) alloc)
    /\ ((exists e,
           snd r = Some e /\ new = [] /\ out = Returned (None, Some e)
           /\ s' = svc w)
        \/ (exists pre m post,
              snd r = None /\ rootfs = pre ++ m :: post /\ all_ext4 pre
              /\ Type_ m <> supportedMountFSType
              /\ new = []
              /\ out = Returned (None, Some (err_unsupported_mount (Type_ m)))
              /\ s' = svc w)
        \/ (exists e,
              snd r = None /\ all_ext4 rootfs
              /\ calls new = [EvNewMachine cfg (Some e); EvVmmCancel]
              /\ out = Returned (None, Some e)
              /\ s' = set_machine None (svc w))
        \/ (exists e,
              snd r = None /\ all_ext4 rootfs
              /\ calls new = [EvNewMachine cfg None; EvMachineStart (Some e);
                              EvVmmCancel]
              /\ out = Returned (None, Some e)
              /\ s' = started)
        \/ (exists fails c e se,
              snd r = None /\ all_ext4 rootfs
              /\ length fails = 5%nat /\ last fails = Some (c, e)
              /\ calls new
                 = [EvNewMachine cfg None; EvMachineStart None]
                   ++ failed_attempts cid defaultVsockPort fails dial_delays
                   ++ [EvStopVMM se; EvVmmCancel]
              /\ out = Returned (None, Some e)
              /\ s' = started)
        \/ (exists fails conn,
              snd r = None /\ all_ext4 rootfs
              /\ (length fails < 5)%nat
              /\ calls new
                 = [EvNewMachine cfg None; EvMachineStart None]
                   ++ failed_attempts cid defaultVsockPort fails dial_delays
                   ++ [EvDial cid defaultVsockPort (conn, None); EvVmmCancel]
              /\ out = Returned (Some conn, None)
              /\ s' = started)).
Proof.
  unfold startVM, log, emit, get_s. go_unfold. cbn [trace svc].
  destruct (allocator_returns
              (mkWorld (trace w ++ [EvLog Info "starting VM" None]) (svc w)))
    as ([cid cerr] & alloc & Hrun & Halloc & Hcid).
  rewrite Hrun. cbn [trace svc fst snd] in *.
  rewrite <- !app_assoc. cbn [app].
  destruct cerr as [ce|].
  { exists (cid, Some ce), alloc. eexists _, [], _. rewrite app_nil_r.
    split; [reflexivity|]. split; [exact Halloc|]. split; [exact Hcid|].
    left. exists ce. auto. }
  cbn [trace svc].
  destruct (attachDrives_cases (create_Rootfs request) 0
              [mkDrive (pretty 1) (RootDrive (config (svc w))) true false])
    as [[Hall Hatt] | (pre & m & post & ds & Hsplit & Hpre & Hm & Hatt)];
    rewrite Hatt.
  2:{ exists (cid, None), alloc. eexists _, [], _. rewrite app_nil_r.
      split; [reflexivity|]. split; [exact Halloc|]. split; [exact Hcid|].
      right; left. exists pre, m, post. cbn [fst snd]. auto 10. }
  exists (cid, None), alloc. cbn [fst snd].
  unfold stopVM, with_machine, ask, modify_s, get_s, log, emit. go_unfold.
  cbn [trace svc].
  change ([mkDrive (pretty 1) (RootDrive (config (svc w))) true false]
          ++ rootfs_drives 0 (create_Rootfs request))
    with (mkDrive "1" (RootDrive (config (svc w))) true false
          :: rootfs_drives 0 (create_Rootfs request)).
  fold (machine_config (config (svc w)) cid (create_Rootfs request)).
  set (cfg := machine_config (config (svc w)) cid (create_Rootfs request)).
  match goal with |- context [firecracker_NewMachine env cfg ?t] =>
    destruct (firecracker_NewMachine env cfg t) as [ne|] end;
    cbn [trace svc machine set_machine set_machineCID];
    rewrite <- ?(app_assoc (trace w)); cbn [app]; rewrite <- ?(app_assoc alloc); cbn [app].
  { eexists _, [_; _], _.
    split; [reflexivity|]. split; [exact Halloc|]. split; [exact Hcid|].
    right; right; left. exists ne. auto. }
  match goal with |- context [machine_Start env ?t] =>
    destruct (machine_Start env t) as [se|] end; cbn [trace svc];
    rewrite <- ?(app_assoc (trace w)); cbn [app]; rewrite <- ?(app_assoc alloc); cbn [app].
  { eexists _, [_; _; _; _], _.
    split; [reflexivity|]. split; [exact Halloc|]. split; [exact Hcid|].
    right; right; right; left. exists se. auto. }
  unfold dialVsock.
  match goal with |- context [dialVsock_loop env ?n ?i cid ?p ?l ?d ?w'] =>
    destruct (ShimFacts.dialVsock_loop_spec env 5 i cid p l d w')
      as (fails & final & dnew & Hlen & Hcalls & Hcount & Hcases);
    change (dialVsock_loop env n i cid p l d w')
      with (dialVsock_loop env 5 i cid p l d w')
  end.
  cbn [trace svc] in Hcases.
  destruct Hcases as [(conn & H1 & H2 & H3) | (H1 & H2 & H3)]; rewrite H3;
    cbn [trace svc machine set_machine set_machineCID];
    rewrite <- ?(app_assoc (trace w)); cbn [app];
    rewrite <- ?(app_assoc alloc); cbn [app];
    rewrite <- ?(app_assoc dnew); cbn [app].
  - eexists _, (_ :: _ :: _ :: _ :: dnew ++ [_; _]), _.
    split; [reflexivity|]. split; [exact Halloc|]. split; [exact Hcid|].
    do 5 right. exists fails, conn. split; [reflexivity|].
    split; [exact Hall|]. split; [exact H1|].
    split; [|split; reflexivity].
    unfold calls in *. cbn [List.filter is_log negb app].
    rewrite List.filter_app, Hcalls, H2. cbn [List.filter is_log negb app].
    rewrite <- !app_assoc. reflexivity.
  - unfold last_error in *.
    destruct (last fails) as [[c e]|] eqn:El.
    2:{ apply last_None in El. subst fails. discriminate. }
    cbn [trace svc machine set_machine set_machineCID].
    match goal with |- context [machine_StopVMM env ?t] =>
      set (se := machine_StopVMM env t) end.
    cbn [trace svc].
    rewrite <- ?(app_assoc (trace w)); cbn [app];
    rewrite <- ?(app_assoc alloc); cbn [app];
    rewrite <- ?(app_assoc dnew); cbn [app].
    eexists _, (_ :: _ :: _ :: _ :: dnew ++ [_; _]), _.
    split; [reflexivity|]. split; [exact Halloc|]. split; [exact Hcid|].
    do 4 right; left. exists fails, c, e, se. split; [reflexivity|].
    split; [exact Hall|]. split; [exact H1|]. split; [exact El|].
    split; [|split; reflexivity].
    unfold calls in *. cbn [List.filter is_log negb app].
    rewrite List.filter_app, Hcalls, H2. cbn [List.filter is_log negb app].
    rewrite app_nil_r. reflexivity.
Qed.

Lemma In_calls (e : event) (tr : list event) :
  In e (calls tr) <-> In e tr /\ is_log e = false.
Proof.
  unfold calls. rewrite filter_In. destruct (is_log e); simpl; intuition congruence.
Qed.

Lemma calls_app (a b : list event) : calls (a ++ b) = calls a ++ calls b.
Proof. apply List.filter_app. Qed.

Lemma before_spawn_not (alloc : list event) (e : event) :
  Forall before_spawn alloc -> In e alloc ->
  is_log e = false -> is_cid_call e = true.
Proof.
  intros Hall Hin Hlog. rewrite List.Forall_forall in Hall.
  destruct (Hall e Hin) as [H|H]; congruence.
Qed.

Lemma failed_attempts_In cid port fails :
  forall ds e, In e (failed_attempts cid port fails ds) ->
    (exists r, e = EvDial cid port r) \/ (exists d, e = EvSleep d).
Proof.
  induction fails as [|[c x] fails IH]; intros ds e Hin; simpl in Hin.
  - contradiction.
  - destruct ds as [|d ds]; [contradiction|].
    destruct Hin as [<-|[<-|Hin]]; eauto.
Qed.

Lemma rootfs_drives_lookup (rootfs : list Mount) :
  forall (k : Z) (i : nat) (m : Mount),
    rootfs !! i = Some m ->
    rootfs_drives k rootfs !! i
    = Some (mkDrive (pretty (k + Z.of_nat i + 2)) (Source m) false false).
Proof.
  induction rootfs as [|x rest IH]; intros k i m Hi; [discriminate|].
  destruct i as [|i]; simpl in *.
  - inversion Hi; subst. rewrite Z.add_0_r. reflexivity.
  - rewrite (IH (k + 1) i m Hi). do 3 f_equal. lia.
Qed.

(** X4.  Whenever [startVM] builds a machine, every mount of the
    request is ext4 and the configuration handed to
    [firecracker.NewMachine] is made of the shim's configuration and the
    CID the allocator found free, which lies between 3 and 2^32 - 2: the
    root drive is drive 1, and the i-th mount, counted from 0, is drive
    i + 2 on the mount's source, neither root device nor read-only. *)
Theorem startVM_machine_config (request : CreateTaskRequest) (w : World) :
  exists (out : outcome (option TaskService * option error))
         (new : list event) (s' : service),
    startVM env request w = (out, mkWorld (trace w ++ new) s')
    /\ forall (cfg : fcConfig) (err : option error),
         In (EvNewMachine cfg err) new ->
         all_ext4 (create_Rootfs request)
         /\ 3 <= fc_VsockCID cfg <= 2 ^ 32 - 2
         /\ In (EvIoctl (fc_VsockCID cfg) 0) new
         /\ cfg = machine_config (config (svc w)) (fc_VsockCID cfg)
                                 (create_Rootfs request)
         /\ (forall (i : nat) (m : Mount),
               create_Rootfs request !! i = Some m ->
               fc_Drives cfg !! S i
               = Some (mkDrive (pretty (Z.of_nat i + 2)) (Source m)
                               false false)).
Proof.
  destruct (startVM_spec request w)
    as (r & alloc & out & new & s' & Hrun & Halloc & Hcid & Hcases).
  cbv zeta in *.
  exists out, (EvLog Info "starting VM" None :: alloc ++ new), s'.
  split; [exact Hrun|]. intros cfg err Hin.
  destruct Hin as [Hin|Hin]; [discriminate|].
  apply in_app_or in Hin. destruct Hin as [Hin|Hin].
  { pose proof (before_spawn_not _ _ Halloc Hin eq_refl). discriminate. }
  assert (Hc : In (EvNewMachine cfg err) (calls new))
    by (apply In_calls; split; [exact Hin|reflexivity]).
  assert (Hgoal : snd r = None -> all_ext4 (create_Rootfs request) ->
            cfg = machine_config (config (svc w)) (fst r)
                                 (create_Rootfs request) ->
            all_ext4 (create_Rootfs request)
            /\ 3 <= fc_VsockCID cfg <= 2 ^ 32 - 2
            /\ In (EvIoctl (fc_VsockCID cfg) 0)
                  (EvLog Info "starting VM" None :: alloc ++ new)
            /\ cfg = machine_config (config (svc w)) (fc_VsockCID cfg)
                                    (create_Rootfs request)
            /\ (forall (i : nat) (m : Mount),
                  create_Rootfs request !! i = Some m ->
                  fc_Drives cfg !! S i
                  = Some (mkDrive (pretty (Z.of_nat i + 2)) (Source m)
                                  false false))).
  { intros Hr Hall ->. cbn [fc_VsockCID machine_config fc_Drives].
    destruct (Hcid Hr) as [Hrange Hio].
    split; [exact Hall|]. split; [exact Hrange|].
    split; [right; apply in_or_app; left; exact Hio|].
    split; [reflexivity|].
    intros i m Hi. rewrite lookup_cons.
    rewrite (rootfs_drives_lookup _ 0 i m Hi). reflexivity. }
  destruct Hcases as [(e & _ & -> & _) | [(pre & m & post & _ & _ & _ & _ & -> & _)
    | [(e & Hr & Hall & Hcalls & _) | [(e & Hr & Hall & Hcalls & _)
    | [(fails & c & e & se & Hr & Hall & _ & _ & Hcalls & _)
    | (fails & conn & Hr & Hall & _ & Hcalls & _)]]]]].
  - contradiction.
  - contradiction.
  - rewrite Hcalls in Hc. simpl in Hc.
    destruct Hc as [Hc|[Hc|[]]]; inversion Hc; subst. apply Hgoal; auto.
  - rewrite Hcalls in Hc. simpl in Hc.
    destruct Hc as [Hc|[Hc|[Hc|[]]]]; inversion Hc; subst. apply Hgoal; auto.
  - rewrite Hcalls in Hc. simpl in Hc.
    destruct Hc as [Hc|[Hc|Hc]]; try (inversion Hc; subst; apply Hgoal; auto; fail).
    apply in_app_or in Hc. destruct Hc as [Hc|Hc].
    + apply failed_attempts_In in Hc. destruct Hc as [[x Hx]|[x Hx]]; discriminate.
    + simpl in Hc. destruct Hc as [Hc|[Hc|[]]]; discriminate.
  - rewrite Hcalls in Hc. simpl in Hc.
    destruct Hc as [Hc|[Hc|Hc]]; try (inversion Hc; subst; apply Hgoal; auto; fail).
    apply in_app_or in Hc. destruct Hc as [Hc|Hc].
    + apply failed_attempts_In in Hc. destruct Hc as [[x Hx]|[x Hx]]; discriminate.
    + simpl in Hc. destruct Hc as [Hc|[Hc|[]]]; discriminate.
Qed.

Lemma filter_calls (f : event -> bool) (tr : list event) :
  (forall e, is_log e = true -> f e = false) ->
  List.filter f (calls tr) = List.filter f tr.
Proof.
  intros Hf. induction tr as [|x tr IH]; [reflexivity|].
  unfold calls in *. simpl. destruct (is_log x) eqn:Hx; simpl.
  - rewrite (Hf x Hx). exact IH.
  - destruct (f x); rewrite IH; reflexivity.
Qed.

Lemma filter_before_spawn (f : event -> bool) (alloc : list event) :
  (forall e, f e = true -> is_log e = false /\ is_cid_call e = false) ->
  Forall before_spawn alloc -> List.filter f alloc = [].
Proof.
  intros Hf Hall. induction Hall as [|x l Hx Hl IH]; [reflexivity|].
  simpl. destruct (f x) eqn:Hfx; [|exact IH].
  destruct (Hf x Hfx) as [H1 H2]. destruct Hx; congruence.
Qed.

Lemma filter_failed_attempts (f : event -> bool) cid port fails :
  (forall e, f e = true -> is_dial e = false
                           /\ match e with EvSleep _ => False | _ => True end) ->
  forall ds, List.filter f (failed_attempts cid port fails ds) = [].
Proof.
  intros Hf. induction fails as [|[c x] fails IH]; intros ds; [reflexivity|].
  destruct ds as [|d ds]; [reflexivity|]. simpl.
  destruct (f (EvDial cid port (c, Some x))) eqn:H1.
  { destruct (Hf _ H1) as [H _]. discriminate. }
  destruct (f (EvSleep d)) eqn:H2.
  { destruct (Hf _ H2) as [_ []]. }
  apply IH.
Qed.

Lemma is_StopVMM_spec e :
  is_StopVMM e = true ->
  (is_log e = false /\ is_cid_call e = false)
  /\ (is_dial e = false /\ match e with EvSleep _ => False | _ => True end).
Proof. destruct e; simpl; intros H; try discriminate; auto. Qed.

(** X5.  When [startVM] returns a client, the machine built from the
    request is stored in the shim together with its CID, the hypervisor
    was started, the client sits on the connection of the dial that
    succeeded, on the agent's port at that CID, the VM was not stopped,
    and the last call is the deferred cancel of the machine's context. *)
Theorem startVM_success (request : CreateTaskRequest) (w w' : World)
    (client : TaskService) :
  startVM env request w = (Returned (Some client, None), w') ->
  exists (new : list event) (cfg : fcConfig),
    trace w' = trace w ++ new
    /\ svc w'
       = set_machineCID (fc_VsockCID cfg) (set_machine (Some cfg) (svc w))
    /\ cfg = machine_config (config (svc w)) (fc_VsockCID cfg)
                            (create_Rootfs request)
    /\ 3 <= fc_VsockCID cfg <= 2 ^ 32 - 2
    /\ In (EvNewMachine cfg None) new
    /\ In (EvMachineStart None) new
    /\ In (EvDial (fc_VsockCID cfg) defaultVsockPort (client, None)) new
    /\ List.filter is_StopVMM new = []
    /\ last (calls new) = Some EvVmmCancel.
Proof.
  intros Hok.
  destruct (startVM_spec request w)
    as (r & alloc & out & new & s' & Hrun & Halloc & Hcid & Hcases).
  cbv zeta in *. rewrite Hrun in Hok. inversion Hok; subst out w'; clear Hok.
  destruct Hcases as [(e & _ & _ & Hout & _)
    | [(pre & m & post & _ & _ & _ & _ & _ & Hout & _)
    | [(e & _ & _ & _ & Hout & _) | [(e & _ & _ & _ & Hout & _)
    | [(fails & c & e & se & _ & _ & _ & _ & _ & Hout & _)
    | (fails & conn & Hr & Hall & Hlen & Hcalls & Hout & Hs)]]]]];
    try discriminate.
  inversion Hout; subst conn. destruct (Hcid Hr) as [Hrange _].
  exists (EvLog Info "starting VM" None :: alloc ++ new),
    (machine_config (config (svc w)) (fst r) (create_Rootfs request)).
  cbn [trace svc fc_VsockCID machine_config].
  split; [reflexivity|]. split; [exact Hs|]. split; [reflexivity|].
  split; [exact Hrange|].
  assert (Hin : forall e, In e (calls new) ->
                  In e (EvLog Info "starting VM" None :: alloc ++ new)).
  { intros e He. apply In_calls in He. right. apply in_or_app. right. tauto. }
  split; [apply Hin; rewrite Hcalls; simpl; auto|].
  split; [apply Hin; rewrite Hcalls; simpl; auto|].
  split.
  { apply Hin. rewrite Hcalls. simpl. right; right. apply in_or_app. right.
    simpl; auto. }
  split.
  - cbn [List.filter is_StopVMM]. rewrite List.filter_app.
    rewrite (filter_before_spawn is_StopVMM alloc
               (fun e H => proj1 (is_StopVMM_spec e H)) Halloc).
    rewrite <- (filter_calls is_StopVMM new)
      by (intros e He; destruct e; simpl in *; congruence).
    rewrite Hcalls. cbn [app List.filter is_StopVMM].
    rewrite List.filter_app.
    rewrite (filter_failed_attempts is_StopVMM _ _ _
               (fun e H => proj2 (is_StopVMM_spec e H))).
    reflexivity.
  - change (calls (EvLog Info "starting VM" None :: alloc ++ new))
      with (calls (alloc ++ new)).
    rewrite calls_app, Hcalls.
    change [EvDial (fst r) defaultVsockPort (client, None); EvVmmCancel]
      with ([EvDial (fst r) defaultVsockPort (client, None)] ++ [EvVmmCancel]).
    rewrite !app_assoc. apply last_snoc.
Qed.

(** X6.  [startVM] stops the VM exactly when the hypervisor had
    started and [startVM] fails, which is when all five dials failed.  A
    failure of [Machine.Start] is returned with the machine left in the
    shim and no stop.  Once [NewMachine] has been called, the last call
    of every run is the deferred cancel of the machine's context. *)
Theorem startVM_stops_VM_iff_dial_failed (request : CreateTaskRequest)
    (w : World) :
  exists (out : outcome (option TaskService * option error))
         (new : list event) (s' : service),
    startVM env request w = (out, mkWorld (trace w ++ new) s')
    /\ ((exists se, In (EvStopVMM se) new)
        <-> (In (EvMachineStart None) new
             /\ exists e, out = Returned (None, Some e)))
    /\ (forall se, In (EvStopVMM se) new ->
          length (List.filter is_dial new) = 5%nat)
    /\ (forall e, In (EvMachineStart (Some e)) new ->
          out = Returned (None, Some e) /\ is_Some (machine s'))
    /\ ((exists cfg err, In (EvNewMachine cfg err) new) ->
        last (calls new) = Some EvVmmCancel).
Proof.
  destruct (startVM_spec request w)
    as (r & alloc & out & new & s' & Hrun & Halloc & Hcid & Hcases).
  cbv zeta in *.
  exists out, (EvLog Info "starting VM" None :: alloc ++ new), s'.
  split; [exact Hrun|].
  assert (Hin : forall e, is_log e = false -> is_cid_call e = false ->
            (In e (EvLog Info "starting VM" None :: alloc ++ new)
             <-> In e (calls new))).
  { intros e H1 H2. rewrite In_calls. split.
    - intros [Hx|Hx]; [subst e; discriminate|].
      apply in_app_or in Hx. destruct Hx as [Hx|Hx]; [|tauto].
      pose proof (before_spawn_not _ _ Halloc Hx H1). congruence.
    - intros [Hx _]. right. apply in_or_app. tauto. }
  assert (Hlast : forall l, calls new = l ++ [EvVmmCancel] ->
            last (calls (EvLog Info "starting VM" None :: alloc ++ new))
            = Some EvVmmCancel).
  { intros l Hl.
    change (calls (EvLog Info "starting VM" None :: alloc ++ new))
      with (calls (alloc ++ new)).
    rewrite calls_app, Hl, app_assoc. apply last_snoc. }
  assert (Hdials : forall fails, length fails = 5%nat ->
            List.filter is_dial
              (failed_attempts (fst r) defaultVsockPort fails dial_delays)
            = map (fun ce => EvDial (fst r) defaultVsockPort
                                    (fst ce, Some (snd ce))) fails).
  { intros fails Hlen.
    destruct fails as [|[? ?] [|[? ?] [|[? ?] [|[? ?] [|[? ?] [|? ?]]]]]];
      try discriminate. reflexivity. }
  rewrite !Hin by reflexivity.
  setoid_rewrite (Hin (EvStopVMM _) eq_refl eq_refl).
  setoid_rewrite (Hin (EvMachineStart (Some _)) eq_refl eq_refl).
  setoid_rewrite (Hin (EvNewMachine _ _) eq_refl eq_refl).
  destruct Hcases as [(e & _ & Hnew & Hout & Hs)
    | [(pre & m & post & _ & _ & _ & _ & Hnew & Hout & Hs)
    | [(e & _ & _ & Hcalls & Hout & Hs) | [(e & _ & _ & Hcalls & Hout & Hs)
    | [(fails & c & e & se & _ & _ & Hlen & _ & Hcalls & Hout & Hs)
    | (fails & conn & _ & _ & Hlen & Hcalls & Hout & Hs)]]]]].
  - subst new. simpl. split; [split; [intros [? []]|intros [[] _]]|].
    split; [intros ? []|]. split; [intros ? []|]. intros (? & ? & []).
  - subst new. simpl. split; [split; [intros [? []]|intros [[] _]]|].
    split; [intros ? []|]. split; [intros ? []|]. intros (? & ? & []).
  - rewrite Hcalls. simpl. split.
    { split; [intros [x [H|[H|[]]]]; discriminate
             |intros [[H|[H|[]]] _]; discriminate]. }
    split; [intros x [H|[H|[]]]; discriminate|].
    split; [intros x [H|[H|[]]]; discriminate|].
    intros _. eapply (Hlast [EvNewMachine _ (Some e)]). exact Hcalls.
  - rewrite Hcalls. simpl. split.
    { split; [intros [x [H|[H|[H|[]]]]]; discriminate
             |intros [[H|[H|[H|[]]]] _]; discriminate]. }
    split; [intros x [H|[H|[H|[]]]]; discriminate|].
    split.
    { intros x [H|[H|[H|[]]]]; try discriminate. inversion H; subst.
      split; [reflexivity|]. simpl. eauto. }
    intros _. eapply (Hlast [EvNewMachine _ None; EvMachineStart (Some e)]).
    exact Hcalls.
  - split.
    { split.
      - intros _. split; [rewrite Hcalls; simpl; auto|]. exists e. exact Hout.
      - intros _. exists se. rewrite Hcalls. simpl. right; right.
        apply in_or_app. right. simpl; auto. }
    split.
    { intros ? _.
      change (List.filter is_dial (EvLog Info "starting VM" None :: alloc ++ new))
        with (List.filter is_dial (alloc ++ new)).
      rewrite List.filter_app.
      rewrite (filter_before_spawn is_dial alloc) by
        (try exact Halloc; intros x Hx; destruct x; simpl in *;
         try discriminate; auto).
      rewrite <- (filter_calls is_dial new)
        by (intros x Hx; destruct x; simpl in *; congruence).
      rewrite Hcalls. cbn [app List.filter is_dial].
      rewrite List.filter_app, (Hdials fails Hlen). simpl.
      rewrite app_nil_r, length_map. exact Hlen. }
    split.
    { intros x Hx. rewrite Hcalls in Hx; simpl in Hx. destruct Hx as [H|[H|Hx]];
        try discriminate.
      apply in_app_or in Hx. destruct Hx as [Hx|[H|[H|[]]]]; try discriminate.
      apply failed_attempts_In in Hx. destruct Hx as [[? H]|[? H]]; discriminate. }
    intros _.
    eapply (Hlast ([EvNewMachine _ None; EvMachineStart None]
                  ++ failed_attempts (fst r) defaultVsockPort fails dial_delays
                  ++ [EvStopVMM se])).
    rewrite Hcalls, <- !app_assoc. reflexivity.
  - split.
    { split.
      - intros [x Hx]. exfalso. rewrite Hcalls in Hx; simpl in Hx.
        destruct Hx as [H|[H|Hx]]; try discriminate.
        apply in_app_or in Hx. destruct Hx as [Hx|[H|[H|[]]]]; try discriminate.
        apply failed_attempts_In in Hx.
        destruct Hx as [[? H]|[? H]]; discriminate.
      - intros [_ [x Hx]]. subst out. discriminate. }
    split.
    { intros x Hx. exfalso. rewrite Hcalls in Hx; simpl in Hx.
      destruct Hx as [H|[H|Hx]]; try discriminate.
      apply in_app_or in Hx. destruct Hx as [Hx|[H|[H|[]]]]; try discriminate.
      apply failed_attempts_In in Hx.
      destruct Hx as [[? H]|[? H]]; discriminate. }
    split.
    { intros x Hx. exfalso. rewrite Hcalls in Hx; simpl in Hx.
      destruct Hx as [H|[H|Hx]]; try discriminate.
      apply in_app_or in Hx. destruct Hx as [Hx|[H|[H|[]]]]; try discriminate.
      apply failed_attempts_In in Hx.
      destruct Hx as [[? H]|[? H]]; discriminate. }
    intros _.
    eapply (Hlast ([EvNewMachine _ None; EvMachineStart None]
                  ++ failed_attempts (fst r) defaultVsockPort fails dial_delays
                  ++ [EvDial (fst r) defaultVsockPort (conn, None)])).
    rewrite Hcalls, <- !app_assoc. reflexivity.
Qed.

(** ** [Create] on a shim whose VM is not started *)

Lemma Create_after_startVM (request : CreateTaskRequest) (w : World) :
  agentStarted (svc w) = false ->
  let w0 := mkWorld (trace w ++ [EvLog Debug "creating task" None]) (svc w) in
  let path := filepath_Join (create_Bundle request) "config.json" in
  forall sout w1,
    startVM env request w0 = (sout, w1) ->
    match sout with
    | Returned (Some client, None) =>
        let s1 := set_agent (Some client) (svc w1) in
        exists (json : string) (new : list event) (s' : service)
               (out : outcome (option CreateTaskResponse * option error)),
          let forwarded :=
            with_Options (Some (AnyExtraData json (create_Options request)))
                         request in
          Create env request w = (out, mkWorld (trace w1 ++ new) s')
          /\ ((exists e,
                 calls new = [EvReadFile path (json, Some e)]
                 /\ out = Returned (None, Some e) /\ s' = s1)
              \/ (exists r e,
                    calls new = [EvReadFile path (json, None);
                                 EvAgentCreate forwarded (r, Some e)]
                    /\ out = Returned (None, Some e) /\ s' = s1)
              \/ (exists r,
                    calls new = [EvReadFile path (json, None);
                                 EvAgentCreate forwarded (r, None);
                                 EvWithCancel;
                                 EvGoProxyStdio (create_Stdin request)
                                   (create_Stdout request)
                                   (create_Stderr request)
                                   (machineCID (svc w1))]
                    /\ s' = set_ctx (Some false) s1
                    /\ out = match r with
                             | Some resp => Returned (Some resp, None)
                             | None => Panicked nil_deref
                             end))
    | Returned (_, Some e) =>
        Create env request w
        = (Returned (None, Some e),
           mkWorld (trace w1 ++ [EvLog Error "failed to start VM" (Some e)])
                   (svc w1))
    | _ => True
    end.
Proof.
  intros Hfresh w0 path sout w1 Hrun.
  unfold Create, packBundle, with_agent, log, emit, ask, get_s, modify_s.
  go_unfold. cbn [trace svc]. rewrite Hfresh. fold w0. rewrite Hrun.
  destruct sout as [[[client|] [e|]]| |]; cbn [trace svc]; try exact I;
    try reflexivity.
  fold path.
  match goal with |- context [ioutil_ReadFile env path ?t] =>
    destruct (ioutil_ReadFile env path t) as [json [re|]] end;
    cbn [trace svc agentClient set_agent].
  { exists json. eexists [_; _], _, _. rewrite <- !app_assoc. cbn [app].
    split; [reflexivity|]. left. exists re. repeat split. }
  match goal with |- context [agent_Create env ?q ?t] =>
    destruct (agent_Create env q t) as [r [ce|]] end; cbn [trace svc].
  { exists json. eexists [_; _; _; _], _, _. rewrite <- !app_assoc. cbn [app].
    split; [reflexivity|]. right; left. exists r, ce. repeat split. }
  exists json.
  destruct r as [resp|]; cbn [trace svc]; rewrite <- ?app_assoc; cbn [app].
  - eexists [_; _; _; _; _; _], _, _. 
    split; [reflexivity|]. right; right.
    eexists; (split; [reflexivity|]); split; reflexivity.
  - eexists [_; _; _; _; _], _, _. 
    split; [reflexivity|]. right; right.
    eexists; (split; [reflexivity|]); split; reflexivity.
Qed.

(** X7.  A [Create] that succeeds on a shim whose VM was not started
    leaves the shim created: agent client, machine and per-task context
    are set and [agentStarted] holds.  The machine is the one configured
    from the request, all of whose mounts are ext4; its CID, between 3
    and 2^32 - 2, is the one the allocator's ioctl accepted; the VM was
    not stopped; and the last call launches the stdio proxy on that CID. *)
Theorem Create_success_makes_created (request : CreateTaskRequest)
    (w w' : World) (resp : CreateTaskResponse) :
  agentStarted (svc w) = false ->
  Create env request w = (Returned (Some resp, None), w') ->
  created (svc w')
  /\ agentStarted (svc w') = true
  /\ ctx (svc w') = Some false
  /\ 3 <= machineCID (svc w') <= 2 ^ 32 - 2
  /\ all_ext4 (create_Rootfs request)
  /\ machine (svc w')
     = Some (machine_config (config (svc w)) (machineCID (svc w'))
                            (create_Rootfs request))
  /\ exists new : list event,
       trace w' = trace w ++ new
       /\ In (EvIoctl (machineCID (svc w')) 0) new
       /\ In (EvMachineStart None) new
       /\ List.filter is_StopVMM new = []
       /\ last (calls new)
          = Some (EvGoProxyStdio (create_Stdin request)
                    (create_Stdout request) (create_Stderr request)
                    (machineCID (svc w'))).
Proof.
  intros Hfresh Hok.
  set (w0 := mkWorld (trace w ++ [EvLog Debug "creating task" None]) (svc w)).
  destruct (startVM_spec request w0)
    as (r & alloc & sout & snew & s1 & Hrun & Halloc & Hcid & Hcases).
  cbv zeta in *.
  pose proof (Create_after_startVM request w Hfresh _ _ Hrun) as HC.
  cbv zeta in HC.
  destruct Hcases as [(e & _ & _ & Hout & Hs)
    | [(pre & m & post & _ & _ & _ & _ & _ & Hout & Hs)
    | [(e & _ & _ & _ & Hout & Hs) | [(e & _ & _ & _ & Hout & Hs)
    | [(fails & c & e & se & _ & _ & _ & _ & _ & Hout & Hs)
    | (fails & conn & Hr & Hall & Hlen & Hcalls & Hout & Hs)]]]]];
    subst sout; try (rewrite HC in Hok; discriminate).
  destruct HC as (json & new & s' & out & Hrun' & Hshape).
  rewrite Hrun' in Hok. inversion Hok; subst out w'; clear Hok.
  destruct Hshape as [(e & _ & Hout & _) | [(r0 & e & _ & Hout & _)
                      | (r0 & Hnew & Hs' & Hout)]]; try discriminate.
  destruct r0 as [resp0|]; [|discriminate]. inversion Hout; subst resp0.
  destruct (Hcid Hr) as [Hrange Hio].
  subst s' s1. cbn [trace svc ctx agentStarted machine machineCID agentClient
                    set_ctx set_agent set_machineCID set_machine config w0].
  split.
  { unfold created. cbn. eauto. }
  split; [reflexivity|]. split; [reflexivity|]. split; [exact Hrange|].
  split; [exact Hall|]. split; [reflexivity|].
  exists (EvLog Debug "creating task" None
          :: EvLog Info "starting VM" None :: alloc ++ snew ++ new).
  split.
  { unfold w0. cbn [trace]. rewrite <- !app_assoc. cbn [app].
    rewrite <- !app_assoc. reflexivity. }
  assert (Hsn : forall e, In e (calls snew) ->
            In e (EvLog Debug "creating task" None
                  :: EvLog Info "starting VM" None :: alloc ++ snew ++ new)).
  { intros e He. apply In_calls in He. right; right. apply in_or_app. right.
    apply in_or_app. left. tauto. }
  assert (Hn : forall e, In e (calls new) ->
            In e (EvLog Debug "creating task" None
                  :: EvLog Info "starting VM" None :: alloc ++ snew ++ new)).
  { intros e He. apply In_calls in He. right; right. apply in_or_app. right.
    apply in_or_app. right. tauto. }
  split; [right; right; apply in_or_app; left; exact Hio|].
  split; [apply Hsn; rewrite Hcalls; simpl; auto|].
  split.
  { cbn [List.filter is_StopVMM]. rewrite !List.filter_app.
    rewrite (filter_before_spawn is_StopVMM alloc
               (fun e H => proj1 (is_StopVMM_spec e H)) Halloc).
    rewrite <- (filter_calls is_StopVMM snew)
      by (intros e He; destruct e; simpl in *; congruence).
    rewrite <- (filter_calls is_StopVMM new)
      by (intros e He; destruct e; simpl in *; congruence).
    rewrite Hcalls, Hnew. cbn [app List.filter is_StopVMM].
    rewrite List.filter_app.
    rewrite (filter_failed_attempts is_StopVMM _ _ _
               (fun e H => proj2 (is_StopVMM_spec e H))).
    reflexivity. }
  change (calls (EvLog Debug "creating task" None
                 :: EvLog Info "starting VM" None :: alloc ++ snew ++ new))
    with (calls (alloc ++ snew ++ new)).
  rewrite !calls_app, Hnew.
  match goal with |- context [[?a; ?b; ?c; ?d]] =>
    change [a; b; c; d] with ([a; b; c] ++ [d]) end.
  rewrite !app_assoc. apply last_snoc.
Qed.

(** X8.  When [Create] fails on a fresh shim although the VM was
    started, that is with [agentStarted] set on return, the failure is
    that of reading [config.json] or of the agent's [Create].  The error
    is returned with the VM left running: the hypervisor was started and
    is not stopped, agent client and machine stay in the shim, and no
    per-task context is made. *)
Theorem Create_failure_leaves_VM_running (request : CreateTaskRequest)
    (w w' : World) (e : error) :
  agentStarted (svc w) = false ->
  Create env request w = (Returned (None, Some e), w') ->
  agentStarted (svc w') = true ->
  let path := filepath_Join (create_Bundle request) "config.json" in
  is_Some (agentClient (svc w'))
  /\ is_Some (machine (svc w'))
  /\ ctx (svc w') = ctx (svc w)
  /\ exists new : list event,
       trace w' = trace w ++ new
       /\ In (EvMachineStart None) new
       /\ List.filter is_StopVMM new = []
       /\ exists json,
            last (calls new) = Some (EvReadFile path (json, Some e))
            \/ exists r,
                 last (calls new)
                 = Some (EvAgentCreate
                           (with_Options
                              (Some (AnyExtraData json
                                       (create_Options request)))
                              request)
                           (r, Some e)).
Proof.
  intros Hfresh Hrun0 Hstarted path.
  set (w0 := mkWorld (trace w ++ [EvLog Debug "creating task" None]) (svc w)).
  destruct (startVM_spec request w0)
    as (r & alloc & sout & snew & s1 & Hrun & Halloc & Hcid & Hcases).
  cbv zeta in *.
  pose proof (Create_after_startVM request w Hfresh _ _ Hrun) as HC.
  cbv zeta in HC.
  destruct Hcases as [(x & _ & _ & Hout & Hs)
    | [(pre & m & post & _ & _ & _ & _ & _ & Hout & Hs)
    | [(x & _ & _ & _ & Hout & Hs) | [(x & _ & _ & _ & Hout & Hs)
    | [(fails & c & x & se & _ & _ & _ & _ & _ & Hout & Hs)
    | (fails & conn & Hr & Hall & Hlen & Hcalls & Hout & Hs)]]]]];
    subst sout s1;
    try (rewrite HC in Hrun0; inversion Hrun0; subst w';
         cbn [svc agentStarted set_machine set_machineCID w0] in Hstarted;
         congruence).
  destruct HC as (json & new & s' & out & Hrun' & Hshape).
  rewrite Hrun' in Hrun0. inversion Hrun0; subst out w'; clear Hrun0.
  cbn [trace svc] in *.
  assert (Hs' : s' = set_agent (Some conn)
                   (set_machineCID (fst r)
                      (set_machine
                         (Some (machine_config (config (svc w)) (fst r)
                                  (create_Rootfs request)))
                         (svc w)))
                /\ exists last_call,
                     calls new = last_call
                     /\ exists json',
                          last last_call = Some (EvReadFile path (json', Some e))
                          \/ exists r',
                               last last_call
                               = Some (EvAgentCreate
                                         (with_Options
                                            (Some (AnyExtraData json'
                                                     (create_Options request)))
                                            request)
                                         (r', Some e))).
  { destruct Hshape as [(x & Hnew & Hout & Hs') | [(r0 & x & Hnew & Hout & Hs')
                        | (r0 & Hnew & Hs' & Hout)]].
    - inversion Hout; subst x. split; [exact Hs'|].
      eexists. split; [exact Hnew|]. exists json. left. reflexivity.
    - inversion Hout; subst x. split; [exact Hs'|].
      eexists. split; [exact Hnew|]. exists json. right. exists r0. reflexivity.
    - destruct r0; discriminate. }
  destruct Hs' as [-> (lc & Hnew & json' & Hlast)].
  cbn [agentClient machine ctx set_agent set_machineCID set_machine].
  split; [eauto|]. split; [eauto|]. split; [reflexivity|].
  exists (EvLog Debug "creating task" None
          :: EvLog Info "starting VM" None :: alloc ++ snew ++ new).
  split.
  { unfold w0. cbn [trace]. rewrite <- !app_assoc. cbn [app].
    rewrite <- !app_assoc. reflexivity. }
  split.
  { right; right. apply in_or_app. right. apply in_or_app. left.
    assert (Hx : In (EvMachineStart None) (calls snew))
      by (rewrite Hcalls; simpl; auto).
    apply In_calls in Hx. tauto. }
  split.
  { cbn [List.filter is_StopVMM]. rewrite !List.filter_app.
    rewrite (filter_before_spawn is_StopVMM alloc
               (fun e H => proj1 (is_StopVMM_spec e H)) Halloc).
    rewrite <- (filter_calls is_StopVMM snew)
      by (intros x Hx; destruct x; simpl in *; congruence).
    rewrite <- (filter_calls is_StopVMM new)
      by (intros x Hx; destruct x; simpl in *; congruence).
    rewrite Hcalls. cbn [app List.filter is_StopVMM].
    rewrite List.filter_app.
    rewrite (filter_failed_attempts is_StopVMM _ _ _
               (fun e H => proj2 (is_StopVMM_spec e H))).
    destruct Hshape as [(x & Hn & _) | [(r0 & x & Hn & _)
                        | (r0 & Hn & _ & Hout)]]; rewrite Hn; reflexivity. }
  exists json'.
  change (calls (EvLog Debug "creating task" None
                 :: EvLog Info "starting VM" None :: alloc ++ snew ++ new))
    with (calls (alloc ++ snew ++ new)).
  rewrite !calls_app, Hnew.
  assert (Hne : lc <> []) by (destruct Hlast as [H|[? H]]; intros ->; discriminate).
  assert (Hl : forall pre, last (pre ++ lc) = last lc).
  { intros pre. destruct (exists_last Hne) as (l' & x & ->).
    rewrite app_assoc, !last_snoc. reflexivity. }
  rewrite app_assoc, Hl. exact Hlast.
Qed.

(** ** [monitorState] *)

Lemma monitorState_loop_teardown (id execID : string) (pid : Z) (fuel : nat) :
  forall w : World,
  created (svc w) ->
  exists out new s',
    monitorState_loop env fuel id execID pid w
    = (out, mkWorld (trace w ++ new) s')
    /\ ((existsb stopped_poll new = false
         /\ List.filter is_teardown new = []
         /\ s' = svc w
         /\ out <> Exited 0)
        \/ (existsb stopped_poll new = true
            /\ exists se,
                 List.filter is_StopVMM new = [EvStopVMM se]
                 /\ match se with
                    | None =>
                        out = Exited 0
                        /\ List.filter is_ServerClose new = []
                        /\ s' = set_ctx (Some true) (svc w)
                    | Some e =>
                        out = Returned LoopReturned
                        /\ last new = Some EvServerClose
                        /\ s' = svc w
                    end)).
Proof.
  induction fuel as [|fuel IH]; intros w Hcr.
  - exists (Returned StillLooping), [], (svc w). destruct w; simpl.
    rewrite app_nil_r. split; [reflexivity|]. left.
    repeat split; discriminate.
  - pose proof Hcr as (Ha & Hm & Hc). destruct Ha as [a Ha].
    simpl monitorState_loop. unfold with_agent, ask, get_s, log, emit, peek.
    go_unfold. cbn [trace svc].
    destruct (monitor_Done env (trace w)) eqn:Hdone.
    { exists (Returned LoopReturned), [EvCtxDone], (svc w).
      split; [reflexivity|]. left. repeat split; discriminate. }
    cbn [trace svc]. rewrite Ha. cbn [trace svc].
    match goal with |- context [agent_State env ?q ?t] =>
      destruct (agent_State env q t) as [resp [e|]] eqn:Hst end.
    + cbn [trace svc].
      match goal with |- context [monitorState_loop env fuel id execID pid ?w'] =>
        destruct (IH w' Hcr) as (out & new & s' & Hrun & Hcases) end.
      rewrite Hrun. cbn [trace svc] in *. rewrite <- !app_assoc. cbn [app].
      eexists out, _, s'. split; [reflexivity|].
      destruct Hcases as [(H1 & H2 & H3 & H4) | (H1 & se & H2 & H3)].
      * left. split; [destruct resp; simpl; exact H1|].
        split; [simpl; exact H2|]. split; assumption.
      * right. split; [destruct resp; simpl; exact H1|].
        exists se. split; [simpl; exact H2|].
        destruct se as [x|]; [|exact H3].
        destruct H3 as (H3 & H4 & H5). split; [exact H3|]. split; [|exact H5].
        destruct new as [|y new]; [discriminate|].
        rewrite !last_cons_cons. exact H4.
    + destruct resp as [resp|].
      2:{ eexists _, [_; _], (svc w). rewrite <- !app_assoc. cbn [app].
          split; [reflexivity|]. left. repeat split; discriminate. }
      destruct (Status_eqb (state_Status resp) StatusStopped) eqn:Hstatus.
      * cbn [trace svc].
        match goal with |- context [Shutdown env ?q ?w'] =>
          destruct (Shutdown_runs q w' Hcr)
            as (se & snew & s' & Hrun & Hcalls & _ & Hs') end.
        rewrite Hrun. cbn [trace svc] in *.
        assert (Hstop : List.filter is_StopVMM snew = [EvStopVMM se]).
        { rewrite <- (filter_calls is_StopVMM snew)
            by (intros x Hx; destruct x; simpl in *; congruence).
          rewrite Hcalls. destruct se; reflexivity. }
        assert (Hclose : List.filter is_ServerClose snew = []).
        { rewrite <- (filter_calls is_ServerClose snew)
            by (intros x Hx; destruct x; simpl in *; congruence).
          rewrite Hcalls. destruct se; reflexivity. }
        destruct se as [x|]; cbn [is_nil] in Hs'; subst s'.
        -- rewrite <- !app_assoc. cbn [app].
           eexists (Returned LoopReturned), _, _. split; [reflexivity|].
           right. split; [simpl; rewrite Hstatus; reflexivity|].
           exists (Some x). split.
           { simpl. rewrite List.filter_app, Hstop. reflexivity. }
           split; [reflexivity|]. split; [|reflexivity].
           rewrite !last_cons_cons.
           change (EvPublish ?a ?b ?c :: snew ++ [EvServerClose])
             with ((EvPublish a b c :: snew) ++ [EvServerClose]).
           apply last_snoc.
        -- rewrite <- !app_assoc. cbn [app].
           eexists (Exited 0), _, _. split; [reflexivity|].
           right. split; [simpl; rewrite Hstatus; reflexivity|].
           exists None. split; [simpl; exact Hstop|].
           split; [reflexivity|]. split; [simpl; exact Hclose|reflexivity].
      * cbn [trace svc].
        match goal with |- context [monitorState_loop env fuel id execID pid ?w'] =>
          destruct (IH w' Hcr) as (out & new & s' & Hrun & Hcases) end.
        rewrite Hrun. cbn [trace svc] in *. rewrite <- !app_assoc. cbn [app].
        eexists out, _, s'. split; [reflexivity|].
        destruct Hcases as [(H1 & H2 & H3 & H4) | (H1 & se & H2 & H3)].
        -- left. split; [simpl; rewrite Hstatus; exact H1|].
           split; [simpl; exact H2|]. split; assumption.
        -- right. split; [simpl; rewrite Hstatus; exact H1|].
           exists se. split; [simpl; exact H2|].
           destruct se as [x|]; [|exact H3].
           destruct H3 as (H3 & H4 & H5). split; [exact H3|]. split; [|exact H5].
           destruct new as [|y new]; [discriminate|].
           rewrite !last_cons_cons. exact H4.
Qed.

(** X9.  The state monitor winds the task down only after a poll has
    reported [StatusStopped]: without one a run publishes nothing, calls
    neither [Shutdown] nor the hypervisor, and leaves the shim as it
    was.  With one, the VM is asked to stop exactly once.  If the stop
    succeeds the process exits with code 0 and [server.Close] is never
    reached; if it fails the monitor closes the server as its last step
    and returns, the per-task context not cancelled. *)
Theorem monitorState_teardown (fuel : nat) (id execID : string) (pid : Z)
    (w : World) :
  created (svc w) ->
  exists out new s',
    monitorState env fuel id execID pid w
    = (out, mkWorld (trace w ++ new) s')
    /\ ((existsb stopped_poll new = false
         /\ List.filter is_teardown new = []
         /\ s' = svc w
         /\ out <> Exited 0)
        \/ (existsb stopped_poll new = true
            /\ exists se,
                 List.filter is_StopVMM new = [EvStopVMM se]
                 /\ match se with
                    | None =>
                        out = Exited 0
                        /\ List.filter is_ServerClose new = []
                        /\ s' = set_ctx (Some true) (svc w)
                    | Some e =>
                        out = Returned LoopReturned
                        /\ last new = Some EvServerClose
                        /\ s' = svc w
                    end)).
Proof.
  intros Hcr.
  destruct (monitorState_loop_teardown id execID pid fuel
              (mkWorld (trace w ++ [EvNewTicker Second]) (svc w)) Hcr)
    as (out & new & s' & Hrun & Hcases).
  cbn [trace svc] in *. rewrite <- app_assoc in Hrun. cbn [app] in Hrun.
  exists out, (EvNewTicker Second :: new), s'.
  unfold monitorState, emit. go_unfold.
  split; [exact Hrun|].
  destruct Hcases as [(H1 & H2 & H3 & H4) | (H1 & se & H2 & H3)].
  - left. auto.
  - right. split; [exact H1|]. exists se. split; [exact H2|].
    destruct se as [x|]; [|exact H3].
    destruct H3 as (H3 & H4 & H5). split; [exact H3|]. split; [|exact H5].
    destruct new as [|y new]; [discriminate|].
    rewrite last_cons_cons. exact H4.
Qed.

End WithEnv.

(** ** Runs on concrete environments *)

(** Witness of X1: a created shim whose VM stops. *)
Lemma Shutdown_exits_or_fails_witness :
  created (svc w_created)
  /\ exists (new : list event),
       Shutdown env_ok shutdown_req w_created
       = (Exited 0,
          mkWorld (trace w_created ++ new) (set_ctx (Some true) s_created))
       /\ calls new = [EvAgentShutdown shutdown_req (Some tt, None);
                       EvStopVMM None; EvCancel; EvExit 0].
Proof.
  split; [exact ShimFacts.created_s_created|].
  destruct (Shutdown_exits_or_fails env_ok shutdown_req w_created
              ShimFacts.created_s_created)
    as (se & new & s' & Hrun & Hcalls & _ & Hs).
  exists new. vm_compute in Hrun. destruct se as [e|]; [discriminate|].
  inversion Hrun; subst. split; reflexivity.
Defined.

(** Witness of X2: a second [Create] on the created shim. *)
Lemma Create_reuses_started_VM_witness :
  agentStarted (svc w_created) = true
  /\ is_Some (agentClient (svc w_created))
  /\ calls (trace (snd (Create env_ok req_ext4 w_created)))
     = [EvReadFile "/bundle/config.json" ("{}", None);
        EvAgentCreate
          (with_Options (Some (AnyExtraData "{}" None)) req_ext4)
          (Some (mkCreateTaskResponse 100), None);
        EvWithCancel;
        EvGoProxyStdio "" "" "" 3].
Proof.
  assert (H1 : agentStarted (svc w_created) = true) by reflexivity.
  assert (H2 : is_Some (agentClient (svc w_created)))
    by (eexists; reflexivity).
  split; [exact H1|]. split; [exact H2|].
  destruct (Create_reuses_started_VM env_ok req_ext4 w_created H1 H2)
    as (json & new & s' & out & Hrun & _).
  rewrite Hrun. vm_compute in Hrun. inversion Hrun; subst. reflexivity.
Defined.

(** Witness of X5: CID 3 is free and the first dial connects. *)
Lemma startVM_success_witness :
  startVM env_ok req_ext4 w_fresh
  = (Returned (Some (Some 7), None),
     mkWorld (trace (snd (startVM env_ok req_ext4 w_fresh))) s_started)
  /\ exists new : list event,
       trace (snd (startVM env_ok req_ext4 w_fresh)) = new
       /\ In (EvNewMachine fc_ext4 None) new
       /\ In (EvDial 3 defaultVsockPort (Some 7, None)) new
       /\ List.filter is_StopVMM new = []
       /\ last (calls new) = Some EvVmmCancel.
Proof.
  assert (H : startVM env_ok req_ext4 w_fresh
              = (Returned (Some (Some 7), None),
                 mkWorld (trace (snd (startVM env_ok req_ext4 w_fresh)))
                         s_started))
    by (lazy; reflexivity).
  split; [exact H|].
  destruct (startVM_success env_ok req_ext4 w_fresh _ (Some 7) H)
    as (new & cfg & Htr & Hs & Hcfg & _ & Hnm & _ & Hd & Hstop & Hlast).
  cbn [trace svc] in Htr, Hs. exists new.
  assert (Hc : cfg = fc_ext4).
  { assert (Hm : machine s_started
                 = machine (set_machineCID (fc_VsockCID cfg)
                              (set_machine (Some cfg) (svc w_fresh))))
      by (rewrite <- Hs; reflexivity).
    cbn in Hm. congruence. }
  subst cfg. split; [exact Htr|]. split; [exact Hnm|].
  split; [exact Hd|]. split; [exact Hstop|exact Hlast].
Defined.

(** Witness of X7: the first [Create] on a fresh shim. *)
Lemma Create_success_makes_created_witness :
  agentStarted (svc w_fresh) = false
  /\ fst (Create env_ok req_ext4 w_fresh)
     = Returned (Some (mkCreateTaskResponse 100), None)
  /\ created (svc (snd (Create env_ok req_ext4 w_fresh)))
  /\ machineCID (svc (snd (Create env_ok req_ext4 w_fresh))) = 3
  /\ machine (svc (snd (Create env_ok req_ext4 w_fresh))) = Some fc_ext4.
Proof.
  assert (H1 : agentStarted (svc w_fresh) = false) by reflexivity.
  assert (H2 : Create env_ok req_ext4 w_fresh
               = (Returned (Some (mkCreateTaskResponse 100), None),
                  snd (Create env_ok req_ext4 w_fresh)))
    by (lazy; reflexivity).
  split; [exact H1|]. split; [rewrite H2; reflexivity|].
  destruct (Create_success_makes_created env_ok req_ext4 w_fresh _ _ H1 H2)
    as (Hcr & _).
  split; [exact Hcr|]. split; lazy; reflexivity.
Defined.

(** Witness of X8: the VM starts, then [config.json] cannot be read. *)
Lemma Create_failure_leaves_VM_running_witness :
  agentStarted (svc w_fresh) = false
  /\ fst (Create env_read_fails req_ext4 w_fresh)
     = Returned (None, Some boom)
  /\ agentStarted (svc (snd (Create env_read_fails req_ext4 w_fresh))) = true
  /\ is_Some (machine (svc (snd (Create env_read_fails req_ext4 w_fresh))))
  /\ List.filter is_StopVMM
       (trace (snd (Create env_read_fails req_ext4 w_fresh))) = [].
Proof.
  assert (H1 : agentStarted (svc w_fresh) = false) by reflexivity.
  assert (H2 : Create env_read_fails req_ext4 w_fresh
               = (Returned (None, Some boom),
                  snd (Create env_read_fails req_ext4 w_fresh)))
    by (lazy; reflexivity).
  assert (H3 : agentStarted (svc (snd (Create env_read_fails req_ext4
                                         w_fresh))) = true)
    by (lazy; reflexivity).
  split; [exact H1|]. split; [rewrite H2; reflexivity|].
  split; [exact H3|].
  destruct (Create_failure_leaves_VM_running env_read_fails req_ext4 w_fresh
              _ _ H1 H2 H3)
    as (_ & Hm & _ & new & Htr & _ & Hstop & _).
  split; [exact Hm|]. rewrite Htr. exact Hstop.
Defined.

(** Witness of X9: the first poll reports the task stopped and the VM
    stops, so the process exits before [server.Close]. *)
Lemma monitorState_teardown_witness :
  created (svc w_created)
  /\ exists new : list event,
       monitorState env_ok 1 "c1" "" 100 w_created
       = (Exited 0,
          mkWorld (trace w_created ++ new) (set_ctx (Some true) s_created))
       /\ List.filter is_StopVMM new = [EvStopVMM None]
       /\ List.filter is_ServerClose new = [].
Proof.
  split; [exact ShimFacts.created_s_created|].
  destruct (monitorState_teardown env_ok 1 "c1" "" 100 w_created
              ShimFacts.created_s_created)
    as (out & new & s' & Hrun & _).
  exists new. vm_compute in Hrun. inversion Hrun; subst.
  repeat split; reflexivity.
Defined.

(** The allocator on a cancelled request: no CID is tried and the device
    is closed. *)
Lemma findNextAvailableVsockCID_cancelled_example :
  findNextAvailableVsockCID env_cancelled w_fresh
  = (Returned (0, Some (errors_New "context canceled")),
     mkWorld [EvOpenFile vsockDevicePath None; EvFileClose] s_fresh).
Proof. lazy. reflexivity. Qed.

End ShimMore.

(** * Launching the shim *)

Module ShimStartFacts.
Import ShimStart ShimStartSpec.

Section WithEnv.
Context (env : Env).

Lemma StartShim_spec (s : Shim.service)
    (id containerdBinary containerdAddress : string) (w : World) :
  exists (out : outcome (string * option error)) (new : list event),
    StartShim env s id containerdBinary containerdAddress w = (out, w ++ new)
    /\ ((exists ns self cwd address e,
           out = Returned ("", Some e)
           /\ (new = [EvNamespaceRequired (ns, Some e)]
               \/ new = [EvNamespaceRequired (ns, None);
                         EvExecutable (self, Some e)]
               \/ new = [EvNamespaceRequired (ns, None);
                         EvExecutable (self, None); EvGetwd (cwd, Some e)]
               \/ new = [EvNamespaceRequired (ns, None);
                         EvExecutable (self, None); EvGetwd (cwd, None);
                         EvSocketAddress id (address, Some e)]
               \/ new = [EvNamespaceRequired (ns, None);
                         EvExecutable (self, None); EvGetwd (cwd, None);
                         EvSocketAddress id (address, None);
                         EvNewSocket address (Some e)]))
        \/ (exists ns self cwd address f e,
              out = Returned ("", Some e)
              /\ new = socket_prefix id ns self cwd address
                       ++ [EvSocketFile (f, Some e); EvSocketClose])
        \/ (exists ns self cwd address f pid,
              let cmd := shim_cmd self cwd ns containerdAddress
                                  containerdBinary
                                  (Shim.cfg_Debug (Shim.config s))
                                  (os_Environ env
                                     (w ++ [EvNamespaceRequired (ns, None);
                                            EvExecutable (self, None);
                                            EvGetwd (cwd, None)]))
                                  f in
              let pre := started_prefix id ns self cwd address f cmd pid in
              (exists e,
                 new = socket_prefix id ns self cwd address
                       ++ [EvSocketFile (f, None);
                           EvCmdStart cmd (pid, Some e);
                           EvFileClose f; EvSocketClose]
                 /\ out = Returned ("", Some e))
              \/ (exists e,
                    new = pre ++ [EvWritePidFile "shim.pid" pid (Some e);
                                  EvFileClose f; EvSocketClose]
                    /\ out = Returned ("", Some e))
              \/ (exists e,
                    new = pre ++ [EvWritePidFile "shim.pid" pid None;
                                  EvWriteAddress "address" address (Some e);
                                  EvFileClose f; EvSocketClose]
                    /\ out = Returned ("", Some e))
              \/ (exists e,
                    new = pre ++ [EvWritePidFile "shim.pid" pid None;
                                  EvWriteAddress "address" address None;
                                  EvSetScore pid (Some e);
                                  EvFileClose f; EvSocketClose]
                    /\ out = Returned
                               ("", Some (errors_Wrap e
                                            "failed to set OOM Score on shim")))
              \/ (new = pre ++ [EvWritePidFile "shim.pid" pid None;
                                EvWriteAddress "address" address None;
                                EvSetScore pid None;
                                EvFileClose f; EvSocketClose]
                  /\ out = Returned (address, None)))).
Proof.
  unfold StartShim, newCommand, exec_Command, with_ExtraFiles, peek, ask, emit.
  go_unfold. cbn [cmd_Path cmd_Args cmd_ExtraFiles].
  destruct (namespaces_NamespaceRequired env w) as [ns [e|]].
  { eexists _, [_]. split; [reflexivity|].
    left. exists ns, "", "", "", e. auto. }
  destruct (os_Executable env _) as [self [e|]].
  { eexists _, [_; _]. rewrite <- ?app_assoc. split; [reflexivity|].
    left. exists ns, self, "", "", e. auto. }
  destruct (os_Getwd env _) as [cwd [e|]].
  { eexists _, [_; _; _]. rewrite <- ?app_assoc. split; [reflexivity|].
    left. exists ns, self, cwd, "", e. auto. }
  rewrite <- ?app_assoc. cbn [app].
  destruct (shim_SocketAddress env id _) as [address [e|]].
  { eexists _, [_; _; _; _]. rewrite <- ?app_assoc. split; [reflexivity|].
    left. exists ns, self, cwd, address, e. auto 6. }
  rewrite <- ?app_assoc. cbn [app].
  destruct (shim_NewSocket env address _) as [e|].
  { eexists _, [_; _; _; _; _]. rewrite <- ?app_assoc. split; [reflexivity|].
    left. exists ns, self, cwd, address, e. auto 7. }
  rewrite <- ?app_assoc. cbn [app].
  destruct (socket_File env _) as [f [e|]].
  { eexists _, [_; _; _; _; _; _; _]. rewrite <- ?app_assoc.
    split; [reflexivity|].
    right; left. exists ns, self, cwd, address, f, e. split; reflexivity. }
  rewrite <- ?app_assoc. cbn [app].
  match goal with |- context [cmd_Start env ?c ?t] =>
    destruct (cmd_Start env c t) as [pid [e|]] end.
  { eexists _, [_; _; _; _; _; _; _; _; _]. rewrite <- ?app_assoc.
    split; [reflexivity|].
    right; right. exists ns, self, cwd, address, f, pid.
    left. exists e. split; reflexivity. }
  rewrite <- ?app_assoc. cbn [app].
  destruct (shim_WritePidFile env "shim.pid" pid _) as [e|].
  { eexists _, (_ :: _ :: _ :: _ :: _ :: _ :: _ :: _ :: _ :: _ :: [_]).
    rewrite <- ?app_assoc. split; [reflexivity|].
    right; right. exists ns, self, cwd, address, f, pid.
    right; left. exists e. split; reflexivity. }
  rewrite <- ?app_assoc. cbn [app].
  destruct (shim_WriteAddress env "address" address _) as [e|].
  { eexists _, (_ :: _ :: _ :: _ :: _ :: _ :: _ :: _ :: _ :: _ :: _ :: [_]).
    rewrite <- ?app_assoc. split; [reflexivity|].
    right; right. exists ns, self, cwd, address, f, pid.
    right; right; left. exists e. split; reflexivity. }
  rewrite <- ?app_assoc. cbn [app].
  destruct (shim_SetScore env pid _) as [e|].
  { eexists _, (_ :: _ :: _ :: _ :: _ :: _ :: _ :: _ :: _ :: _ :: _ :: _ :: [_]).
    rewrite <- ?app_assoc. split; [reflexivity|].
    right; right. exists ns, self, cwd, address, f, pid.
    right; right; right; left. exists e. split; reflexivity. }
  eexists _, (_ :: _ :: _ :: _ :: _ :: _ :: _ :: _ :: _ :: _ :: _ :: _ :: [_]).
  rewrite <- ?app_assoc. split; [reflexivity|].
  right; right. exists ns, self, cwd, address, f, pid.
  right; right; right; right. split; reflexivity.
Qed.

(** X10.  [StartShim] never kills the child it has started.  The
    deferred function reads the [err] of the function body, which is nil
    once [socket.File()] has succeeded, while every later step keeps its
    error in an [err] of its own.  So when writing the pid file, writing
    the address or setting the OOM score fails after the child was
    started, the error is returned, the socket file and the socket are
    closed, and the child keeps running. *)
Theorem StartShim_never_kills_child (s : Shim.service)
    (id containerdBinary containerdAddress : string) (w : World) :
  exists (out : outcome (string * option error)) (new : list event),
    StartShim env s id containerdBinary containerdAddress w = (out, w ++ new)
    /\ List.filter is_ProcessKill new = []
    /\ (forall cmd pid e,
          In (EvCmdStart cmd (pid, None)) new ->
          out = Returned ("", Some e) ->
          exists pre step f,
            new = pre ++ [step; EvFileClose f; EvSocketClose]
            /\ (step = EvWritePidFile "shim.pid" pid (Some e)
                \/ (exists a, step = EvWriteAddress "address" a (Some e))
                \/ (exists e',
                      step = EvSetScore pid (Some e')
                      /\ e = errors_Wrap e'
                               "failed to set OOM Score on shim"))).
Proof.
  destruct (StartShim_spec s id containerdBinary containerdAddress w)
    as (out & new & Hrun & Hcases).
  exists out, new. split; [exact Hrun|].
  destruct Hcases as [(ns & self & cwd & address & e & Hout & Hnew)
    | [(ns & self & cwd & address & f & e & Hout & Hnew)
    | (ns & self & cwd & address & f & pid & Hcases)]].
  - destruct Hnew as [-> | [-> | [-> | [-> | ->]]]];
      (split; [reflexivity|]); intros cmd pid e' Hin; simpl in Hin;
      intuition discriminate.
  - subst new. split; [reflexivity|]. intros cmd pid e' Hin; simpl in Hin.
    intuition discriminate.
  - cbv zeta in Hcases.
    destruct Hcases as [(e & -> & ->) | [(e & -> & ->) | [(e & -> & ->)
                        | [(e & -> & ->) | (-> & ->)]]]];
      (split; [reflexivity|]); intros cmd pid' e' Hin Hout; simpl in Hin.
    + intuition discriminate.
    + assert (pid' = pid /\ e' = e) as [-> ->].
      { inversion Hout; subst.
        repeat (destruct Hin as [Hin|Hin]; try discriminate);
          try contradiction. inversion Hin; auto. }
      eexists (started_prefix _ _ _ _ _ _ _ _), _, f.
      split; [reflexivity|]. left. reflexivity.
    + assert (pid' = pid /\ e' = e) as [-> ->].
      { inversion Hout; subst.
        repeat (destruct Hin as [Hin|Hin]; try discriminate);
          try contradiction. inversion Hin; auto. }
      eexists (started_prefix _ _ _ _ _ _ _ _ ++ [_]), _, f.
      split; [rewrite <- app_assoc; reflexivity|]. right; left. eauto.
    + assert (pid' = pid /\ e' = errors_Wrap e "failed to set OOM Score on shim")
        as [-> ->].
      { inversion Hout; subst.
        repeat (destruct Hin as [Hin|Hin]; try discriminate);
          try contradiction. inversion Hin; auto. }
      eexists (started_prefix _ _ _ _ _ _ _ _ ++ [_; _]), _, f.
      split; [rewrite <- app_assoc; reflexivity|]. right; right. eauto.
    + discriminate.
Qed.

(** X11.  A [StartShim] that succeeds has made these calls in this
    order: namespace, executable and working directory for the command,
    socket address, socket, socket file, start of the child, pid file
    [shim.pid], file [address], OOM score, and then it has closed the
    file and the socket.  The child is the shim's own executable, run in
    the working directory with [-namespace], [-address] and
    [-publish-binary], with [-debug] when the configuration asks for it,
    in its own process group, with [GOMAXPROCS=2] added to the
    environment and the socket file as its only extra file.  The address
    returned is the one written. *)
Theorem StartShim_success (s : Shim.service)
    (id containerdBinary containerdAddress : string) (w w' : World)
    (address : string) :
  StartShim env s id containerdBinary containerdAddress w
  = (Returned (address, None), w') ->
  exists ns self cwd f pid,
    let cmd := shim_cmd self cwd ns containerdAddress containerdBinary
                        (Shim.cfg_Debug (Shim.config s))
                        (os_Environ env
                           (w ++ [EvNamespaceRequired (ns, None);
                                  EvExecutable (self, None);
                                  EvGetwd (cwd, None)]))
                        f in
    w' = w ++ [EvNamespaceRequired (ns, None); EvExecutable (self, None);
               EvGetwd (cwd, None); EvSocketAddress id (address, None);
               EvNewSocket address None; EvSocketFile (f, None);
               EvCmdStart cmd (pid, None); EvGoWait;
               EvWritePidFile "shim.pid" pid None;
               EvWriteAddress "address" address None;
               EvSetScore pid None;
               EvFileClose f; EvSocketClose].
Proof.
  intros Hok.
  destruct (StartShim_spec s id containerdBinary containerdAddress w)
    as (out & new & Hrun & Hcases).
  rewrite Hrun in Hok. inversion Hok; subst out w'; clear Hok.
  destruct Hcases as [(ns & self & cwd & a & e & Hout & Hnew)
    | [(ns & self & cwd & a & f & e & Hout & Hnew)
    | (ns & self & cwd & a & f & pid & Hcases)]]; try discriminate.
  cbv zeta in Hcases.
  destruct Hcases as [(e & _ & Hout) | [(e & _ & Hout) | [(e & _ & Hout)
                      | [(e & _ & Hout) | (Hnew & Hout)]]]]; try discriminate.
  inversion Hout; subst a. exists ns, self, cwd, f, pid. cbv zeta.
  rewrite Hnew. reflexivity.
Qed.

(** X12.  [StartShim] closes what it opened, in reverse order, on
    every path: once [socket.File()] has succeeded the run ends with the
    close of that file and then of the socket, and nothing was closed
    before; once [shim.NewSocket] has succeeded the run ends with the
    close of the socket; and a run that made no socket closes nothing. *)
Theorem StartShim_closes_socket_and_file (s : Shim.service)
    (id containerdBinary containerdAddress : string) (w : World) :
  exists (out : outcome (string * option error)) (new : list event),
    StartShim env s id containerdBinary containerdAddress w = (out, w ++ new)
    /\ (forall f, In (EvSocketFile (f, None)) new ->
          exists pre, new = pre ++ [EvFileClose f; EvSocketClose]
                      /\ List.filter is_close pre = [])
    /\ (forall a, In (EvNewSocket a None) new ->
          exists pre, new = pre ++ [EvSocketClose]
                      /\ (length (List.filter is_close pre) <= 1)%nat)
    /\ ((forall a, ~ In (EvNewSocket a None) new) ->
        List.filter is_close new = []).
Proof.
  destruct (StartShim_spec s id containerdBinary containerdAddress w)
    as (out & new & Hrun & Hcases).
  exists out, new. split; [exact Hrun|].
  destruct Hcases as [(ns & self & cwd & address & e & Hout & Hnew)
    | [(ns & self & cwd & address & f & e & Hout & Hnew)
    | (ns & self & cwd & address & f & pid & Hcases)]].
  - destruct Hnew as [-> | [-> | [-> | [-> | ->]]]];
      (split; [intros ? Hin; simpl in Hin; intuition discriminate|]);
      (split; [intros ? Hin; simpl in Hin; intuition discriminate|]);
      reflexivity.
  - subst new.
    split; [intros ? Hin; simpl in Hin; intuition discriminate|].
    split.
    + intros a _. eexists (socket_prefix _ _ _ _ _ ++ [_]).
      split; [rewrite <- app_assoc; reflexivity|]. simpl. lia.
    + intros Hno. exfalso. apply (Hno address). simpl. auto 6.
  - cbv zeta in Hcases.
    assert (Hfile : forall f' l,
              In (EvSocketFile (f', None))
                 (socket_prefix id ns self cwd address
                  ++ EvSocketFile (f, None) :: l) ->
              (forall x, In x l -> match x with
                                   | EvSocketFile _ => False
                                   | _ => True
                                   end) ->
              f' = f).
    { intros f' l Hin Hl. simpl in Hin.
      repeat (destruct Hin as [Hin|Hin]; try discriminate).
      - inversion Hin; reflexivity.
      - specialize (Hl _ Hin). contradiction. }
    destruct Hcases as [(e & -> & ->) | [(e & -> & ->) | [(e & -> & ->)
                        | [(e & -> & ->) | (-> & ->)]]]].
    all: split;
      [intros f' Hin;
       assert (f' = f) as ->
         by (apply (Hfile f' _ Hin); intros x Hx; simpl in Hx;
             repeat (destruct Hx as [Hx|Hx]; [subst x; exact I|]);
             contradiction)
      |].
    all: try (split; [|intros Hno; exfalso; apply (Hno address); simpl; auto 6]).
    all: try (intros a _).
    + eexists (socket_prefix _ _ _ _ _ ++ [_; _]).
      split; [rewrite <- app_assoc; reflexivity|reflexivity].
    + eexists (socket_prefix _ _ _ _ _ ++ [_; _; _]).
      split; [rewrite <- app_assoc; reflexivity|]. simpl. lia.
    + eexists (started_prefix _ _ _ _ _ _ _ _ ++ [_]).
      split; [rewrite <- app_assoc; reflexivity|reflexivity].
    + eexists (started_prefix _ _ _ _ _ _ _ _ ++ [_; _]).
      split; [rewrite <- app_assoc; reflexivity|]. simpl. lia.
    + eexists (started_prefix _ _ _ _ _ _ _ _ ++ [_; _]).
      split; [rewrite <- app_assoc; reflexivity|reflexivity].
    + eexists (started_prefix _ _ _ _ _ _ _ _ ++ [_; _; _]).
      split; [rewrite <- app_assoc; reflexivity|]. simpl. lia.
    + eexists (started_prefix _ _ _ _ _ _ _ _ ++ [_; _; _]).
      split; [rewrite <- app_assoc; reflexivity|reflexivity].
    + eexists (started_prefix _ _ _ _ _ _ _ _ ++ [_; _; _; _]).
      split; [rewrite <- app_assoc; reflexivity|]. simpl. lia.
    + eexists (started_prefix _ _ _ _ _ _ _ _ ++ [_; _; _]).
      split; [rewrite <- app_assoc; reflexivity|reflexivity].
    + eexists (started_prefix _ _ _ _ _ _ _ _ ++ [_; _; _; _]).
      split; [rewrite <- app_assoc; reflexivity|]. simpl. lia.
Qed.

End WithEnv.

(** ** Runs on concrete environments *)

(** Witness of X11. *)
Lemma StartShim_success_witness :
  StartShim ShimStartEx.env_ok ShimEx.s_fresh "c1" "/usr/bin/containerd"
            "/run/containerd/containerd.sock" []
  = (Returned ("/run/containerd/s/c1", None),
     [EvNamespaceRequired ("default", None);
      EvExecutable ("/usr/bin/containerd-shim-aws-firecracker", None);
      EvGetwd ("/run/bundle", None);
      EvSocketAddress "c1" ("/run/containerd/s/c1", None);
      EvNewSocket "/run/containerd/s/c1" None;
      EvSocketFile (5, None);
      EvCmdStart ShimStartEx.cmd0 (4242, None);
      EvGoWait;
      EvWritePidFile "shim.pid" 4242 None;
      EvWriteAddress "address" "/run/containerd/s/c1" None;
      EvSetScore 4242 None;
      EvFileClose 5;
      EvSocketClose]).
Proof.
  assert (H : StartShim ShimStartEx.env_ok ShimEx.s_fresh "c1"
                "/usr/bin/containerd" "/run/containerd/containerd.sock" []
              = (Returned ("/run/containerd/s/c1", None),
                 snd (StartShim ShimStartEx.env_ok ShimEx.s_fresh "c1"
                        "/usr/bin/containerd"
                        "/run/containerd/containerd.sock" [])))
    by (vm_compute; reflexivity).
  destruct (StartShim_success ShimStartEx.env_ok ShimEx.s_fresh "c1"
              "/usr/bin/containerd" "/run/containerd/containerd.sock" [] _ _ H)
    as (ns & self & cwd & f & pid & Hw).
  rewrite H. vm_compute. reflexivity.
Defined.

(** The child is started and the pid file cannot be written: [StartShim]
    returns the error, closes the file and the socket, and does not kill
    the child. *)
Lemma StartShim_leaves_child_example :
  StartShim ShimStartEx.env_pidfile_fails ShimEx.s_fresh "c1"
            "/usr/bin/containerd" "/run/containerd/containerd.sock" []
  = (Returned ("", Some (errors_New "boom")),
     [EvNamespaceRequired ("default", None);
      EvExecutable ("/usr/bin/containerd-shim-aws-firecracker", None);
      EvGetwd ("/run/bundle", None);
      EvSocketAddress "c1" ("/run/containerd/s/c1", None);
      EvNewSocket "/run/containerd/s/c1" None;
      EvSocketFile (5, None);
      EvCmdStart ShimStartEx.cmd0 (4242, None);
      EvGoWait;
      EvWritePidFile "shim.pid" 4242 (Some (errors_New "boom"));
      EvFileClose 5;
      EvSocketClose]).
Proof. vm_compute. reflexivity. Qed.

End ShimStartFacts.

(** * More of the snapshotter *)

Module SnapMore.
Import Snap SnapEx SnapSpec SnapMoreSpec SnapMoreEx.

Section WithEnv.
Context (env : Env).

(** X13.  How [withTransaction] ends the transaction it opened and
    what it reports.  After a callback that returned, exactly one of
    [Commit] and [Rollback] is called: [Commit] when the transaction is
    writable and the callback returned nil, [Rollback] otherwise.  A
    single error is returned as it is, the callback's own or the other
    wrapped as [commit failed] or [rollback failed]; both together come
    as one multierror.  The database changes only by a commit that
    succeeded.  The premise excludes a callback error that is itself a
    [*multierror.Error]. *)
Theorem withTransaction_reports_errors {A} (writable : bool) (captured : A)
    (fn : M World (A * option error)) (w w2 : World) (x : A)
    (err : option error) :
  store_Begin env writable (trace w) = None ->
  fn (tx_opened writable w) = (Returned (x, err), w2) ->
  (forall e, err = Some e -> flatten e = [e]) ->
  let commits := is_nil err && writable in
  exists (terr : option error) (new : list event) (w3 : World),
    Snapshotter.withTransaction env writable captured fn w
    = (Returned (x, reported err terr (if commits then "commit failed"
                                       else "rollback failed")),
       w3)
    /\ trace w3 = trace w2 ++ new
    /\ calls new = [if commits then EvCommit terr else EvRollback terr]
    /\ tx w3 = None
    /\ (commits = false \/ is_Some terr -> db w3 = db w2).
Proof.
  intros Hb Hfn Herr commits.
  pose proof (SnapFacts.withTransaction_spec env writable captured fn w) as H.
  rewrite Hb, Hfn in H. cbv zeta in H.
  destruct H as (terr & new & w3 & Hrun & Htr & _ & Htx & Hcalls & Hdb).
  exists terr, new, w3.
  assert (Hc : negb (is_nil err) || negb writable = negb commits)
    by (unfold commits; destruct err, writable; reflexivity).
  rewrite Hc in *.
  split.
  { rewrite Hrun. f_equal. f_equal.
    unfold tx_error, reported.
    destruct err as [e|].
    - cbn. unfold multierror_Append. fold (flatten e).
      rewrite (Herr e eq_refl). destruct terr; reflexivity.
    - destruct commits, terr; reflexivity. }
  split; [exact Htr|].
  split; [destruct commits; exact Hcalls|]. split; [exact Htx|].
  intros [Hf|[te ->]].
  - rewrite Hf in Hdb. exact Hdb.
  - destruct commits; exact Hdb.
Qed.

(** ** [createSnapshot], [Prepare], [View] *)

Lemma storage_CreateSnapshot_pure_error d kind key parent d' snap e :
  storage_CreateSnapshot_pure d kind key parent = (d', (snap, Some e)) ->
  d' = d /\ snap = zero_Snapshot /\ flatten e = [e].
Proof.
  unfold storage_CreateSnapshot_pure.
  destruct kind; try (intros H; inversion H; subst; auto; fail);
    (destruct (String.eqb parent "");
     [|destruct (records d !! parent) as [p|];
       [destruct (Kind_eqb (rec_kind p) KindCommitted)|]];
     try (intros H; inversion H; subst; auto; fail);
     destruct (records d !! key);
     intros H; inversion H; subst; auto).
Qed.

Lemma storage_CreateSnapshot_pure_ok d kind key parent d' snap :
  storage_CreateSnapshot_pure d kind key parent = (d', (snap, None)) ->
  exists r,
    records d' !! key = Some r
    /\ snapshot_of r = snap
    /\ rec_kind r = kind
    /\ (kind = KindActive \/ kind = KindView)
    /\ records d !! key = None
    /\ records d' = <[key := r]> (records d).
Proof.
  unfold storage_CreateSnapshot_pure.
  destruct kind; try (intros H; inversion H; fail);
    (destruct (String.eqb parent "");
     [|destruct (records d !! parent) as [p|];
       [destruct (Kind_eqb (rec_kind p) KindCommitted)|]];
     try (intros H; inversion H; fail);
     destruct (records d !! key) eqn:Hk;
     intros H; inversion H; subst; clear H;
     eexists; cbn [records];
     (split; [apply lookup_insert_eq|]); (split; [reflexivity|]);
     (split; [reflexivity|]); (split; [auto|]); split; reflexivity).
Qed.

(** Every way the callback of [Prepare] and [View] can run inside a
    writable transaction. *)
Lemma createSnapshot_spec (dm : Snapshotter.Snapshotter) (kind : Kind)
    (key parent : string) (w1 : World) (d : DB) :
  tx w1 = Some (true, d) ->
  let created := storage_CreateSnapshot_pure d kind key parent in
  let snap := fst (snd created) in
  exists (ms : option (list Mount)) (err : option error) (body : list event),
    Snapshotter.createSnapshot env dm kind key parent w1
    = (Returned (ms, err),
       mkWorld (trace w1 ++ EvCreateSnapshot kind key parent (snd created)
                            :: body)
               (db w1) (Some (true, fst created)) (closeOnce w1))
    /\ List.filter is_RemoveDevice body = []
    /\ match snd (snd created) with
       | Some e => body = [] /\ ms = None /\ err = Some e
       | None =>
           device_steps env (Snapshotter.config dm) snap (calls body) ms err
       end.
Proof.
  intros Htx created snap.
  unfold Snapshotter.createSnapshot, storage_CreateSnapshot, mkfs, get_tx,
    set_tx, log, emit, ask.
  go_unfold. rewrite Htx. subst snap created. unfold device_steps.
  destruct (storage_CreateSnapshot_pure d kind key parent)
    as [d' [snap [se|]]] eqn:Hpure; cbn [trace db tx closeOnce fst snd].
  { eexists _, _, []. split; [reflexivity|]. split; [reflexivity|]. auto. }
  destruct (ParentIDs snap) as [|pid pids]; cbn [trace db tx closeOnce].
  - match goal with |- context [pool_CreateThinDevice env ?n ?z ?t] =>
      destruct (pool_CreateThinDevice env n z t) as [did [ce|]] end;
      cbn [trace db tx closeOnce fst snd]; rewrite <- ?app_assoc; cbn [app].
    { eexists _, _, [_; _; _]. split; [reflexivity|]. split; [reflexivity|].
      left. eauto. }
    match goal with |- context [exec_mkfs env ?a ?t] =>
      destruct (exec_mkfs env a t) as [output [me|]] end;
      cbn [trace db tx closeOnce fst snd]; rewrite <- ?app_assoc; cbn [app].
    { eexists _, _, [_; _; _; _; _]. split; [reflexivity|].
      split; [reflexivity|]. right; left. eauto. }
    eexists _, _, [_; _; _; _; _; _]. split; [reflexivity|].
    split; [reflexivity|]. right; right. eauto.
  - match goal with |- context [pool_CreateSnapshotDevice env ?p ?n ?z ?t] =>
      destruct (pool_CreateSnapshotDevice env p n z t) as [did [ce|]] end;
      cbn [trace db tx closeOnce fst snd]; rewrite <- ?app_assoc; cbn [app].
    { eexists _, _, [_; _; _]. split; [reflexivity|]. split; [reflexivity|].
      left. eauto. }
    eexists _, _, [_; _; _]. split; [reflexivity|]. split; [reflexivity|].
    right. eauto.
Qed.

Lemma snap_calls_app (a b : list event) : calls (a ++ b) = calls a ++ calls b.
Proof. apply List.filter_app. Qed.

Lemma snap_filter_calls (f : event -> bool) (tr : list event) :
  (forall e, is_log e = true -> f e = false) ->
  List.filter f (calls tr) = List.filter f tr.
Proof.
  intros Hf. induction tr as [|x tr IH]; [reflexivity|].
  unfold calls in *. simpl. destruct (is_log x) eqn:Hx; simpl.
  - rewrite (Hf x Hx). exact IH.
  - destruct (f x); rewrite IH; reflexivity.
Qed.

Lemma device_steps_result config snap body ms err :
  device_steps env config snap body ms err ->
  (err = None -> ms = Some (buildMounts env config snap))
  /\ (is_Some err -> ms = None).
Proof.
  unfold device_steps. destruct (ParentIDs snap) as [|pid pids].
  - intros [(e & _ & -> & ->) | [(out & e & _ & -> & ->)
                                | (out & merr & _ & -> & ->)]];
      (split; [try discriminate; auto
              |try (intros [? ?]; discriminate); auto]).
  - intros [(e & _ & -> & ->) | (merr & _ & -> & ->)];
      (split; [try discriminate; auto
              |try (intros [? ?]; discriminate); auto]).
Qed.

Lemma create_in_transaction_spec (dm : Snapshotter.Snapshotter) (kind : Kind)
    (key parent : string) (w0 : World) :
  let created := storage_CreateSnapshot_pure (db w0) kind key parent in
  let snap := fst (snd created) in
  let mounts := buildMounts env (Snapshotter.config dm) snap in
  exists (ms : option (list Mount)) (err : option error) (new : list event)
         (w' : World),
    Snapshotter.withTransaction env true None
      (Snapshotter.createSnapshot env dm kind key parent) w0
    = (Returned (ms, err), w')
    /\ trace w' = trace w0 ++ new
    /\ closeOnce w' = closeOnce w0
    /\ List.filter is_RemoveDevice new = []
    /\ ((exists e,
           calls new = [EvBegin true (Some e)]
           /\ ms = None /\ err = Some e /\ db w' = db w0 /\ tx w' = tx w0)
        \/ (exists (body : list event) (cerr : option error) (terr : option error),
              calls new
              = EvBegin true None
                :: EvCreateSnapshot kind key parent (snd created)
                :: body ++ [if is_nil cerr then EvCommit terr
                            else EvRollback terr]
              /\ tx w' = None
              /\ match snd (snd created) with
                 | Some e => body = [] /\ cerr = Some e
                 | None =>
                     device_steps env (Snapshotter.config dm) snap body ms cerr
                 end
              /\ match cerr with
                 | Some e =>
                     ms = None /\ db w' = db w0
                     /\ err = tx_error (Some e) terr "rollback failed"
                 | None =>
                     ms = Some mounts
                     /\ err = option_map
                                (fun te => errors_Wrap te "commit failed") terr
                     /\ db w' = (if is_nil terr then fst created else db w0)
                 end)).
Proof.
  intros created snap mounts.
  pose proof (SnapFacts.withTransaction_spec env true None
                (Snapshotter.createSnapshot env dm kind key parent) w0) as Hwt.
  destruct (store_Begin env true (trace w0)) as [be|] eqn:Hb.
  { rewrite Hwt. eexists _, _, [_], _. split; [reflexivity|].
    cbn [trace closeOnce db tx]. split; [reflexivity|]. split; [reflexivity|].
    split; [reflexivity|]. left. exists be. auto. }
  destruct (createSnapshot_spec dm kind key parent (tx_opened true w0) (db w0)
              eq_refl)
    as (ms & err & body & Hrun & Hnorm & Hshape).
  cbv zeta in Hrun, Hshape. fold created in Hrun, Hshape.
  fold snap in Hshape.
  rewrite Hrun in Hwt. cbv zeta in Hwt.
  destruct Hwt as (terr & cnew & w3 & Hrun' & Htr & Honce & Htx & Hcalls & Hdb).
  cbn [trace db tx closeOnce tx_opened] in *.
  exists ms, (tx_error err terr
                (if negb (is_nil err) || negb true then "rollback failed"
                 else "commit failed")),
    (EvBegin true None :: EvCreateSnapshot kind key parent (snd created)
       :: body ++ cnew), w3.
  split; [exact Hrun'|].
  split; [rewrite Htr, <- !app_assoc; reflexivity|].
  split; [exact Honce|].
  split.
  { cbn [List.filter is_RemoveDevice]. rewrite List.filter_app, Hnorm.
    rewrite <- (snap_filter_calls is_RemoveDevice cnew)
      by (intros e He; destruct e; simpl in *; congruence).
    rewrite Hcalls. destruct (negb (is_nil err) || negb true); reflexivity. }
  right. exists (calls body), err, terr.
  split.
  { unfold calls at 1. cbn [List.filter is_log negb].
    fold (calls (body ++ cnew)). rewrite snap_calls_app, Hcalls.
    destruct err; reflexivity. }
  split; [exact Htx|].
  assert (Hres : (err = None -> ms = Some mounts) /\ (is_Some err -> ms = None)).
  { destruct (snd (snd created)) as [ce|].
    - destruct Hshape as (_ & -> & ->). split; [discriminate|reflexivity].
    - exact (device_steps_result _ _ _ _ _ Hshape). }
  split.
  { destruct (snd (snd created)) as [ce|]; [|exact Hshape].
    destruct Hshape as (-> & _ & ->). split; reflexivity. }
  destruct Hres as [Hok Hfail].
  destruct err as [e|]; cbn [negb is_nil orb] in *.
  - split; [apply Hfail; eauto|]. split; [exact Hdb|reflexivity].
  - split; [apply Hok; reflexivity|]. split.
    + destruct terr; reflexivity.
    + rewrite Hdb. destruct terr; reflexivity.
Qed.

Lemma Prepare_unfold (dm : Snapshotter.Snapshotter) (key parent : string)
    (w : World) :
  Snapshotter.Prepare env dm key parent w
  = Snapshotter.withTransaction env true None
      (Snapshotter.createSnapshot env dm KindActive key parent)
      (mkWorld (trace w ++ [EvLog Debug "prepare" None]) (db w) (tx w)
               (closeOnce w)).
Proof. reflexivity. Qed.

Lemma View_unfold (dm : Snapshotter.Snapshotter) (key parent : string)
    (w : World) :
  Snapshotter.View env dm key parent w
  = Snapshotter.withTransaction env true None
      (Snapshotter.createSnapshot env dm KindView key parent)
      (mkWorld (trace w ++ [EvLog Debug "prepare" None]) (db w) (tx w)
               (closeOnce w)).
Proof. reflexivity. Qed.

(** X14.  [Prepare] and [View] of the later revision run in one
    writable transaction and never remove a device.  The record is
    created first, and nothing touches the pool when that fails.  Then
    come the device steps: a snapshot without parent gets a new thin
    device, which is formatted; a snapshot with parents gets a thin
    snapshot of its first parent's device.  When a step fails the
    transaction is rolled back, the database is what it was, and the
    device made so far stays.  The result of the temporary mount is
    ignored.  Otherwise the transaction is committed; when the commit
    fails the mounts are returned together with the wrapped error and
    the database is unchanged. *)
Theorem Prepare_and_View_are_transactional (dm : Snapshotter.Snapshotter)
    (kind : Kind)
    (op : string -> string -> M World (option (list Mount) * option error))
    (key parent : string) (w : World) :
  (kind = KindActive /\ op = Snapshotter.Prepare env dm)
  \/ (kind = KindView /\ op = Snapshotter.View env dm) ->
  let created := storage_CreateSnapshot_pure (db w) kind key parent in
  let snap := fst (snd created) in
  let mounts := buildMounts env (Snapshotter.config dm) snap in
  exists (ms : option (list Mount)) (err : option error) (new : list event)
         (w' : World),
    op key parent w = (Returned (ms, err), w')
    /\ trace w' = trace w ++ new
    /\ List.filter is_RemoveDevice new = []
    /\ ((exists e,
           calls new = [EvBegin true (Some e)]
           /\ ms = None /\ err = Some e /\ db w' = db w)
        \/ (exists (body : list event) (cerr : option error) (terr : option error),
              calls new
              = EvBegin true None
                :: EvCreateSnapshot kind key parent (snd created)
                :: body ++ [if is_nil cerr then EvCommit terr
                            else EvRollback terr]
              /\ tx w' = None
              /\ match snd (snd created) with
                 | Some e => body = [] /\ cerr = Some e
                 | None =>
                     device_steps env (Snapshotter.config dm) snap body ms cerr
                 end
              /\ match cerr with
                 | Some e =>
                     ms = None /\ db w' = db w
                     /\ err = tx_error (Some e) terr "rollback failed"
                 | None =>
                     ms = Some mounts
                     /\ err = option_map
                                (fun te => errors_Wrap te "commit failed") terr
                     /\ db w' = (if is_nil terr then fst created else db w)
                 end)).
Proof.
  intros Hop created snap mounts.
  set (w0 := mkWorld (trace w ++ [EvLog Debug "prepare" None]) (db w) (tx w)
                     (closeOnce w)).
  destruct (create_in_transaction_spec dm kind key parent w0)
    as (ms & err & new & w' & Hrun & Htr & _ & Hnorm & Hcases).
  cbv zeta in Hcases. cbn [db w0] in Hcases.
  fold created in Hcases. fold snap in Hcases. fold mounts in Hcases.
  exists ms, err, (EvLog Debug "prepare" None :: new), w'.
  split.
  { destruct Hop as [[-> ->] | [-> ->]];
      [rewrite Prepare_unfold | rewrite View_unfold]; exact Hrun. }
  split; [rewrite Htr; unfold w0; cbn [trace]; rewrite <- app_assoc;
          reflexivity|].
  split; [exact Hnorm|].
  destruct Hcases as [(e & H1 & H2 & H3 & H4 & _) | Hcases].
  - left. exists e. auto.
  - right. exact Hcases.
Qed.

(** X15.  After a [Prepare] or a [View] that returned mounts and no
    error, [Mounts] of the same key returns the same mounts, provided
    its read transaction opens: one ext4 mount on the snapshot's device,
    writable for [Prepare] and read-only for [View]. *)
Theorem Prepare_then_Mounts (dm : Snapshotter.Snapshotter) (kind : Kind)
    (op : string -> string -> M World (option (list Mount) * option error))
    (key parent : string) (w w1 : World) (l : list Mount) :
  (kind = KindActive /\ op = Snapshotter.Prepare env dm)
  \/ (kind = KindView /\ op = Snapshotter.View env dm) ->
  op key parent w = (Returned (Some l, None), w1) ->
  store_Begin env false (trace w1 ++ [EvLog Debug "mounts" None]) = None ->
  fst (Snapshotter.Mounts env dm key w1) = Returned (Some l, None)
  /\ exists id,
       l = [mkMount (GetFullDevicePath env
                       (getDeviceName (Snapshotter.config dm) id))
                    "ext4"
                    (match kind with KindActive => [] | _ => ["ro"] end)].
Proof.
  intros Hop Hrun Hb.
  set (w0 := mkWorld (trace w ++ [EvLog Debug "prepare" None]) (db w) (tx w)
                     (closeOnce w)).
  destruct (create_in_transaction_spec dm kind key parent w0)
    as (ms & err & new & w' & Hrun' & _ & _ & _ & Hcases).
  assert (Hrun2 : op key parent w = (Returned (ms, err), w')).
  { destruct Hop as [[-> ->] | [-> ->]];
      [rewrite Prepare_unfold | rewrite View_unfold]; exact Hrun'. }
  rewrite Hrun in Hrun2. inversion Hrun2; subst ms err w'; clear Hrun2.
  cbv zeta in Hcases. cbn [db w0] in Hcases.
  destruct Hcases as [(e & _ & Hms & _) | (body & cerr & terr & _ & _ & Hsh & Hc)];
    [discriminate|].
  destruct cerr as [e|]; [destruct Hc as [Hms _]; discriminate|].
  destruct Hc as (Hms & Herr & Hdb).
  destruct terr as [te|]; [discriminate|]. cbn [is_nil] in Hdb.
  destruct (storage_CreateSnapshot_pure (db w) kind key parent)
    as [d' [snap ce]] eqn:Hpure.
  cbn [fst snd] in *.
  destruct ce as [ce|]; [destruct Hsh as [_ Hsh]; discriminate|].
  destruct (storage_CreateSnapshot_pure_ok _ _ _ _ _ _ Hpure)
    as (r & Hr & Hsnap & Hkind & Hk & _).
  inversion Hms; subst l; clear Hms.
  destruct (SnapFacts.Mounts_spec env dm key w1) as (w2 & Hm & _).
  cbv zeta in Hm. rewrite Hb in Hm. rewrite Hm. cbn [fst].
  unfold storage_GetSnapshot_pure. rewrite Hdb, Hr.
  assert (Hfetch : (match rec_kind r with
                    | KindActive | KindView => (snapshot_of r, @None error)
                    | _ => (zero_Snapshot,
                            Some (errors_Wrap (errdefs ErrFailedPrecondition)
                                    "requested snapshot not active or view"))
                    end) = (snap, None)).
  { rewrite Hkind, Hsnap. destruct Hk as [-> | ->]; reflexivity. }
  rewrite Hfetch. split; [reflexivity|].
  exists (snap_ID snap). unfold buildMounts, getDevicePath.
  rewrite <- Hsnap. cbn [snapshot_of snap_Kind snap_ID]. rewrite Hkind.
  destruct Hk as [-> | ->]; reflexivity.
Qed.

(** X16.  After a [Prepare] or a [View] that returned mounts and no
    error, [Remove] of the same key, when no snapshot was made on top of
    it and the transaction opens, asks the pool to remove, deferred,
    exactly the device the mounts point to.  When removal and commit
    succeed [Remove] returns nil and the records are those from before
    [Prepare]. *)
Theorem Remove_removes_prepared_device (dm : Snapshotter.Snapshotter)
    (kind : Kind)
    (op : string -> string -> M World (option (list Mount) * option error))
    (key parent : string) (w w1 : World) (l : list Mount) :
  (kind = KindActive /\ op = Snapshotter.Prepare env dm)
  \/ (kind = KindView /\ op = Snapshotter.View env dm) ->
  op key parent w = (Returned (Some l, None), w1) ->
  has_child (db w1) key = false ->
  store_Begin env true (trace w1 ++ [EvLog Debug "remove" None]) = None ->
  exists (name : string) (removed : string * snapshots_Info)
         (derr cerr out : option error) (new : list event) (w2 : World),
    Snapshotter.Remove env dm key w1 = (Returned out, w2)
    /\ trace w2 = trace w1 ++ new
    /\ calls new
       = [EvBegin true None;
          EvStorageRemove key (removed, None);
          EvRemoveDevice name (Some true) derr;
          if is_nil derr then EvCommit cerr else EvRollback cerr]
    /\ map Source l = [GetFullDevicePath env name]
    /\ (derr = None -> cerr = None ->
        out = None /\ records (db w2) = records (db w)).
Proof.
  intros Hop Hrun Hchild Hb.
  (* what [Prepare] left behind *)
  set (w0 := mkWorld (trace w ++ [EvLog Debug "prepare" None]) (db w) (tx w)
                     (closeOnce w)).
  destruct (create_in_transaction_spec dm kind key parent w0)
    as (ms & err & new & w' & Hrun' & _ & _ & _ & Hcases).
  assert (Hrun2 : op key parent w = (Returned (ms, err), w')).
  { destruct Hop as [[-> ->] | [-> ->]];
      [rewrite Prepare_unfold | rewrite View_unfold]; exact Hrun'. }
  rewrite Hrun in Hrun2. inversion Hrun2; subst ms err w'; clear Hrun2.
  cbv zeta in Hcases. cbn [db w0] in Hcases.
  destruct Hcases as [(e & _ & Hms & _) | (body & cerr & terr & _ & Htx & Hsh & Hc)];
    [discriminate|].
  destruct cerr as [e|]; [destruct Hc as [Hms _]; discriminate|].
  destruct Hc as (Hms & Herr & Hdb).
  destruct terr as [te|]; [discriminate|]. cbn [is_nil] in Hdb.
  destruct (storage_CreateSnapshot_pure (db w) kind key parent)
    as [d' [snap ce]] eqn:Hpure.
  cbn [fst snd] in *.
  destruct ce as [ce|]; [destruct Hsh as [_ Hsh]; discriminate|].
  destruct (storage_CreateSnapshot_pure_ok _ _ _ _ _ _ Hpure)
    as (r & Hr & Hsnap & Hkind & Hk & Hfresh & Hrec).
  inversion Hms; subst l; clear Hms.
  (* the run of [Remove] *)
  unfold Snapshotter.Remove, log, emit.
  set (w1' := mkWorld (trace w1 ++ [EvLog Debug "remove" None]) (db w1)
                      (tx w1) (closeOnce w1)).
  pose proof (SnapFacts.withTransaction_spec env true tt
                (err ← Snapshotter.removeDevice env dm key; mret (tt, err))
                w1') as Hwt.
  go_unfold. cbv beta in Hwt. fold w1'.
  change (trace w1') with (trace w1 ++ [EvLog Debug "remove" None]) in Hwt.
  rewrite Hb in Hwt.
  destruct (SnapFacts.removeDevice_spec env dm key (tx_opened true w1')
              (db w1) eq_refl)
    as (derr & rnew & Hrd & Hshape).
  rewrite Hrd in Hwt. cbv zeta in Hwt.
  destruct Hwt as (cerr & cnew & w3 & Hrun3 & Htr & _ & _ & Hcalls & Hdb3).
  rewrite Hrun3. cbn [trace db tx closeOnce] in *.
  assert (Hpure' : storage_Remove_pure (db w1) key
                   = (mkDB (delete key (records (db w1))) (sequence (db w1)),
                      (pretty (rec_id r), mkInfo (rec_kind r) key (rec_parent r),
                       None))).
  { unfold storage_Remove_pure. rewrite Hdb, Hr.
    rewrite <- Hdb, Hchild. reflexivity. }
  rewrite Hpure' in Hshape, Hdb3. cbn [fst snd] in Hshape, Hdb3.
  exists (getDeviceName (Snapshotter.config dm) (pretty (rec_id r))),
    (pretty (rec_id r), mkInfo (rec_kind r) key (rec_parent r)),
    derr, cerr,
    (tx_error derr cerr
       (if negb (is_nil derr) || negb true then "rollback failed"
        else "commit failed")),
    ([EvLog Debug "remove" None; EvBegin true None] ++ rnew ++ cnew), w3.
  split; [reflexivity|].
  split; [rewrite Htr; unfold tx_opened, w1'; cbn [trace];
          rewrite <- !app_assoc; reflexivity|].
  split.
  { unfold calls in *. cbn [app List.filter is_log negb].
    rewrite List.filter_app, Hcalls, Hshape. destruct derr; reflexivity. }
  split.
  { unfold buildMounts, getDevicePath. rewrite <- Hsnap. reflexivity. }
  intros -> ->. split; [reflexivity|].
  cbn [negb is_nil orb] in Hdb3. rewrite Hdb3. cbn [records].
  rewrite Hdb, Hrec, delete_insert_eq. apply delete_id. exact Hfresh.
Qed.

(** ** The older revision: [complete] *)

Lemma old_createSnapshot_spec (dm : Devmapper.devmapper) (kind : Kind)
    (key parent : string) (w0 : World) :
  let created := storage_CreateSnapshot_pure (db w0) kind key parent in
  let snap := fst (snd created) in
  let mounts := buildMounts env (Devmapper.config dm) snap in
  exists (ms : option (list Mount)) (err : option error) (new : list event)
         (w' : World),
    Devmapper.createSnapshot env dm kind key parent w0 = (Returned (ms, err), w')
    /\ trace w' = trace w0 ++ new
    /\ List.filter is_RemoveDevice new = []
    /\ ((exists e,
           calls new = [EvBegin true (Some e)]
           /\ ms = None /\ err = Some e /\ db w' = db w0)
        \/ (exists (body : list event) (cerr : option error) (terr : option error),
              calls new
              = EvBegin true None
                :: EvCreateSnapshot kind key parent (snd created)
                :: body ++ [if is_nil cerr then EvCommit terr
                            else EvRollback terr]
              /\ tx w' = None
              /\ match snd (snd created) with
                 | Some e => body = [] /\ cerr = Some e
                 | None =>
                     device_steps env (Devmapper.config dm) snap body ms cerr
                 end
              /\ match cerr with
                 | Some e => ms = None /\ err = Some e /\ db w' = db w0
                 | None =>
                     ms = Some mounts
                     /\ err = None
                     /\ db w' = (if is_nil terr then fst created else db w0)
                 end)).
Proof.
  intros created snap mounts.
  unfold Devmapper.createSnapshot, Devmapper.complete, TransactionContext,
    Rollback, Commit, storage_CreateSnapshot, mkfs, get_tx, set_tx, get_db,
    set_db, log, emit, ask, device_steps.
  go_unfold. cbn [trace db tx closeOnce].
  destruct (store_Begin env true (trace w0)) as [be|] eqn:Hb.
  { eexists _, _, [_], _. split; [reflexivity|]. cbn [trace db].
    split; [reflexivity|]. split; [reflexivity|]. left. exists be. auto. }
  subst mounts snap created. cbn [trace db tx closeOnce].
  destruct (storage_CreateSnapshot_pure (db w0) kind key parent)
    as [d' [snap [se|]]] eqn:Hpure; cbn [trace db tx closeOnce fst snd].
  { match goal with |- context [tx_Rollback env ?t] =>
      destruct (tx_Rollback env t) as [te|] eqn:Hr end;
      cbn [trace db tx closeOnce]; rewrite <- ?app_assoc; cbn [app].
    - eexists _, _, [_; _; _; _], _. split; [reflexivity|].
      cbn [trace db tx]. split; [reflexivity|]. split; [reflexivity|].
      right. exists [], (Some se), (Some te). repeat split.
    - eexists _, _, [_; _; _], _. split; [reflexivity|].
      cbn [trace db tx]. split; [reflexivity|]. split; [reflexivity|].
      right. exists [], (Some se), None. repeat split. }
  destruct (ParentIDs snap) as [|pid pids]; cbn [trace db tx closeOnce].
  - match goal with |- context [pool_CreateThinDevice env ?n ?z ?t] =>
      destruct (pool_CreateThinDevice env n z t) as [did [ce|]] end;
      cbn [trace db tx closeOnce fst snd]; rewrite <- ?app_assoc; cbn [app].
    { match goal with |- context [tx_Rollback env ?t] =>
        destruct (tx_Rollback env t) as [te|] eqn:Hr end;
        cbn [trace db tx closeOnce]; rewrite <- ?app_assoc; cbn [app].
      - eexists _, _, (_ :: _ :: _ :: _ :: _ :: _ :: [_]), _.
        split; [reflexivity|].
        cbn [trace db tx]. split; [reflexivity|]. split; [reflexivity|].
        right. eexists [_], (Some ce), (Some te).
        split; [reflexivity|]. split; [reflexivity|].
        split; [left; eauto|]. repeat split.
      - eexists _, _, (_ :: _ :: _ :: _ :: _ :: [_]), _.
        split; [reflexivity|].
        cbn [trace db tx]. split; [reflexivity|]. split; [reflexivity|].
        right. eexists [_], (Some ce), None.
        split; [reflexivity|]. split; [reflexivity|].
        split; [left; eauto|]. repeat split. }
    match goal with |- context [exec_mkfs env ?a ?t] =>
      destruct (exec_mkfs env a t) as [output [me|]] end;
      cbn [trace db tx closeOnce fst snd]; rewrite <- ?app_assoc; cbn [app].
    { match goal with |- context [tx_Rollback env ?t] =>
        destruct (tx_Rollback env t) as [te|] eqn:Hr end;
        cbn [trace db tx closeOnce]; rewrite <- ?app_assoc; cbn [app].
      - eexists _, _, (_ :: _ :: _ :: _ :: _ :: _ :: _ :: _ :: _ :: [_]), _.
        split; [reflexivity|].
        cbn [trace db tx]. split; [reflexivity|]. split; [reflexivity|].
        right. eexists [_; _], (Some me), (Some te).
        split; [reflexivity|]. split; [reflexivity|].
        split; [right; left; eauto|]. repeat split.
      - eexists _, _, (_ :: _ :: _ :: _ :: _ :: _ :: _ :: _ :: [_]), _.
        split; [reflexivity|].
        cbn [trace db tx]. split; [reflexivity|]. split; [reflexivity|].
        right. eexists [_; _], (Some me), None.
        split; [reflexivity|]. split; [reflexivity|].
        split; [right; left; eauto|]. repeat split. }
    match goal with |- context [tx_Commit env ?t] =>
      destruct (tx_Commit env t) as [te|] eqn:Hr end;
      cbn [trace db tx closeOnce]; rewrite <- ?app_assoc; cbn [app].
    + eexists _, _, (_ :: _ :: _ :: _ :: _ :: _ :: _ :: _ :: _ :: _ :: [_]), _.
      split; [reflexivity|].
      cbn [trace db tx]. split; [reflexivity|]. split; [reflexivity|].
      right. eexists [_; _; _], None, (Some te).
      split; [reflexivity|]. split; [reflexivity|].
      split; [right; right; eauto|]. repeat split.
    + eexists _, _, (_ :: _ :: _ :: _ :: _ :: _ :: _ :: _ :: _ :: [_]), _.
      split; [reflexivity|].
      cbn [trace db tx]. split; [reflexivity|]. split; [reflexivity|].
      right. eexists [_; _; _], None, None.
      split; [reflexivity|]. split; [reflexivity|].
      split; [right; right; eauto|]. repeat split.
  - match goal with |- context [pool_CreateSnapshotDevice env ?p ?n ?z ?t] =>
      destruct (pool_CreateSnapshotDevice env p n z t) as [did [ce|]] end;
      cbn [trace db tx closeOnce fst snd]; rewrite <- ?app_assoc; cbn [app].
    { match goal with |- context [tx_Rollback env ?t] =>
        destruct (tx_Rollback env t) as [te|] eqn:Hr end;
        cbn [trace db tx closeOnce]; rewrite <- ?app_assoc; cbn [app].
      - eexists _, _, (_ :: _ :: _ :: _ :: _ :: _ :: [_]), _.
        split; [reflexivity|].
        cbn [trace db tx]. split; [reflexivity|]. split; [reflexivity|].
        right. eexists [_], (Some ce), (Some te).
        split; [reflexivity|]. split; [reflexivity|].
        split; [left; eauto|]. repeat split.
      - eexists _, _, (_ :: _ :: _ :: _ :: _ :: [_]), _.
        split; [reflexivity|].
        cbn [trace db tx]. split; [reflexivity|]. split; [reflexivity|].
        right. eexists [_], (Some ce), None.
        split; [reflexivity|]. split; [reflexivity|].
        split; [left; eauto|]. repeat split. }
    match goal with |- context [tx_Commit env ?t] =>
      destruct (tx_Commit env t) as [te|] eqn:Hr end;
      cbn [trace db tx closeOnce]; rewrite <- ?app_assoc; cbn [app].
    + eexists _, _, (_ :: _ :: _ :: _ :: _ :: _ :: _ :: [_]), _.
      split; [reflexivity|].
      cbn [trace db tx]. split; [reflexivity|]. split; [reflexivity|].
      right. eexists [_; _], None, (Some te).
      split; [reflexivity|]. split; [reflexivity|].
      split; [right; eauto|]. repeat split.
    + eexists _, _, (_ :: _ :: _ :: _ :: _ :: _ :: [_]), _.
      split; [reflexivity|].
      cbn [trace db tx]. split; [reflexivity|]. split; [reflexivity|].
      right. eexists [_; _], None, None.
      split; [reflexivity|]. split; [reflexivity|].
      split; [right; eauto|]. repeat split.
Qed.

(** X19.  [Prepare] and [View] of the older revision make the same
    calls as the later one, but [complete] returns the error it was
    given and only logs what [Commit] or [Rollback] answer.  So when the
    commit fails they return the mounts and a nil error although the
    snapshot is not recorded, and a failed step returns its own error
    whatever the rollback answered. *)
Theorem old_Prepare_hides_commit_failure (dm : Devmapper.devmapper)
    (kind : Kind)
    (op : string -> string -> M World (option (list Mount) * option error))
    (key parent : string) (w : World) :
  (kind = KindActive /\ op = Devmapper.Prepare env dm)
  \/ (kind = KindView /\ op = Devmapper.View env dm) ->
  let created := storage_CreateSnapshot_pure (db w) kind key parent in
  let snap := fst (snd created) in
  let mounts := buildMounts env (Devmapper.config dm) snap in
  exists (ms : option (list Mount)) (err : option error) (new : list event)
         (w' : World),
    op key parent w = (Returned (ms, err), w')
    /\ trace w' = trace w ++ new
    /\ List.filter is_RemoveDevice new = []
    /\ ((exists e,
           calls new = [EvBegin true (Some e)]
           /\ ms = None /\ err = Some e /\ db w' = db w)
        \/ (exists (body : list event) (cerr : option error) (terr : option error),
              calls new
              = EvBegin true None
                :: EvCreateSnapshot kind key parent (snd created)
                :: body ++ [if is_nil cerr then EvCommit terr
                            else EvRollback terr]
              /\ tx w' = None
              /\ match snd (snd created) with
                 | Some e => body = [] /\ cerr = Some e
                 | None =>
                     device_steps env (Devmapper.config dm) snap body ms cerr
                 end
              /\ match cerr with
                 | Some e => ms = None /\ err = Some e /\ db w' = db w
                 | None =>
                     ms = Some mounts
                     /\ err = None
                     /\ db w' = (if is_nil terr then fst created else db w)
                 end)).
Proof.
  intros Hop created snap mounts.
  set (w0 := mkWorld (trace w ++ [EvLog Debug "prepare" None]) (db w) (tx w)
                     (closeOnce w)).
  destruct (old_createSnapshot_spec dm kind key parent w0)
    as (ms & err & new & w' & Hrun & Htr & Hnorm & Hcases).
  cbv zeta in Hcases. cbn [db w0] in Hcases.
  fold created in Hcases. fold snap in Hcases. fold mounts in Hcases.
  exists ms, err, (EvLog Debug "prepare" None :: new), w'.
  split.
  { destruct Hop as [[-> ->] | [-> ->]]; exact Hrun. }
  split; [rewrite Htr; unfold w0; cbn [trace]; rewrite <- app_assoc;
          reflexivity|].
  split; [exact Hnorm|]. exact Hcases.
Qed.

(** X20.  [Mounts] of the older revision returns the error of the
    read transaction or of the fetch, with no mounts, and the mounts of
    the fetched snapshot otherwise.  Once the transaction is open it is
    rolled back exactly once, after the fetch; the database is never
    changed. *)
Theorem old_Mounts_returns_fetch_error (dm : Devmapper.devmapper)
    (key : string) (w : World) :
  let began := store_Begin env false (trace w ++ [EvLog Debug "mounts" None]) in
  let fetched := storage_GetSnapshot_pure (db w) key in
  exists (new : list event) (w' : World),
    Devmapper.Mounts env dm key w
    = (Returned (match began, fetched with
                 | Some e, _ => (None, Some e)
                 | None, (_, Some e) => (None, Some e)
                 | None, (snap, None) =>
                     (Some (buildMounts env (Devmapper.config dm) snap), None)
                 end),
       w')
    /\ trace w' = trace w ++ new
    /\ db w' = db w
    /\ match began with
       | Some e => calls new = [EvBegin false (Some e)]
       | None =>
           tx w' = None
           /\ exists terr,
                calls new = [EvBegin false None; EvGetSnapshot key fetched;
                             EvRollback terr]
       end.
Proof.
  intros began fetched.
  unfold Devmapper.Mounts, TransactionContext, Rollback, storage_GetSnapshot,
    get_tx, set_tx, get_db, log, emit, ask.
  go_unfold. cbn [trace db tx closeOnce]. fold began.
  destruct began as [be|].
  { eexists [_; _], _. split; [reflexivity|]. cbn [trace db].
    rewrite <- app_assoc. repeat split. }
  cbn [trace db tx closeOnce]. fold fetched.
  destruct fetched as [snap [fe|]]; cbn [trace db tx closeOnce];
    rewrite <- ?app_assoc; cbn [app];
    (eexists (_ :: _ :: _ :: [_]), _; split; [reflexivity|]);
    cbn [trace db tx]; (split; [reflexivity|]); (split; [reflexivity|]);
    (split; [reflexivity|]); eexists; reflexivity.
Qed.

(** X21.  Every way [Remove] of the older revision can run: the
    record is deleted in a writable transaction, then the pool is asked
    to remove the device named after the record's id, without a flag.
    A refused deletion or removal is returned as it is, after a
    rollback whose own error is only logged.  After a removal that
    succeeded the transaction is committed and nil is returned whatever
    the commit answered: when it fails the device is gone and the record
    is still in the database. *)
Theorem old_Remove_outcomes (dm : Devmapper.devmapper) (key : string)
    (w : World) :
  let removed := storage_Remove_pure (db w) key in
  exists (out : option error) (new : list event) (w' : World),
    Devmapper.Remove env dm key w = (Returned out, w')
    /\ trace w' = trace w ++ new
    /\ ((exists e,
           calls new = [EvBegin true (Some e)]
           /\ out = Some e /\ db w' = db w)
        \/ (exists e terr,
              snd (snd removed) = Some e
              /\ calls new = [EvBegin true None;
                              EvStorageRemove key (snd removed);
                              EvRollback terr]
              /\ out = Some e /\ db w' = db w)
        \/ (exists e terr,
              snd (snd removed) = None
              /\ calls new = [EvBegin true None;
                              EvStorageRemove key (snd removed);
                              EvRemoveDevice
                                (getDeviceName (Devmapper.config dm)
                                               (fst (fst (snd removed))))
                                None (Some e);
                              EvRollback terr]
              /\ out = Some e /\ db w' = db w)
        \/ (exists cerr,
              snd (snd removed) = None
              /\ calls new = [EvBegin true None;
                              EvStorageRemove key (snd removed);
                              EvRemoveDevice
                                (getDeviceName (Devmapper.config dm)
                                               (fst (fst (snd removed))))
                                None None;
                              EvCommit cerr]
              /\ out = None
              /\ db w' = (if is_nil cerr then fst removed else db w))).
Proof.
  intros removed.
  unfold Devmapper.Remove, Devmapper.complete, TransactionContext, Rollback,
    Commit, storage_Remove, get_tx, set_tx, get_db, set_db, log, emit, ask.
  go_unfold. cbn [trace db tx closeOnce].
  destruct (store_Begin env true (trace w ++ [EvLog Debug "remove" None]))
    as [be|].
  { eexists _, [_; _], _. split; [reflexivity|]. cbn [trace db].
    rewrite <- app_assoc. split; [reflexivity|]. left. exists be. auto. }
  cbn [trace db tx closeOnce]. subst removed.
  destruct (storage_Remove_pure (db w) key) as [d' [[id info] [re|]]];
    cbn [trace db tx closeOnce fst snd].
  { match goal with |- context [tx_Rollback env ?t] =>
      destruct (tx_Rollback env t) as [te|] end;
      cbn [trace db tx closeOnce]; rewrite <- ?app_assoc; cbn [app].
    - eexists _, (_ :: _ :: _ :: _ :: [_]), _. split; [reflexivity|].
      cbn [trace db]. split; [reflexivity|]. right; left.
      exists re, (Some te). auto.
    - eexists _, (_ :: _ :: _ :: [_]), _. split; [reflexivity|].
      cbn [trace db]. split; [reflexivity|]. right; left.
      exists re, None. auto. }
  match goal with |- context [pool_RemoveDevice env ?n ?f ?t] =>
    destruct (pool_RemoveDevice env n f t) as [de|] end;
    cbn [trace db tx closeOnce]; rewrite <- ?app_assoc; cbn [app].
  { match goal with |- context [tx_Rollback env ?t] =>
      destruct (tx_Rollback env t) as [te|] end;
      cbn [trace db tx closeOnce]; rewrite <- ?app_assoc; cbn [app].
    - eexists _, (_ :: _ :: _ :: _ :: _ :: _ :: [_]), _.
      split; [reflexivity|].
      cbn [trace db]. split; [reflexivity|]. right; right; left.
      exists de, (Some te). auto.
    - eexists _, (_ :: _ :: _ :: _ :: _ :: [_]), _. split; [reflexivity|].
      cbn [trace db]. split; [reflexivity|]. right; right; left.
      exists de, None. auto. }
  match goal with |- context [tx_Commit env ?t] =>
    destruct (tx_Commit env t) as [te|] end;
    cbn [trace db tx closeOnce]; rewrite <- ?app_assoc; cbn [app].
  - eexists _, (_ :: _ :: _ :: _ :: _ :: [_]), _. split; [reflexivity|].
    cbn [trace db]. split; [reflexivity|]. right; right; right.
    exists (Some te). auto.
  - eexists _, (_ :: _ :: _ :: _ :: [_]), _. split; [reflexivity|].
    cbn [trace db]. split; [reflexivity|]. right; right; right.
    exists None. auto.
Qed.

(** ** [NewSnapshotter] *)

(** X17.  Every way [NewSnapshotter] can run: the configuration is
    loaded, the root directory made (an [EEXIST] answer is accepted),
    the MetaStore opened at [<root>/metadata.db], the pool opened, in
    this order, each failure ending the run with its error, wrapped for
    the directory and for the MetaStore.  It never closes anything: when
    the pool cannot be opened the MetaStore it has opened stays open and
    no snapshotter is returned that could close it. *)
Theorem NewSnapshotter_outcomes (configPath : string) (w : World) :
  exists (out : outcome (option Snapshotter.Snapshotter * option error))
         (new : list event),
    Snapshotter.NewSnapshotter env configPath w
    = (out, mkWorld (trace w ++ new) (db w) (tx w) (closeOnce w))
    /\ List.filter is_close new = []
    /\ ((exists c e,
           calls new = [EvLoadConfig configPath (c, Some e)]
           /\ out = Returned (None, Some e))
        \/ (calls new = [EvLoadConfig configPath (None, None)]
            /\ out = Panicked nil_deref)
        \/ (exists config made,
              let path := Snapshotter.filepath_Join (RootPath config)
                                                    metadataFileName in
              (made = None \/ made = Some (Errno 17))
              /\ ((exists e,
                     e <> Errno 17
                     /\ calls new
                        = [EvLoadConfig configPath (Some config, None);
                           EvMkdirAll (RootPath config) (Some e)]
                     /\ out = Returned
                                (None,
                                 Some (errors_Wrap e
                                         "failed to create root directory: %s")))
                  \/ (exists e,
                        calls new
                        = [EvLoadConfig configPath (Some config, None);
                           EvMkdirAll (RootPath config) made;
                           EvNewMetaStore path (Some e)]
                        /\ out = Returned
                                   (None,
                                    Some (errors_Wrap e
                                            "failed to create metastore")))
                  \/ (exists e,
                        calls new
                        = [EvLoadConfig configPath (Some config, None);
                           EvMkdirAll (RootPath config) made;
                           EvNewMetaStore path None;
                           EvNewPoolDevice (Some e)]
                        /\ out = Returned (None, Some e))
                  \/ (calls new
                      = [EvLoadConfig configPath (Some config, None);
                         EvMkdirAll (RootPath config) made;
                         EvNewMetaStore path None;
                         EvNewPoolDevice None]
                      /\ out = Returned
                                 (Some (Snapshotter.mkSnapshotter config
                                          [Snapshotter.store_Close_fn;
                                           Snapshotter.poolDevice_Close_fn]),
                                  None))))).
Proof.
  unfold Snapshotter.NewSnapshotter, log, emit, ask. go_unfold.
  cbn [trace db tx closeOnce].
  match goal with |- context [LoadConfig env ?p ?t] =>
    destruct (LoadConfig env p t) as [[c|] [e|]] end;
    cbn [trace db tx closeOnce]; rewrite <- ?app_assoc; cbn [app].
  1,3: eexists _, [_; _]; (split; [reflexivity|]); (split; [reflexivity|]);
       left; eexists _, _; split; reflexivity.
  2: { eexists _, [_; _]. split; [reflexivity|]. split; [reflexivity|].
       right; left. split; reflexivity. }
  assert (Hexist : forall e, Snapshotter.os_IsExist e = true -> e = Errno 17).
  { intros e He. destruct e as [| | |n|]; try discriminate.
    destruct n as [|p|p]; try discriminate.
    repeat (destruct p as [p|p|]; try discriminate). reflexivity. }
  match goal with |- context [os_MkdirAll env ?p ?t] =>
    destruct (os_MkdirAll env p t) as [me|] eqn:Hmk end.
  - destruct (Snapshotter.os_IsExist me) eqn:Hex; cbn [negb].
    + apply Hexist in Hex. subst me.
      cbn [trace db tx closeOnce]; rewrite <- ?app_assoc; cbn [app].
      match goal with |- context [storage_NewMetaStore env ?p ?t] =>
        destruct (storage_NewMetaStore env p t) as [se|] end;
        cbn [trace db tx closeOnce]; rewrite <- ?app_assoc; cbn [app].
      { eexists _, [_; _; _; _]. split; [reflexivity|]. split; [reflexivity|].
        right; right. exists c, (Some (Errno 17)). split; [auto|].
        right; left. exists se. split; reflexivity. }
      match goal with |- context [NewPoolDevice env ?p ?t] =>
        destruct (NewPoolDevice env p t) as [pe|] end;
        cbn [trace db tx closeOnce]; rewrite <- ?app_assoc; cbn [app].
      { eexists _, [_; _; _; _; _]. split; [reflexivity|].
        split; [reflexivity|].
        right; right. exists c, (Some (Errno 17)). split; [auto|].
        right; right; left. exists pe. split; reflexivity. }
      eexists _, [_; _; _; _; _]. split; [reflexivity|]. split; [reflexivity|].
      right; right. exists c, (Some (Errno 17)). split; [auto|].
      right; right; right. split; reflexivity.
    + cbn [trace db tx closeOnce]; rewrite <- ?app_assoc; cbn [app].
      eexists _, [_; _; _]. split; [reflexivity|]. split; [reflexivity|].
      right; right. exists c, None. split; [auto|]. left. exists me.
      split; [intros ->; discriminate|]. split; reflexivity.
  - cbn [trace db tx closeOnce]; rewrite <- ?app_assoc; cbn [app].
    match goal with |- context [storage_NewMetaStore env ?p ?t] =>
      destruct (storage_NewMetaStore env p t) as [se|] end;
      cbn [trace db tx closeOnce]; rewrite <- ?app_assoc; cbn [app].
    { eexists _, [_; _; _; _]. split; [reflexivity|]. split; [reflexivity|].
      right; right. exists c, None. split; [auto|].
      right; left. exists se. split; reflexivity. }
    match goal with |- context [NewPoolDevice env ?p ?t] =>
      destruct (NewPoolDevice env p t) as [pe|] end;
      cbn [trace db tx closeOnce]; rewrite <- ?app_assoc; cbn [app].
    { eexists _, [_; _; _; _; _]. split; [reflexivity|].
      split; [reflexivity|].
      right; right. exists c, None. split; [auto|].
      right; right; left. exists pe. split; reflexivity. }
    eexists _, [_; _; _; _; _]. split; [reflexivity|]. split; [reflexivity|].
    right; right. exists c, None. split; [auto|].
    right; right; right. split; reflexivity.
Qed.

End WithEnv.

(** ** Runs on concrete environments *)

(** Witness of X13: a read-only transaction whose callback fails. *)
Lemma withTransaction_reports_errors_witness :
  store_Begin env_ok false (trace w_a) = None
  /\ fst (Snapshotter.withTransaction env_ok false zero_Snapshot
            (storage_GetSnapshot "zz") w_a)
     = Returned (zero_Snapshot,
                 Some (errors_Wrap (errdefs ErrNotFound)
                                   "snapshot does not exist"))
  /\ calls (trace (snd (Snapshotter.withTransaction env_ok false zero_Snapshot
                          (storage_GetSnapshot "zz") w_a)))
     = [EvBegin false None;
        EvGetSnapshot "zz"
          (zero_Snapshot,
           Some (errors_Wrap (errdefs ErrNotFound) "snapshot does not exist"));
        EvRollback None].
Proof.
  split; [reflexivity|].
  destruct (withTransaction_reports_errors env_ok false zero_Snapshot
              (storage_GetSnapshot "zz") w_a
              (snd (storage_GetSnapshot "zz" (tx_opened false w_a)))
              zero_Snapshot
              (Some (errors_Wrap (errdefs ErrNotFound)
                                 "snapshot does not exist"))
              eq_refl eq_refl
              (fun e H => match H in (_ = o)
                                return match o with
                                       | Some e => flatten e = [e]
                                       | None => True
                                       end
                          with eq_refl => eq_refl end))
    as (terr & new & w3 & Hrun & _ & Hcalls & _).
  destruct terr as [te|]; vm_compute in Hrun; inversion Hrun; subst.
  split; vm_compute; reflexivity.
Defined.

(** A snapshot on top of the committed image ["img"] is a thin snapshot
    of the image's device and is not formatted. *)
Lemma Prepare_on_committed_parent_example :
  fst (Snapshotter.Prepare env_ok dm0 "c" "img" w_img)
  = Returned (Some [mkMount "/dev/mapper/p0-snap-2" "ext4" []], None)
  /\ calls (trace (snd (Snapshotter.Prepare env_ok dm0 "c" "img" w_img)))
     = [EvBegin true None;
        EvCreateSnapshot KindActive "c" "img"
          (mkSnapshot KindActive "2" ["1"], None);
        EvCreateSnapshotDevice "p0-snap-1" "p0-snap-2" 1073741824 None;
        EvTempMount [mkMount "/dev/mapper/p0-snap-2" "ext4" []] None;
        EvCommit None].
Proof. vm_compute. split; reflexivity. Qed.

(** Witness of X14: [mkfs.ext4] fails, so [Prepare] rolls back; the thin
    device it had created is not removed. *)
Lemma Prepare_and_View_are_transactional_witness :
  fst (Snapshotter.Prepare env_mkfs_fails dm0 "a" "" w_empty)
  = Returned (None, Some boom)
  /\ calls (trace (snd (Snapshotter.Prepare env_mkfs_fails dm0 "a" ""
                          w_empty)))
     = [EvBegin true None;
        EvCreateSnapshot KindActive "a" "" (mkSnapshot KindActive "1" [], None);
        EvCreateThinDevice "p0-snap-1" 1073741824 None;
        EvMkfs (mkfs_args "/dev/mapper/p0-snap-1") ("mke2fs: no", Some boom);
        EvRollback None]
  /\ db (snd (Snapshotter.Prepare env_mkfs_fails dm0 "a" "" w_empty))
     = db_empty.
Proof.
  destruct (Prepare_and_View_are_transactional env_mkfs_fails dm0 KindActive
              (Snapshotter.Prepare env_mkfs_fails dm0) "a" "" w_empty
              (or_introl (conj eq_refl eq_refl)))
    as (ms & err & new & w' & Hrun & _).
  rewrite Hrun. vm_compute in Hrun. inversion Hrun; subst.
  repeat split; reflexivity.
Defined.

(** Witness of X15: [View] of a fresh key, then [Mounts] of it. *)
Lemma Prepare_then_Mounts_witness :
  fst (Snapshotter.View env_ok dm0 "v" "img" w_img)
  = Returned (Some [mkMount "/dev/mapper/p0-snap-2" "ext4" ["ro"]], None)
  /\ fst (Snapshotter.Mounts env_ok dm0 "v"
            (snd (Snapshotter.View env_ok dm0 "v" "img" w_img)))
     = Returned (Some [mkMount "/dev/mapper/p0-snap-2" "ext4" ["ro"]], None).
Proof.
  assert (H : Snapshotter.View env_ok dm0 "v" "img" w_img
              = (Returned (Some [mkMount "/dev/mapper/p0-snap-2" "ext4" ["ro"]],
                           None),
                 snd (Snapshotter.View env_ok dm0 "v" "img" w_img)))
    by (vm_compute; reflexivity).
  split; [rewrite H; reflexivity|].
  apply (Prepare_then_Mounts env_ok dm0 KindView (Snapshotter.View env_ok dm0)
           "v" "img" w_img _ _ (or_intror (conj eq_refl eq_refl)) H eq_refl).
Defined.

(** Witness of X16: [Prepare] of ["a"], then [Remove] of it. *)
Lemma Remove_removes_prepared_device_witness :
  fst (Snapshotter.Prepare env_ok dm0 "a" "" w_empty)
  = Returned (Some [mkMount "/dev/mapper/p0-snap-1" "ext4" []], None)
  /\ calls (trace (snd (Snapshotter.Remove env_ok dm0 "a"
                          (snd (Snapshotter.Prepare env_ok dm0 "a" ""
                                  w_empty)))))
     = [EvBegin true None;
        EvCreateSnapshot KindActive "a" "" (mkSnapshot KindActive "1" [], None);
        EvCreateThinDevice "p0-snap-1" 1073741824 None;
        EvMkfs (mkfs_args "/dev/mapper/p0-snap-1") ("", None);
        EvTempMount [mkMount "/dev/mapper/p0-snap-1" "ext4" []] None;
        EvCommit None;
        EvBegin true None;
        EvStorageRemove "a" ("1", mkInfo KindActive "a" "", None);
        EvRemoveDevice "p0-snap-1" (Some true) None;
        EvCommit None]
  /\ records (db (snd (Snapshotter.Remove env_ok dm0 "a"
                         (snd (Snapshotter.Prepare env_ok dm0 "a" ""
                                 w_empty)))))
     = records db_empty.
Proof.
  assert (H : Snapshotter.Prepare env_ok dm0 "a" "" w_empty
              = (Returned (Some [mkMount "/dev/mapper/p0-snap-1" "ext4" []],
                           None),
                 snd (Snapshotter.Prepare env_ok dm0 "a" "" w_empty)))
    by (vm_compute; reflexivity).
  split; [rewrite H; reflexivity|].
  destruct (Remove_removes_prepared_device env_ok dm0 KindActive
              (Snapshotter.Prepare env_ok dm0) "a" "" w_empty _ _
              (or_introl (conj eq_refl eq_refl)) H eq_refl eq_refl)
    as (name & removed & derr & cerr & out & new & w2 & Hrun & _ & _ & _ & Hround).
  rewrite Hrun. cbn [snd].
  vm_compute in Hrun. inversion Hrun; subst.
  split; reflexivity.
Defined.

(** Witness of X19: the commit fails, yet the older [Prepare] reports
    success; the snapshot is not recorded and [Mounts] does not find it. *)
Lemma old_Prepare_hides_commit_failure_witness :
  fst (Devmapper.Prepare env_commit_fails old_dm0 "a" "" w_empty)
  = Returned (Some [mkMount "/dev/mapper/p0-snap-1" "ext4" []], None)
  /\ db (snd (Devmapper.Prepare env_commit_fails old_dm0 "a" "" w_empty))
     = db_empty
  /\ fst (Devmapper.Mounts env_commit_fails old_dm0 "a"
            (snd (Devmapper.Prepare env_commit_fails old_dm0 "a" "" w_empty)))
     = Returned (None,
                 Some (errors_Wrap (errdefs ErrNotFound)
                                   "snapshot does not exist")).
Proof.
  destruct (old_Prepare_hides_commit_failure env_commit_fails old_dm0
              KindActive (Devmapper.Prepare env_commit_fails old_dm0) "a" ""
              w_empty (or_introl (conj eq_refl eq_refl)))
    as (ms & err & new & w' & Hrun & _).
  rewrite Hrun. vm_compute in Hrun. inversion Hrun; subst.
  repeat split; vm_compute; reflexivity.
Defined.

(** The later revision on the same input: [Prepare] returns the mounts
    together with the wrapped commit error. *)
Lemma Prepare_reports_commit_failure_example :
  fst (Snapshotter.Prepare env_commit_fails dm0 "a" "" w_empty)
  = Returned (Some [mkMount "/dev/mapper/p0-snap-1" "ext4" []],
              Some (errors_Wrap boom "commit failed"))
  /\ db (snd (Snapshotter.Prepare env_commit_fails dm0 "a" "" w_empty))
     = db_empty.
Proof. vm_compute. split; reflexivity. Qed.

(** The older [Remove] when the commit fails: the device is removed, the
    record stays, and no error is returned. *)
Lemma old_Remove_hides_commit_failure_example :
  fst (Devmapper.Remove env_commit_fails old_dm0 "a" w_a) = Returned None
  /\ calls (trace (snd (Devmapper.Remove env_commit_fails old_dm0 "a" w_a)))
     = [EvBegin true None;
        EvStorageRemove "a" ("1", mkInfo KindActive "a" "", None);
        EvRemoveDevice "p0-snap-1" None None;
        EvCommit (Some boom)]
  /\ db (snd (Devmapper.Remove env_commit_fails old_dm0 "a" w_a)) = db_a.
Proof. vm_compute. repeat split; reflexivity. Qed.

(** The pool cannot be opened: [NewSnapshotter] returns the error and the
    MetaStore it has opened stays open. *)
Lemma NewSnapshotter_pool_failure_example :
  Snapshotter.NewSnapshotter env_pool_fails "/etc/dm.json" w_empty
  = (Returned (None, Some boom),
     mkWorld [EvLog Info "creating devmapper snapshotter" None;
              EvLoadConfig "/etc/dm.json" (Some config0, None);
              EvMkdirAll "/var/lib/dm" None;
              EvNewMetaStore "/var/lib/dm/metadata.db" None;
              EvNewPoolDevice (Some boom)] db_empty None false).
Proof. vm_compute. reflexivity. Qed.

End SnapMore.

(** * [Commit] *)

Module SnapCommitFacts.
Import Snap SnapEx SnapSpec SnapMoreSpec SnapMoreEx SnapshotterCommit.

Section WithEnv.
Context (env : Env).

Lemma storage_CommitActive_pure_error d key name d' id e :
  storage_CommitActive_pure d key name = (d', (id, Some e)) ->
  d' = d /\ flatten e = [e].
Proof.
  unfold storage_CommitActive_pure.
  destruct (records d !! name); [intros H; inversion H; subst; auto|].
  destruct (records d !! key) as [r|]; [|intros H; inversion H; subst; auto].
  destruct (negb (Kind_eqb (rec_kind r) KindActive));
    intros H; inversion H; subst; auto.
Qed.

Lemma storage_CommitActive_pure_ok d key name d' id :
  storage_CommitActive_pure d key name = (d', (id, None)) ->
  exists r,
    records d !! key = Some r
    /\ rec_kind r = KindActive
    /\ records d !! name = None
    /\ id = pretty (rec_id r)
    /\ records d'
       = <[name := mkSnapRec (rec_id r) KindCommitted (rec_parent r)
                             (rec_parentIDs r)]>
           (delete key (records d)).
Proof.
  unfold storage_CommitActive_pure.
  destruct (records d !! name) eqn:Hn; [intros H; inversion H|].
  destruct (records d !! key) as [r|] eqn:Hk; [|intros H; inversion H].
  destruct (Kind_eqb (rec_kind r) KindActive) eqn:Hkind; cbn [negb];
    intros H; inversion H; subst; clear H.
  exists r. split; [reflexivity|].
  split; [destruct (rec_kind r); try discriminate; reflexivity|].
  split; [reflexivity|]. split; reflexivity.
Qed.

Lemma storage_CreateSnapshot_pure_parent d kind key parent d' snap :
  storage_CreateSnapshot_pure d kind key parent = (d', (snap, None)) ->
  parent <> "" ->
  exists p,
    records d !! parent = Some p
    /\ rec_kind p = KindCommitted
    /\ ParentIDs snap = pretty (rec_id p) :: rec_parentIDs p.
Proof.
  unfold storage_CreateSnapshot_pure. intros H Hp.
  apply String.eqb_neq in Hp. rewrite Hp in H.
  destruct kind; try (inversion H; fail);
    (destruct (records d !! parent) as [p|]; [|inversion H; fail];
     destruct (Kind_eqb (rec_kind p) KindCommitted) eqn:Hk;
       [|inversion H; fail];
     destruct (records d !! key); inversion H; subst;
     exists p; split; [reflexivity|];
     split; [destruct (rec_kind p); try discriminate; reflexivity
            |reflexivity]).
Qed.

(** Every way [Commit] can run. *)
Lemma Commit_spec (dm : Snapshotter.Snapshotter) (name key : string)
    (w : World) :
  let committed := storage_CommitActive_pure (db w) key name in
  exists (out : option error) (new : list event) (w' : World),
    Commit env dm name key w = (Returned out, w')
    /\ trace w' = trace w ++ new
    /\ ((exists e,
           calls new = [EvBegin true (Some e)] /\ out = Some e
           /\ db w' = db w)
        \/ (exists terr,
              calls new
              = [EvBegin true None;
                 if is_nil (snd (snd committed)) then EvCommit terr
                 else EvRollback terr]
              /\ tx w' = None
              /\ match snd (snd committed) with
                 | Some e =>
                     db w' = db w
                     /\ out = reported (Some e) terr "rollback failed"
                 | None =>
                     out = option_map
                             (fun te => errors_Wrap te "commit failed") terr
                     /\ db w' = (if is_nil terr then fst committed else db w)
                 end)).
Proof.
  intros committed.
  unfold Commit, log, emit.
  set (w0 := mkWorld (trace w ++ [EvLog Debug "commit" None]) (db w) (tx w)
                     (closeOnce w)).
  pose proof (SnapFacts.withTransaction_spec env true tt
                ('(_, err) ← storage_CommitActive key name; mret (tt, err))
                w0) as Hwt.
  go_unfold. cbv beta in Hwt. fold w0.
  destruct (store_Begin env true (trace w0)) as [be|] eqn:Hb.
  { rewrite Hwt. cbn [trace db tx closeOnce]. eexists _, [_; _], _.
    split; [reflexivity|]. cbn [trace db]. unfold w0. cbn [trace].
    rewrite <- app_assoc. split; [reflexivity|]. left. exists be. auto. }
  assert (Hfn : storage_CommitActive key name (tx_opened true w0)
                = (Returned (snd committed),
                   mkWorld (trace w ++ [EvLog Debug "commit" None;
                                        EvBegin true None])
                           (db w) (Some (true, fst committed)) (closeOnce w))).
  { unfold storage_CommitActive, get_tx, set_tx, tx_opened, w0. go_unfold.
    cbn [trace db tx closeOnce]. subst committed.
    destruct (storage_CommitActive_pure (db w) key name) as [d' [id ce]].
    cbn [trace db tx closeOnce fst snd]. rewrite <- app_assoc. reflexivity. }
  rewrite Hfn in Hwt. destruct (snd committed) as [cid ce] eqn:Hsc.
  cbv zeta in Hwt.
  destruct Hwt as (terr & cnew & w3 & Hrun & Htr & _ & Htx & Hcalls & Hdb).
  rewrite Hrun. cbn [trace db tx closeOnce fst snd] in *.
  eexists _, ([EvLog Debug "commit" None; EvBegin true None] ++ cnew), w3.
  split; [reflexivity|].
  split; [rewrite Htr, <- app_assoc; reflexivity|].
  right. exists terr.
  split.
  { unfold calls in *. cbn [app List.filter is_log negb].
    rewrite Hcalls. destruct ce; reflexivity. }
  split; [exact Htx|].
  destruct ce as [ce|]; cbn [negb is_nil orb] in *.
  - split; [exact Hdb|].
    assert (Hflat : flatten ce = [ce]).
    { subst committed.
      destruct (storage_CommitActive_pure (db w) key name)
        as [d' [id x]] eqn:Hpure.
      cbn [snd] in Hsc. inversion Hsc; subst.
      exact (proj2 (storage_CommitActive_pure_error _ _ _ _ _ _ Hpure)). }
    unfold tx_error, reported, multierror_Append. cbn [default app].
    fold (flatten ce). rewrite Hflat. destruct terr; reflexivity.
  - split; [destruct terr; reflexivity|].
    rewrite Hdb. destruct terr; reflexivity.
Qed.

(** X18.  A snapshot prepared on a committed snapshot is a thin
    snapshot of that snapshot's device.  After [Prepare] of [key] and
    [Commit] of it as [name], both without error, a successful [Prepare]
    of a child on [name] makes one pool call, [CreateSnapshotDevice] from
    the device the first [Prepare] returned to the device the second
    returns, and formats nothing; the key [key] is gone from the
    database. *)
Theorem Prepare_on_committed_snapshots_its_device
    (dm : Snapshotter.Snapshotter) (key name child parent : string)
    (w w1 w2 w3 : World) (l l2 : list Mount) :
  Snapshotter.Prepare env dm key parent w = (Returned (Some l, None), w1) ->
  Commit env dm name key w1 = (Returned None, w2) ->
  name <> "" ->
  Snapshotter.Prepare env dm child name w2 = (Returned (Some l2, None), w3) ->
  exists (parentDevice device : string) (merr : option error)
         (new : list event),
    trace w3 = trace w2 ++ new
    /\ map Source l = [GetFullDevicePath env parentDevice]
    /\ map Source l2 = [GetFullDevicePath env device]
    /\ List.filter is_device_step new
       = [EvCreateSnapshotDevice parentDevice device
            (BaseImageSizeBytes (Snapshotter.config dm)) None;
          EvTempMount l2 merr]
    /\ records (db w2) !! key = None.
Proof.
  intros Hprep Hcommit Hname Hchild.
  (* the first [Prepare] *)
  destruct (SnapMore.create_in_transaction_spec env dm KindActive key parent
              (mkWorld (trace w ++ [EvLog Debug "prepare" None]) (db w) (tx w)
                       (closeOnce w)))
    as (ms & err & new & w' & Hrun' & _ & _ & _ & Hcases).
  rewrite <- SnapMore.Prepare_unfold, Hprep in Hrun'.
  inversion Hrun'; subst ms err w'; clear Hrun'.
  cbv zeta in Hcases. cbn [db] in Hcases.
  destruct Hcases as [(e & _ & Hms & _) | (body & cerr & terr & _ & Htx & Hsh & Hc)];
    [discriminate|].
  destruct cerr as [e|]; [destruct Hc as [Hms _]; discriminate|].
  destruct Hc as (Hms & Herr & Hdb).
  destruct terr as [te|]; [discriminate|]. cbn [is_nil] in Hdb.
  destruct (storage_CreateSnapshot_pure (db w) KindActive key parent)
    as [d' [snap ce]] eqn:Hpure.
  cbn [fst snd] in *.
  destruct ce as [ce|]; [destruct Hsh as [_ Hsh]; discriminate|].
  destruct (SnapMore.storage_CreateSnapshot_pure_ok _ _ _ _ _ _ Hpure)
    as (r & Hr & Hsnap & Hkind & _ & _ & _).
  inversion Hms; subst l; clear Hms Hsh.
  (* [Commit] *)
  destruct (Commit_spec dm name key w1) as (out & cnew & wc & Hrunc & _ & Hcc).
  rewrite Hcommit in Hrunc. inversion Hrunc; subst out wc; clear Hrunc.
  cbv zeta in Hcc.
  destruct Hcc as [(e & _ & He & _) | (terr & _ & _ & Hcc)]; [discriminate|].
  destruct (storage_CommitActive_pure (db w1) key name)
    as [d2 [id ce]] eqn:Hpc.
  cbn [fst snd] in Hcc.
  destruct ce as [ce|].
  { destruct Hcc as [_ Hout]. destruct terr; discriminate. }
  destruct Hcc as [Hout Hdb2]. destruct terr as [te|]; [discriminate|].
  cbn [is_nil] in Hdb2.
  destruct (storage_CommitActive_pure_ok _ _ _ _ _ Hpc)
    as (r' & Hr' & _ & Hfresh & _ & Hrec2).
  rewrite Hdb, Hr in Hr'. inversion Hr'; subst r'; clear Hr'.
  (* the second [Prepare] *)
  destruct (SnapMore.create_in_transaction_spec env dm KindActive child name
              (mkWorld (trace w2 ++ [EvLog Debug "prepare" None]) (db w2)
                       (tx w2) (closeOnce w2)))
    as (ms & err & new2 & w' & Hrun' & Htr2 & _ & _ & Hcases).
  rewrite <- SnapMore.Prepare_unfold, Hchild in Hrun'.
  inversion Hrun'; subst ms err w'; clear Hrun'.
  cbv zeta in Hcases. cbn [db trace] in Hcases, Htr2.
  destruct Hcases as [(e & _ & Hms & _)
                     | (body2 & cerr & terr & Hcalls2 & _ & Hsh & Hc)];
    [discriminate|].
  destruct cerr as [e|]; [destruct Hc as [Hms _]; discriminate|].
  destruct Hc as (Hms & _).
  destruct (storage_CreateSnapshot_pure (db w2) KindActive child name)
    as [d3 [snap2 ce]] eqn:Hpure2.
  cbn [fst snd] in *.
  destruct ce as [ce|]; [destruct Hsh as [_ Hsh]; discriminate|].
  destruct (storage_CreateSnapshot_pure_parent _ _ _ _ _ _ Hpure2 Hname)
    as (p & Hp & _ & Hpids).
  assert (Hp' : p = mkSnapRec (rec_id r) KindCommitted (rec_parent r)
                              (rec_parentIDs r)).
  { rewrite Hdb2, Hrec2, lookup_insert_eq in Hp. congruence. }
  subst p. cbn [rec_id rec_parentIDs] in Hpids.
  unfold device_steps in Hsh. rewrite Hpids in Hsh.
  destruct Hsh as [(e & _ & Hx & _) | (merr & Hbody & _ & _)];
    [rewrite Hx in Hms; discriminate|].
  inversion Hms; subst l2; clear Hms.
  exists (getDeviceName (Snapshotter.config dm) (pretty (rec_id r))),
    (getDeviceName (Snapshotter.config dm) (snap_ID snap2)), merr,
    (EvLog Debug "prepare" None :: new2).
  split; [rewrite Htr2, <- app_assoc; reflexivity|].
  split.
  { unfold buildMounts, getDevicePath. rewrite <- Hsnap. reflexivity. }
  split; [reflexivity|].
  split.
  - cbn [List.filter is_device_step].
    rewrite <- (SnapMore.snap_filter_calls is_device_step new2)
      by (intros x Hx; destruct x; simpl in *; congruence).
    rewrite Hcalls2, Hbody. reflexivity.
  - rewrite Hdb2, Hrec2.
    destruct (decide (name = key)) as [->|Hne].
    + rewrite Hdb, Hr in Hfresh. discriminate.
    + rewrite lookup_insert_ne by exact Hne. apply lookup_delete_eq.
Qed.

End WithEnv.

(** Witness of X18: prepare ["a"], commit it as ["img"], prepare ["b"] on
    ["img"]. *)
Lemma Prepare_on_committed_snapshots_its_device_witness :
  fst (Snapshotter.Prepare env_ok dm0 "a" "" w_empty)
  = Returned (Some [mkMount "/dev/mapper/p0-snap-1" "ext4" []], None)
  /\ fst (Commit env_ok dm0 "img" "a"
            (snd (Snapshotter.Prepare env_ok dm0 "a" "" w_empty)))
     = Returned None
  /\ fst (Snapshotter.Prepare env_ok dm0 "b" "img"
            (snd (Commit env_ok dm0 "img" "a"
                    (snd (Snapshotter.Prepare env_ok dm0 "a" "" w_empty)))))
     = Returned (Some [mkMount "/dev/mapper/p0-snap-2" "ext4" []], None)
  /\ List.filter is_device_step
       (trace (snd (Snapshotter.Prepare env_ok dm0 "b" "img"
                      (snd (Commit env_ok dm0 "img" "a"
                              (snd (Snapshotter.Prepare env_ok dm0 "a" ""
                                      w_empty)))))))
     = [EvCreateThinDevice "p0-snap-1" 1073741824 None;
        EvMkfs (mkfs_args "/dev/mapper/p0-snap-1") ("", None);
        EvTempMount [mkMount "/dev/mapper/p0-snap-1" "ext4" []] None;
        EvCreateSnapshotDevice "p0-snap-1" "p0-snap-2" 1073741824 None;
        EvTempMount [mkMount "/dev/mapper/p0-snap-2" "ext4" []] None].
Proof.
  set (w1 := snd (Snapshotter.Prepare env_ok dm0 "a" "" w_empty)).
  set (w2 := snd (Commit env_ok dm0 "img" "a" w1)).
  set (w3 := snd (Snapshotter.Prepare env_ok dm0 "b" "img" w2)).
  assert (H1 : Snapshotter.Prepare env_ok dm0 "a" "" w_empty
               = (Returned (Some [mkMount "/dev/mapper/p0-snap-1" "ext4" []],
                            None), w1))
    by (vm_compute; reflexivity).
  assert (H2 : Commit env_ok dm0 "img" "a" w1 = (Returned None, w2))
    by (vm_compute; reflexivity).
  assert (H3 : Snapshotter.Prepare env_ok dm0 "b" "img" w2
               = (Returned (Some [mkMount "/dev/mapper/p0-snap-2" "ext4" []],
                            None), w3))
    by (vm_compute; reflexivity).
  split; [rewrite H1; reflexivity|]. split; [rewrite H2; reflexivity|].
  split; [rewrite H3; reflexivity|].
  destruct (Prepare_on_committed_snapshots_its_device env_ok dm0 "a" "img" "b"
              "" w_empty w1 w2 w3 _ _ H1 H2 ltac:(discriminate) H3)
    as (pd & d & merr & new & Htr & _ & _ & Hsteps & _).
  vm_compute. reflexivity.
Defined.

End SnapCommitFacts.
